(** * Salesforce Data Cloud utilities: a shallow embedding and its properties

    The development follows [salesforce_datacloud_utils.py]: Python values of
    JSON shape, [json.dumps], the session context (a dict), the REST calls as
    a state-and-exception monad over a log of requests, and the methods of
    [SalesforceDataCloud] in source order. *)

From Stdlib Require Import ZArith String Ascii List Lia DecimalString.
From stdpp Require Import gmap strings list fin_maps.
Import ListNotations.
Local Open Scope string_scope.
Local Open Scope Z_scope.
Local Open Scope list_scope.
Local Open Scope stdpp_scope.

#[local] Set Warnings "-register-all".

(** ** Python values *)

(** The values that flow through the client are the ones [json.loads] can
    produce and [json.dumps] accepts: [None], booleans, integers, strings,
    lists and dicts with string keys.  A [string] stands for a Python [str]
    whose code points are below 256; a dict is its list of items in
    insertion order (keys pairwise distinct). *)
Inductive value : Type :=
| VNone
| VBool (b : bool)
| VInt (z : Z)
| VStr (s : string)
| VList (items : list value)
| VDict (items : list (string * value)).

Module Json.

(** [str(int)]: decimal digits, with a leading minus sign. *)
Definition str_of_int (z : Z) : string := NilZero.string_of_int (Z.to_int z).

Definition hex_digit (n : N) : ascii :=
  match n with
  | 0%N => "0" | 1%N => "1" | 2%N => "2" | 3%N => "3" | 4%N => "4"
  | 5%N => "5" | 6%N => "6" | 7%N => "7" | 8%N => "8" | 9%N => "9"
  | 10%N => "a" | 11%N => "b" | 12%N => "c" | 13%N => "d" | 14%N => "e"
  | _ => "f"
  end%char.

(** One character under [ensure_ascii=True]: [ESCAPE_ASCII] matches the
    backslash, the double quote and everything outside [' '..'~']; the
    short escapes come from [ESCAPE_DCT], the rest is [\u00xx]. *)
Definition escape_char (c : ascii) : string :=
  let n := N_of_ascii c in
  if (n =? 34)%N then String "\" (String c EmptyString)
  else if (n =? 92)%N then "\\"
  else if (n =? 8)%N then "\b"
  else if (n =? 12)%N then "\f"
  else if (n =? 10)%N then "\n"
  else if (n =? 13)%N then "\r"
  else if (n =? 9)%N then "\t"
  else if ((n <? 32) || (126 <? n))%N
       then "\u00" +:+ String (hex_digit (n / 16)) (String (hex_digit (n mod 16)) EmptyString)
  else String c EmptyString.

Fixpoint escape (s : string) : string :=
  match s with
  | EmptyString => EmptyString
  | String c s' => escape_char c +:+ escape s'
  end.

(** [py_encode_basestring_ascii] *)
Definition dquote : ascii := ascii_of_N 34.

Definition encode_str (s : string) : string :=
  String dquote (escape s +:+ String dquote EmptyString).

(** [', '.join(parts)] *)
Fixpoint join (parts : list string) : string :=
  match parts with
  | [] => EmptyString
  | [p] => p
  | p :: ps => p +:+ ", " +:+ join ps
  end.

(** [json.dumps(obj)] with the default separators [(', ', ': ')]. *)
Fixpoint dumps (v : value) : string :=
  match v with
  | VNone => "null"
  | VBool true => "true"
  | VBool false => "false"
  | VInt z => str_of_int z
  | VStr s => encode_str s
  | VList items => "[" +:+ join (List.map dumps items) +:+ "]"
  | VDict items =>
      "{" +:+ join (List.map (fun kv => encode_str (fst kv) +:+ ": " +:+ dumps (snd kv)) items) +:+ "}"
  end.

End Json.

(** ** Batch splitter *)

(** [len(json.dumps(item).encode('utf-8'))]: the dump is pure ASCII, so its
    UTF-8 encoding has one byte per character. *)
Definition item_size (item : value) : Z :=
  Z.of_nat (String.length (Json.dumps item)).

(** The locals of [_split_json_list]. *)
Record SplitState : Type := {
  result_lists : list (list value);
  current_list : list value;
  current_size : Z
}.

(** The body of the [for item in input_json_list] loop. *)
Definition split_step (max_size : Z) (st : SplitState) (item : value) : SplitState :=
  let st1 :=
    if max_size <? current_size st + item_size item
    then {| result_lists := result_lists st ++ [current_list st];
            current_list := [];
            current_size := 0 |}
    else st in
  {| result_lists := result_lists st1;
     current_list := current_list st1 ++ [item];
     current_size := current_size st1 + item_size item |}.

(** The statement after the loop: [if current_list: result_lists.append(current_list)]. *)
Definition split_finish (st : SplitState) : list (list value) :=
  match current_list st with
  | [] => result_lists st
  | _ :: _ => result_lists st ++ [current_list st]
  end.

(** [SalesforceDataCloud._split_json_list] *)
Definition _split_json_list (input_json_list : list value) (max_size : Z)
  : list (list value) :=
  split_finish
    (fold_left (split_step max_size) input_json_list
       {| result_lists := []; current_list := []; current_size := 0 |}).

(** The total the loop keeps in [current_size] for a group: the sum of the
    serialized sizes of its records. *)
Fixpoint group_size (g : list value) : Z :=
  match g with
  | [] => 0
  | item :: rest => item_size item + group_size rest
  end.

(** ** Exceptions, requests and responses *)

Inductive Exn : Type :=
| SalesforceDataCloudError (operation url : string) (status : Z) (content : string)
| KeyError (key : string)
| TypeError
| AttributeError
| JSONDecodeError
| ValueError
| SplitError (msg : string).

Inductive Method : Type := GET | POST | PUT | PATCH.

(** The [data=] argument of a [requests] call: absent, a dict of form
    fields, or a string (or its bytes). *)
Inductive Body : Type :=
| NoData
| FormData (fields : list (string * value))
| Payload (s : string).

Record Request : Type := {
  req_method : Method;
  req_url : string;
  req_headers : list (string * string);
  req_data : Body
}.

(** A [requests.Response]: [json_of] is what [.json()] parses out of [text],
    [None] when the body is not JSON. *)
Record Response : Type := {
  status_code : Z;
  text : string;
  json_of : option value
}.

(** A chunk file written by the file splitter and handed to its callback. *)
Record Chunk : Type := {
  chunk_path : string;
  chunk_size : Z;
  chunk_text : string
}.

(** ** Data frames *)

(** A [pandas.DataFrame] as the arguments it was built from; its rows are
    the elements of a list-shaped [data]. *)
Record DataFrame : Type := {
  df_data : value;
  df_columns : list string
}.

Definition df_rows (df : DataFrame) : list value :=
  match df_data df with
  | VList rows => rows
  | _ => []
  end.

(** What [df.append(other, ignore_index=True)] returns under pandas 1.x: a
    new frame with the rows of [other] after those of [df]; [df] itself is
    not changed. *)
Definition df_append (df other : DataFrame) : DataFrame :=
  {| df_data := VList (df_rows df ++ df_rows other); df_columns := df_columns df |}.

(** ** The world outside the client *)

(** What the program observes but does not own.  [clock n] is the [n]-th
    reading of [time.time()], in whole milliseconds.  [server] answers a
    request knowing the requests received before it; every request gets a
    response (transport failures are outside the model).  [jwt_encode] is
    PyJWT's [encode] on a payload and a key.  [py_repr] is [str()] on lists
    and dicts.  [bysize path tempdir size encoding] lists the chunks that
    [Split(path, tempdir).bysize(size, ...)] writes and hands to its
    callback, in order, and the exception it ends with, if any.
    [frame_error data columns] is the exception pandas raises on
    [pd.DataFrame(data, columns=columns)], if any, and [append_error df other]
    the one it raises on [df.append(other, ignore_index=True)], if any (none
    under pandas 1.x; from pandas 2.0 on the method is gone and the call
    raises [AttributeError]). *)
Record Env : Type := {
  clock : nat -> Z;
  server : list Request -> Request -> Response;
  jwt_encode : value -> value -> string;
  py_repr : value -> string;
  bysize : string -> value -> Z -> value -> list Chunk * option Exn;
  frame_error : value -> list string -> option Exn;
  append_error : DataFrame -> DataFrame -> option Exn
}.

(** The mutable part: [self.context], the number of clock readings taken,
    the requests sent so far (oldest first) and the files removed. *)
Record State : Type := {
  context : gmap string value;
  ticks : nat;
  sent : list Request;
  removed : list string
}.

Definition set_context (c : gmap string value) (s : State) : State :=
  {| context := c; ticks := ticks s; sent := sent s; removed := removed s |}.
Definition set_ticks (n : nat) (s : State) : State :=
  {| context := context s; ticks := n; sent := sent s; removed := removed s |}.
Definition set_sent (l : list Request) (s : State) : State :=
  {| context := context s; ticks := ticks s; sent := l; removed := removed s |}.
Definition set_removed (l : list string) (s : State) : State :=
  {| context := context s; ticks := ticks s; sent := sent s; removed := l |}.

(** ** The monad of methods *)

(** A call returns, raises, or (for the [while] loop of [query], run with
    fuel) is cut short. *)
Inductive outcome (A : Type) : Type :=
| Return (a : A)
| Raise (e : Exn)
| OutOfFuel.
Arguments Return {A} a.
Arguments Raise {A} e.
Arguments OutOfFuel {A}.

Definition M (A : Type) : Type := Env -> State -> outcome A * State.

Definition ret {A} (a : A) : M A := fun _ s => (Return a, s).
Definition raise {A} (e : Exn) : M A := fun _ s => (Raise e, s).
Definition bind {A B} (m : M A) (k : A -> M B) : M B :=
  fun e s =>
    match m e s with
    | (Return a, s') => k a e s'
    | (Raise x, s') => (Raise x, s')
    | (OutOfFuel, s') => (OutOfFuel, s')
    end.

Notation "'let*' x ':=' m 'in' k" := (bind m (fun x => k))
  (at level 10, x pattern, m at level 100, k at level 200).
Notation "m ';;' k" := (bind m (fun _ => k))
  (at level 100, k at level 200, right associativity).

(** [try: body finally: cleanup], where [cleanup] sees whether the body
    completed.  An exception of the cleanup replaces the body's. *)
Definition try_finally {A} (body : M A) (cleanup : outcome A -> M unit) : M A :=
  fun e s =>
    let '(r, s1) := body e s in
    match r with
    | OutOfFuel => (OutOfFuel, s1)
    | _ =>
        match cleanup r e s1 with
        | (Return _, s2) => (r, s2)
        | (Raise x, s2) => (Raise x, s2)
        | (OutOfFuel, s2) => (OutOfFuel, s2)
        end
    end.

(** [time.time() * 1000] *)
Definition time_ms : M Z :=
  fun e s => (Return (clock e (ticks s)), set_ticks (S (ticks s)) s).

(** [self.context[key]] *)
Definition ctx_get (key : string) : M value :=
  fun _ s =>
    match context s !! key with
    | Some v => (Return v, s)
    | None => (Raise (KeyError key), s)
    end.

(** [self.context.get(key)] *)
Definition ctx_get_default (key : string) : M value :=
  fun _ s => (Return (default VNone (context s !! key)), s).

(** [self.context[key] = v] *)
Definition ctx_set (key : string) (v : value) : M unit :=
  fun _ s => (Return tt, set_context (<[key := v]> (context s)) s).

(** [requests.request(method, url, headers=headers, data=data)] *)
Definition request (m : Method) (u : string) (h : list (string * string)) (d : Body)
  : M Response :=
  fun e s =>
    let req := {| req_method := m; req_url := u; req_headers := h; req_data := d |} in
    (Return (server e (sent s) req), set_sent (sent s ++ [req]) s).

(** [os.remove(path)] *)
Definition os_remove (path : string) : M unit :=
  fun _ s => (Return tt, set_removed (removed s ++ [path]) s).

(** [response.json()] *)
Definition resp_json (r : Response) : M value :=
  match json_of r with
  | Some v => ret v
  | None => raise JSONDecodeError
  end.

(** ** Python operations on values *)

(** [v[key]] for a string key: a dict looks the key up, anything else does
    not support it. *)
Fixpoint assoc (key : string) (items : list (string * value)) : option value :=
  match items with
  | [] => None
  | (k, v) :: rest => if String.eqb k key then Some v else assoc key rest
  end.

Definition getitem (v : value) (key : string) : M value :=
  match v with
  | VDict items =>
      match assoc key items with
      | Some x => ret x
      | None => raise (KeyError key)
      end
  | _ => raise TypeError
  end.

(** ['literal' + v]: only a [str] can be concatenated to a [str]. *)
Definition as_str (v : value) : M string :=
  match v with
  | VStr s => ret s
  | _ => raise TypeError
  end.

(** [number - v]: [int], and [bool] as its subclass. *)
Definition as_number (v : value) : M Z :=
  match v with
  | VInt z => ret z
  | VBool b => ret (Z.b2z b)
  | _ => raise TypeError
  end.

(** [str(v)], as an f-string field formats it. *)
Definition py_str (e : Env) (v : value) : string :=
  match v with
  | VStr x => x
  | VInt z => Json.str_of_int z
  | VNone => "None"
  | VBool true => "True"
  | VBool false => "False"
  | _ => py_repr e v
  end.

Definition format_value (v : value) : M string :=
  fun e s => (Return (py_str e v), s).

(** [bool(v)] *)
Definition truthy (v : value) : bool :=
  match v with
  | VNone => false
  | VBool b => b
  | VInt z => negb (z =? 0)
  | VStr EmptyString => false
  | VStr _ => true
  | VList [] => false
  | VList _ => true
  | VDict [] => false
  | VDict _ => true
  end.

Fixpoint chars (s : string) : list value :=
  match s with
  | EmptyString => []
  | String c s' => VStr (String c EmptyString) :: chars s'
  end.

(** [for x in v] / [list(v)] *)
Definition py_iter (v : value) : M (list value) :=
  match v with
  | VList items => ret items
  | VDict items => ret (List.map (fun kv => VStr (fst kv)) items)
  | VStr s => ret (chars s)
  | _ => raise TypeError
  end.

(** [v.keys()] *)
Definition keys (v : value) : M (list string) :=
  match v with
  | VDict items => ret (List.map fst items)
  | _ => raise AttributeError
  end.

(** [round(n / d)] for [d > 0]: to the nearest integer, ties to even. *)
Definition py_round_div (n d : Z) : Z :=
  let q := n / d in
  let r := n mod d in
  if 2 * r <? d then q
  else if d <? 2 * r then q + 1
  else if Z.even q then q else q + 1.

(** ** Constants *)

Definition BULK_API_MAX_PAYLOAD_SIZE : Z := 150 * 1000 * 1000.
Definition STREAMING_API_MAX_PAYLOAD_SIZE : Z := 200 * 1000.

(** ** Token manager *)

Definition form_headers : list (string * string) :=
  [("Content-Type", "application/x-www-form-urlencoded")].

(** First half of the refresh branch of [_authenticate] (lines 84-128):
    the refresh time, the signed assertion and the S2S access token. *)
Definition s2s_exchange : M unit :=
  let* now := time_ms in
  ctx_set "dne_cdpTokenRefreshTime" (VInt now);;
  let* iss := ctx_get_default "clientId" in
  let* sub := ctx_get_default "userName" in
  let* aud := ctx_get_default "loginUrl" in
  let* exp_ms := time_ms in
  let payload :=
    VDict [("iss", iss); ("sub", sub); ("aud", aud); ("exp", VInt (exp_ms ÷ 1000))] in
  let* key := ctx_get "privateKey" in
  let* jwt_token := (fun e s => (Return (jwt_encode e payload key), s)) in
  ctx_set "dne_cdpAssertion" (VStr jwt_token);;
  let s2s_payload :=
    FormData [("grant_type", VStr "urn:ietf:params:oauth:grant-type:jwt-bearer");
              ("assertion", VStr jwt_token)] in
  let* login := ctx_get "loginUrl" in
  let* login_s := as_str login in
  let s2s_url := "https://" +:+ login_s +:+ "/services/oauth2/token" in
  let* s2s_response := request POST s2s_url form_headers s2s_payload in
  let* s2s_response_json := resp_json s2s_response in
  if negb (status_code s2s_response =? 200)
  then raise (SalesforceDataCloudError "Get S2S Access Token" s2s_url
                (status_code s2s_response) (text s2s_response))
  else
  let* access_token := getitem s2s_response_json "access_token" in
  ctx_set "dne_cdpAuthToken" access_token;;
  let* instance_url := getitem s2s_response_json "instance_url" in
  ctx_set "dne_cdpInstanceUrl" instance_url.

(** Second half (lines 130-155): the exchange of the S2S token, read back
    from the context, for the platform token. *)
Definition cdp_exchange : M unit :=
  let* subject_token := ctx_get "dne_cdpAuthToken" in
  let cdp_payload :=
    FormData [("grant_type", VStr "urn:salesforce:grant-type:external:cdp");
              ("subject_token", subject_token);
              ("subject_token_type", VStr "urn:ietf:params:oauth:token-type:access_token")] in
  let* inst := ctx_get "dne_cdpInstanceUrl" in
  let* inst_s := as_str inst in
  let cdp_url := inst_s +:+ "/services/a360/token" in
  let* cdp_response := request POST cdp_url form_headers cdp_payload in
  let* cdp_response_json := resp_json cdp_response in
  if negb (status_code cdp_response =? 200)
  then raise (SalesforceDataCloudError "Data Cloud Token Exchange" cdp_url
                (status_code cdp_response) (text cdp_response))
  else
  let* offcore_token := getitem cdp_response_json "access_token" in
  ctx_set "dne_cdpOffcoreToken" offcore_token;;
  let* offcore_url := getitem cdp_response_json "instance_url" in
  ctx_set "dne_cdpOffcoreUrl" offcore_url.

(** The refresh branch of [_authenticate] (the [else:] at line 83). *)
Definition refresh_token : M unit :=
  s2s_exchange;; cdp_exchange.

(** [cdpTokenAge]: minutes between a clock reading and the stored refresh time. *)
Definition token_age (now refresh_time : Z) : Z :=
  py_round_div (now - refresh_time) 60000.

(** [SalesforceDataCloud._authenticate] *)
Definition _authenticate (force_refresh : bool) : M unit :=
  let* stored := ctx_get "dne_cdpTokenRefreshTime" in
  let* now := time_ms in
  let* refresh_time := as_number stored in
  let cdpTokenAge := token_age now refresh_time in
  if (cdpTokenAge <? 115) && negb force_refresh
  then ret tt
  else refresh_token.

(** ** Ingestion operations *)

(** The [headers] dict built from the platform token. *)
Definition bearer_headers (content_type : string) : M (list (string * string)) :=
  let* token := ctx_get "dne_cdpOffcoreToken" in
  let* token_s := as_str token in
  ret [("Content-Type", content_type); ("Authorization", "Bearer " +:+ token_s)].

(** ['https://' + self.context['dne_cdpOffcoreUrl'] + path] *)
Definition offcore_url (path : string) : M string :=
  let* host := ctx_get "dne_cdpOffcoreUrl" in
  let* host_s := as_str host in
  ret ("https://" +:+ host_s +:+ path).

Definition streaming_path (source_api_name source_object_name : string) (test_mode : bool)
  : string :=
  "/api/v1/ingest/sources/" +:+ source_api_name +:+ "/" +:+ source_object_name
  +:+ (if test_mode then "/actions/test" else EmptyString).

(** The [for chunk in ...] loop of [streaming_upsert]; [response] is the
    local of that name. *)
Fixpoint streaming_loop (headers : list (string * string))
         (source_api_name source_object_name : string) (test_mode : bool)
         (chunks : list (list value)) (response : option Response)
  : M (option Response) :=
  match chunks with
  | [] => ret response
  | chunk :: rest =>
      let payload := Json.dumps (VDict [("data", VList chunk)]) in
      let* url := offcore_url (streaming_path source_api_name source_object_name test_mode) in
      let* response := request POST url headers (Payload payload) in
      if negb (status_code response =? 202)
      then raise (SalesforceDataCloudError "Streaming UPSERT" url
                    (status_code response) (text response))
      else streaming_loop headers source_api_name source_object_name test_mode
             rest (Some response)
  end.

(** [SalesforceDataCloud.streaming_upsert]; the result is [None] or the
    last response. *)
Definition streaming_upsert (source_api_name source_object_name : string)
           (data : value) (test_mode : bool) : M (option Response) :=
  _authenticate false;;
  let* headers := bearer_headers "application/json" in
  let* records := getitem data "data" in
  let* input_json_list := py_iter records in
  streaming_loop headers source_api_name source_object_name test_mode
    (_split_json_list input_json_list STREAMING_API_MAX_PAYLOAD_SIZE) None.

(** [SalesforceDataCloud._create_job] *)
Definition _create_job (source_api_name source_object_name operation : string) : M value :=
  let* headers := bearer_headers "application/json" in
  let* url := offcore_url "/api/v1/ingest/jobs" in
  let payload :=
    Json.dumps (VDict [("object", VStr source_object_name);
                       ("sourceName", VStr source_api_name);
                       ("operation", VStr operation)]) in
  let* response := request POST url headers (Payload payload) in
  if negb (status_code response =? 201)
  then raise (SalesforceDataCloudError "Create Job" url
                (status_code response) (text response))
  else
  let* response_dict := resp_json response in
  getitem response_dict "id".

(** [SalesforceDataCloud._close_job] *)
Definition _close_job (job_id : value) (state : string) : M Response :=
  _authenticate false;;
  let* headers := bearer_headers "application/json" in
  let payload := Json.dumps (VDict [("state", VStr state)]) in
  let* host := ctx_get "dne_cdpOffcoreUrl" in
  let* host_s := as_str host in
  let* job := format_value job_id in
  let url := "https://" +:+ host_s +:+ "/api/v1/ingest/jobs/" +:+ job in
  request PATCH url headers (Payload payload).

(** [SalesforceDataCloud.abort_job] *)
Definition abort_job (job_id : value) : M Response :=
  _close_job job_id "Aborted".

(** The nested [split_callback] of [_bulk_operation], closed over [url] and
    [headers]. *)
Definition split_callback (url : string) (headers : list (string * string))
           (chunk : Chunk) : M unit :=
  let payload := chunk_text chunk in
  let* response := request PUT url headers (Payload payload) in
  (if negb (status_code response =? 202)
   then raise (SalesforceDataCloudError "Upload File" url
                 (status_code response) (text response))
   else ret tt);;
  os_remove (chunk_path chunk).

Fixpoint for_each {A} (f : A -> M unit) (l : list A) : M unit :=
  match l with
  | [] => ret tt
  | x :: rest => f x;; for_each f rest
  end.

(** One round of [for file_path in data_file_paths]: the splitter runs the
    callback on each chunk it writes, then may fail itself. *)
Definition upload_file (url : string) (headers : list (string * string))
           (file_path : string) : M unit :=
  let* tempdir := ctx_get "tempDir" in
  let* encoding := ctx_get "inputFileEncoding" in
  let* chunks := (fun e s =>
    (Return (bysize e file_path tempdir BULK_API_MAX_PAYLOAD_SIZE
               (if truthy encoding then encoding else VNone)), s)) in
  for_each (split_callback url headers) (fst chunks);;
  match snd chunks with
  | Some x => raise x
  | None => ret tt
  end.

(** The [try:] block of [_bulk_operation]. *)
Definition upload_and_close (job_id : value) (data_file_paths : list string) : M Response :=
  let* headers := bearer_headers "text/csv" in
  let* host := ctx_get "dne_cdpOffcoreUrl" in
  let* host_s := as_str host in
  let* job := format_value job_id in
  let url := "https://" +:+ host_s +:+ "/api/v1/ingest/jobs/" +:+ job +:+ "/batches" in
  for_each (upload_file url headers) data_file_paths;;
  _close_job job_id "UploadComplete".

(** The [finally:] block: [job_id] is [None] once the [try:] block has run
    to its end, and still the created id otherwise. *)
Definition abort_if_open (job_id : value) (r : outcome Response) : M unit :=
  match r with
  | Return _ => ret tt
  | _ =>
      match job_id with
      | VNone => ret tt
      | _ => abort_job job_id;; ret tt
      end
  end.

(** [SalesforceDataCloud._bulk_operation] *)
Definition _bulk_operation (source_api_name source_object_name : string)
           (data_file_paths : list string) (operation : string) : M Response :=
  _authenticate false;;
  let* job_id := _create_job source_api_name source_object_name operation in
  try_finally (upload_and_close job_id data_file_paths) (abort_if_open job_id).

(** [SalesforceDataCloud.bulk_upsert] (returns [None]) *)
Definition bulk_upsert (source_api_name source_object_name : string)
           (data_file_paths : list string) : M unit :=
  _bulk_operation source_api_name source_object_name data_file_paths "upsert";; ret tt.

(** [SalesforceDataCloud.bulk_delete] (returns [None]) *)
Definition bulk_delete (source_api_name source_object_name : string)
           (data_file_paths : list string) : M unit :=
  _bulk_operation source_api_name source_object_name data_file_paths "delete";; ret tt.

(** ** Job administration *)

(** [SalesforceDataCloud.list_jobs] *)
Definition list_jobs (limit offset : Z) (orderby state : string) : M Response :=
  _authenticate false;;
  let* headers := bearer_headers "application/json" in
  let* url := offcore_url ("/api/v1/ingest/jobs?limit=" +:+ Json.str_of_int limit
                           +:+ "&offset=" +:+ Json.str_of_int offset
                           +:+ "&orderby=" +:+ orderby +:+ "&states=" +:+ state) in
  let* response := request GET url headers (FormData []) in
  resp_json response;;
  ret response.

(** [SalesforceDataCloud.job_info] *)
Definition job_info (job_id : value) : M Response :=
  _authenticate false;;
  let* headers := bearer_headers "application/json" in
  let* host := ctx_get "dne_cdpOffcoreUrl" in
  let* host_s := as_str host in
  let* job := format_value job_id in
  let url := "https://" +:+ host_s +:+ "/api/v1/ingest/jobs/" +:+ job in
  let* response := request GET url headers (FormData []) in
  resp_json response;;
  ret response.

(** [SalesforceDataCloud.abort_all_jobs] *)
Definition abort_all_jobs : M unit :=
  _authenticate false;;
  let* response := list_jobs 50 0 EmptyString "Open,UploadComplete" in
  let* listing := resp_json response in
  let* data := getitem listing "data" in
  let* jobs := py_iter data in
  for_each (fun job => let* id := getitem job "id" in abort_job id;; ret tt) jobs.

(** ** Query *)

(** [pd.DataFrame(data, columns=columns)]: pandas builds the frame or raises
    (a [ValueError] when [data] cannot be laid out under [columns]). *)
Definition new_frame (data : value) (columns : list string) : M DataFrame :=
  fun e s =>
    match frame_error e data columns with
    | Some x => (Raise x, s)
    | None => (Return {| df_data := data; df_columns := columns |}, s)
    end.

(** [df.append(other, ignore_index=True)] as a call: the new frame, or the
    exception of a pandas that has no such method. *)
Definition append_frame (df other : DataFrame) : M DataFrame :=
  fun e s =>
    match append_error e df other with
    | Some x => (Raise x, s)
    | None => (Return (df_append df other), s)
    end.

(** [pd.DataFrame(response_dict["data"], columns=output_metadata.keys())] *)
Definition frame_of (response_dict output_metadata : value) : M DataFrame :=
  let* data := getitem response_dict "data" in
  let* columns := keys output_metadata in
  new_frame data columns.

(** The [while not response_dict["done"]] loop of [query], with the locals
    [response_dict] and [df]; [fuel] bounds the number of iterations. *)
Fixpoint query_loop (fuel : nat) (headers : list (string * string))
         (output_metadata response_dict : value) (df : DataFrame) : M DataFrame :=
  let* done := getitem response_dict "done" in
  if truthy done then ret df
  else
    match fuel with
    | O => fun _ s => (OutOfFuel, s)
    | S fuel' =>
        let* nextBatchId := getitem response_dict "nextBatchId" in
        let* host := ctx_get "dne_cdpOffcoreUrl" in
        let* host_s := as_str host in
        let* batch := format_value nextBatchId in
        let url := "https://" +:+ host_s +:+ "/api/v2/query/" +:+ batch in
        let* response := request GET url headers NoData in
        if negb (status_code response =? 200)
        then raise (SalesforceDataCloudError "Query" url
                      (status_code response) (text response))
        else
        let* response_dict := resp_json response in
        let* df2 := frame_of response_dict output_metadata in
        append_frame df df2;;
        query_loop fuel' headers output_metadata response_dict df
    end.

(** [SalesforceDataCloud.query] *)
Definition query (fuel : nat) (query_str : string) : M DataFrame :=
  _authenticate false;;
  let* headers := bearer_headers "application/json" in
  let* url := offcore_url "/api/v2/query" in
  let payload := Json.dumps (VDict [("sql", VStr query_str)]) in
  let* response := request POST url headers (Payload payload) in
  if negb (status_code response =? 200)
  then raise (SalesforceDataCloudError "Query" url
                (status_code response) (text response))
  else
  let* response_dict := resp_json response in
  let* output_metadata := getitem response_dict "metadata" in
  let* df := frame_of response_dict output_metadata in
  query_loop fuel headers output_metadata response_dict df.

(** What the spec asks of [query]: the rows of all pages, in arrival order. *)
Definition all_pages_rows (pages : list value) : list value :=
  concat (List.map (fun page =>
                      match assoc "data" page with
                      | Some (VList rows) => rows
                      | _ => []
                      end)
            (List.map (fun p => match p with VDict items => items | _ => [] end) pages)).

(** [SalesforceDataCloud.__init__]: the context from the environment
    variables and the text of the private key file. *)
Definition __init__ (getenv : string -> value) (private_key : string) : gmap string value :=
  <["privateKey" := VStr private_key]>
    (<["dne_cdpTokenRefreshTime" := VInt 0]>
       (<["inputFileEncoding" := getenv "inputFileEncoding"]>
          (<["tempDir" := getenv "tempDir"]>
             (<["userName" := getenv "userName"]>
                (<["privateKeyFile" := getenv "privateKeyFile"]>
                   (<["clientId" := getenv "clientId"]>
                      (<["version" := VStr "52.0"]>
                         (<["loginUrl" := VStr "login.salesforce.com"]> ∅)))))))).

(** * Vocabulary of the statements *)

(** ** Splitter *)

Definition split_init : SplitState :=
  {| result_lists := []; current_list := []; current_size := 0 |}.

(** Everything the loop has seen so far, in order. *)
Definition seen (st : SplitState) : list value :=
  concat (result_lists st) ++ current_list st.

(** What holds of a closed group and of the group under construction. *)
Definition group_ok (max_size : Z) (g : list value) : Prop :=
  ((2 <= length g)%nat -> group_size g <= max_size)
  /\ (forall r, In r g -> max_size < item_size r -> g = [r]).

Record split_inv (max_size : Z) (st : SplitState) : Prop := {
  inv_size : current_size st = group_size (current_list st);
  inv_closed : forall g, In g (result_lists st) -> group_ok max_size g;
  inv_current : group_ok max_size (current_list st)
}.

(** ** Requests and replies *)

(** The responses that requests sent in a row receive, the first of them
    after [history]. *)
Fixpoint replies (e : Env) (history : list Request) (reqs : list Request) : list Response :=
  match reqs with
  | [] => []
  | r :: rest => server e history r :: replies e (history ++ [r]) rest
  end.

(** The value of the local [response] after a run of accepted POSTs. *)
Definition last_response (acc : option Response) (rs : list Response) : option Response :=
  fold_left (fun _ r => Some r) rs acc.

Definition json_headers (tok : string) : list (string * string) :=
  [("Content-Type", "application/json"); ("Authorization", "Bearer " +:+ tok)].

(** The POST of [streaming_upsert] for one group. *)
Definition streaming_request (host tok api obj : string) (test_mode : bool)
           (chunk : list value) : Request :=
  {| req_method := POST;
     req_url := "https://" +:+ host +:+ streaming_path api obj test_mode;
     req_headers := json_headers tok;
     req_data := Payload (Json.dumps (VDict [("data", VList chunk)])) |}.

(** The JWT claims built from a context and the clock reading for [exp]. *)
Definition jwt_payload (c : gmap string value) (exp_ms : Z) : value :=
  VDict [("iss", default VNone (c !! "clientId"));
         ("sub", default VNone (c !! "userName"));
         ("aud", default VNone (c !! "loginUrl"));
         ("exp", VInt (exp_ms ÷ 1000))].

(** The request of the first exchange step. *)
Definition s2s_request (login jwt_token : string) : Request :=
  {| req_method := POST;
     req_url := "https://" +:+ login +:+ "/services/oauth2/token";
     req_headers := form_headers;
     req_data := FormData [("grant_type", VStr "urn:ietf:params:oauth:grant-type:jwt-bearer");
                           ("assertion", VStr jwt_token)] |}.

(** The request of the second exchange step. *)
Definition cdp_request (inst : string) (subject_token : value) : Request :=
  {| req_method := POST;
     req_url := inst +:+ "/services/a360/token";
     req_headers := form_headers;
     req_data := FormData [("grant_type", VStr "urn:salesforce:grant-type:external:cdp");
                           ("subject_token", subject_token);
                           ("subject_token_type",
                            VStr "urn:ietf:params:oauth:token-type:access_token")] |}.

(** The POST of [_create_job]. *)
Definition create_request (host tok api obj operation : string) : Request :=
  {| req_method := POST;
     req_url := "https://" +:+ host +:+ "/api/v1/ingest/jobs";
     req_headers := json_headers tok;
     req_data := Payload (Json.dumps (VDict [("object", VStr obj);
                                             ("sourceName", VStr api);
                                             ("operation", VStr operation)])) |}.

(** The PUT of [split_callback]. *)
Definition upload_request (url : string) (headers : list (string * string))
           (chunk : Chunk) : Request :=
  {| req_method := PUT; req_url := url; req_headers := headers;
     req_data := Payload (chunk_text chunk) |}.

(** The PATCH of [_close_job]. *)
Definition close_request (host tok job state : string) : Request :=
  {| req_method := PATCH;
     req_url := "https://" +:+ host +:+ "/api/v1/ingest/jobs/" +:+ job;
     req_headers := json_headers tok;
     req_data := Payload (Json.dumps (VDict [("state", VStr state)])) |}.

(** The GETs of [list_jobs] and [job_info]. *)
Definition list_request (host tok : string) (limit offset : Z) (orderby state : string)
  : Request :=
  {| req_method := GET;
     req_url := "https://" +:+ host +:+ "/api/v1/ingest/jobs?limit=" +:+ Json.str_of_int limit
                +:+ "&offset=" +:+ Json.str_of_int offset
                +:+ "&orderby=" +:+ orderby +:+ "&states=" +:+ state;
     req_headers := json_headers tok;
     req_data := FormData [] |}.

Definition info_request (host tok job : string) : Request :=
  {| req_method := GET;
     req_url := "https://" +:+ host +:+ "/api/v1/ingest/jobs/" +:+ job;
     req_headers := json_headers tok;
     req_data := FormData [] |}.

(** The POST of [query] and the GET of one more page. *)
Definition query_request (host tok query_str : string) : Request :=
  {| req_method := POST;
     req_url := "https://" +:+ host +:+ "/api/v2/query";
     req_headers := json_headers tok;
     req_data := Payload (Json.dumps (VDict [("sql", VStr query_str)])) |}.

Definition page_request (host tok batch : string) : Request :=
  {| req_method := GET;
     req_url := "https://" +:+ host +:+ "/api/v2/query/" +:+ batch;
     req_headers := json_headers tok;
     req_data := NoData |}.

(** A token endpoint's answer that the client accepts: status 200 and a
    JSON object with the two fields it reads. *)
Definition accepts (r : Response) (token url : value) : Prop :=
  status_code r = 200
  /\ exists items, json_of r = Some (VDict items)
                   /\ assoc "access_token" items = Some token
                   /\ assoc "instance_url" items = Some url.

(** What a rejected exchange step raises: [.json()] runs before the status
    check. *)
Definition rejection (operation url : string) (r : Response) : Exn :=
  match json_of r with
  | Some _ => SalesforceDataCloudError operation url (status_code r) (text r)
  | None => JSONDecodeError
  end.

(** ** Traces of requests *)

Definition is_patch (r : Request) : bool :=
  match req_method r with PATCH => true | _ => false end.

Definition is_post (r : Request) : bool :=
  match req_method r with POST => true | _ => false end.

Definition not_patch (r : Request) : bool := negb (is_patch r).

(** Every run of [m] extends the log of requests by some [l] with [Q out l]. *)
Definition traces {A} (m : M A) (Q : outcome A -> list Request -> Prop) : Prop :=
  forall e s out s1, m e s = (out, s1) -> exists l, sent s1 = sent s ++ l /\ Q out l.

(** [m] ends by itself and sends only requests accepted by [ok]. *)
Definition sends_only {A} (ok : Request -> bool) (m : M A) : Prop :=
  traces m (fun out l => out <> OutOfFuel /\ forallb ok l = true).

(** A computation that sends nothing and ends by itself. *)
Definition silent {A} (m : M A) : Prop :=
  forall e s out s1, m e s = (out, s1) -> sent s1 = sent s /\ out <> OutOfFuel.

(** A request that asks for a terminal transition of a job. *)
Definition is_terminal (state : string) (r : Request) : Prop :=
  req_method r = PATCH
  /\ req_data r = Payload (Json.dumps (VDict [("state", VStr state)])).

(** The trace of a call that ends with the transition to [state], the only
    PATCH in it. *)
Definition ends_with_transition (state : string) (l : list Request) : Prop :=
  exists l0 r, l = l0 ++ [r] /\ forallb not_patch l0 = true /\ is_terminal state r.

Definition close_trace (state : string) {A} (out : outcome A) (l : list Request) : Prop :=
  match out with
  | Return _ => ends_with_transition state l
  | Raise _ => forallb not_patch l = true
  | OutOfFuel => False
  end.


(** [Q] is kept when requests other than PATCH come first. *)
Definition absorbs {A} (Q : outcome A -> list Request -> Prop) : Prop :=
  (forall out l1 l2, forallb not_patch l1 = true -> Q out l2 -> Q out (l1 ++ l2))
  /\ (forall x l, forallb not_patch l = true -> Q (Raise x) l)
  /\ (forall l, ~ Q OutOfFuel l).

(** * A mocked endpoint *)

(** The status code each endpoint answers with. *)
Record Mock : Type := {
  s2s_status : Z;
  cdp_status : Z;
  stream_status : Z;
  create_status : Z;
  upload_status : Z;
  close_status : Z;
  query_status : Z;
  page_status : Z
}.

Definition all_ok : Mock :=
  {| s2s_status := 200; cdp_status := 200; stream_status := 202; create_status := 201;
     upload_status := 202; close_status := 200; query_status := 200; page_status := 200 |}.

(** A JSON response: [ok_body] under the expected status, an error object
    otherwise. *)
Definition reply (status expected : Z) (ok_body : value) : Response :=
  let body := if status =? expected then ok_body
              else VDict [("error", VStr "rejected")] in
  {| status_code := status; text := Json.dumps body; json_of := Some body |}.

Definition page_metadata : list (string * value) :=
  [("id", VDict [("type", VStr "DECIMAL")]); ("name", VDict [("type", VStr "VARCHAR")])].

Definition page_one_items : list (string * value) :=
  [("metadata", VDict page_metadata);
   ("data", VList [VList [VInt 1; VStr "ann"]; VList [VInt 2; VStr "bob"]]);
   ("done", VBool false);
   ("nextBatchId", VStr "batch-2")].

Definition page_one : value := VDict page_one_items.

Definition page_two : value :=
  VDict [("metadata", VDict page_metadata);
         ("data", VList [VList [VInt 3; VStr "cy"]]);
         ("done", VBool true)].

Definition mock_server (m : Mock) (history : list Request) (r : Request) : Response :=
  let url := req_url r in
  match req_method r with
  | POST =>
      if String.eqb url "https://login.salesforce.com/services/oauth2/token"
      then reply (s2s_status m) 200
             (VDict [("access_token", VStr "core-token");
                     ("instance_url", VStr "https://org.my.salesforce.com")])
      else if String.eqb url "https://org.my.salesforce.com/services/a360/token"
      then reply (cdp_status m) 200
             (VDict [("access_token", VStr "cdp-token");
                     ("instance_url", VStr "dc.example.com")])
      else if String.eqb url "https://dc.example.com/api/v1/ingest/jobs"
      then reply (create_status m) 201 (VDict [("id", VStr "job-1")])
      else if String.eqb url "https://dc.example.com/api/v2/query"
      then reply (query_status m) 200 page_one
      else reply (stream_status m) 202 (VDict [("accepted", VBool true)])
  | PUT => reply (upload_status m) 202 (VDict [("accepted", VBool true)])
  | PATCH => reply (close_status m) 200 (VDict [("id", VStr "job-1")])
  | GET =>
      if String.eqb url "https://dc.example.com/api/v2/query/batch-2"
      then reply (page_status m) 200 page_two
      else reply 200 200 (VDict [("data", VList [VDict [("id", VStr "job-1")]])])
  end.

(** The mocked pandas (1.x) takes a list of rows, each a list with one cell
    per column, and turns down everything else. *)
Definition mock_frame_error (data : value) (columns : list string) : option Exn :=
  match data with
  | VList rows =>
      if forallb (fun row => match row with
                             | VList cells => (length cells =? length columns)%nat
                             | _ => false
                             end) rows
      then None
      else Some ValueError
  | _ => Some ValueError
  end.

Definition mock_env (m : Mock) : Env :=
  {| clock := fun n => 1700000000000 + Z.of_nat n;
     server := mock_server m;
     jwt_encode := fun _ _ => "header.claims.signature";
     py_repr := Json.dumps;
     bysize := fun path _ _ _ =>
       ([{| chunk_path := "tempfiles/" +:+ path +:+ "_1"; chunk_size := 12;
            chunk_text := "id,name" |};
         {| chunk_path := "tempfiles/" +:+ path +:+ "_2"; chunk_size := 12;
            chunk_text := "id,name" |}], None);
     frame_error := mock_frame_error;
     append_error := fun _ _ => None |}.

Definition mock_getenv (name : string) : value :=
  if String.eqb name "clientId" then VStr "client-id"
  else if String.eqb name "privateKeyFile" then VStr "server.key"
  else if String.eqb name "userName" then VStr "user@example.com"
  else if String.eqb name "tempDir" then VStr "tempfiles"
  else if String.eqb name "inputFileEncoding" then VStr "utf-8"
  else VNone.

(** The instance right after construction. *)
Definition new_instance : State :=
  {| context := __init__ mock_getenv "PRIVATE KEY"; ticks := 0; sent := []; removed := [] |}.

(** The instance after one successful authentication. *)
Definition authenticated : State :=
  snd (_authenticate false (mock_env all_ok) new_instance).

(** The record [{"a": 1}]. *)
Definition rec_a1 : value := VDict [("a", VInt 1)].

(** Endpoints that reject: the login host; the platform-token exchange;
    every endpoint behind the token; only the next-page fetch. *)
Definition login_rejects : Mock :=
  {| s2s_status := 401; cdp_status := 200; stream_status := 202; create_status := 201;
     upload_status := 202; close_status := 200; query_status := 200; page_status := 200 |}.


Definition platform_rejects : Mock :=
  {| s2s_status := 200; cdp_status := 200; stream_status := 500; create_status := 500;
     upload_status := 500; close_status := 500; query_status := 500; page_status := 500 |}.

Definition page_rejects : Mock :=
  {| s2s_status := 200; cdp_status := 200; stream_status := 202; create_status := 201;
     upload_status := 202; close_status := 200; query_status := 200; page_status := 503 |}.


(** ** More vocabulary for the splitter *)

(** The groups a loop state stands for: the closed ones, then the one
    under construction. *)
Definition all_groups (st : SplitState) : list (list value) :=
  result_lists st ++ [current_list st].

(** Each group was closed because the first record of the next one did not
    fit in it. *)
Fixpoint greedy (max_size : Z) (groups : list (list value)) : Prop :=
  match groups with
  | g :: (h :: _) as rest =>
      match h with
      | y :: _ => max_size < group_size g + item_size y
      | [] => True
      end
      /\ greedy max_size rest
  | _ => True
  end.

(** After the first record [first]: the group under construction is not
    empty, and of all groups only the first can be, which it is exactly
    when [first] alone exceeds the limit. *)
Definition head_shape (max_size : Z) (first : value) (st : SplitState) : Prop :=
  current_list st <> []
  /\ exists g0 rest,
       all_groups st = g0 :: rest
       /\ Forall (fun g => g <> []) rest
       /\ (g0 = [] <-> max_size < item_size first).

(** ** More mocked endpoints *)

(** The mocked endpoint with some answers replaced. *)
Definition mock_env_with (override : Request -> option Response) (m : Mock) : Env :=
  {| clock := clock (mock_env m);
     server := fun history r =>
                 match override r with
                 | Some response => response
                 | None => mock_server m history r
                 end;
     jwt_encode := jwt_encode (mock_env m);
     py_repr := py_repr (mock_env m);
     bysize := bysize (mock_env m);
     frame_error := frame_error (mock_env m);
     append_error := append_error (mock_env m) |}.

(** A gateway page instead of JSON. *)
Definition gateway_error : Response :=
  {| status_code := 502; text := "<html>Bad Gateway</html>"; json_of := None |}.

Definition gets_fail (r : Request) : option Response :=
  match req_method r with
  | GET => Some gateway_error
  | _ => None
  end.

(** Job creation answered 201 with an object that has no [id]. *)
Definition created_without_id (r : Request) : option Response :=
  if String.eqb (req_url r) "https://dc.example.com/api/v1/ingest/jobs"
  then Some {| status_code := 201; text := "{}"; json_of := Some (VDict []) |}
  else None.

(** A first page whose single row has one cell for the two columns. *)
Definition short_row_page (r : Request) : option Response :=
  if String.eqb (req_url r) "https://dc.example.com/api/v2/query"
  then Some (reply 200 200 (VDict [("metadata", VDict page_metadata);
                                   ("data", VList [VList [VInt 1]]);
                                   ("done", VBool true)]))
  else None.

(** The mocked endpoint under a pandas without [DataFrame.append] (2.0 and
    later). *)
Definition pandas_2 : Env :=
  {| clock := clock (mock_env all_ok);
     server := server (mock_env all_ok);
     jwt_encode := jwt_encode (mock_env all_ok);
     py_repr := py_repr (mock_env all_ok);
     bysize := bysize (mock_env all_ok);
     frame_error := frame_error (mock_env all_ok);
     append_error := fun _ _ => Some AttributeError |}.

(** A second page that announces a third, which is turned down. *)
Definition third_page_rejected (r : Request) : option Response :=
  if String.eqb (req_url r) "https://dc.example.com/api/v2/query/batch-2"
  then Some (reply 200 200 (VDict [("data", VList [VList [VInt 3; VStr "cy"]]);
                                   ("done", VBool false);
                                   ("nextBatchId", VStr "batch-3")]))
  else if String.eqb (req_url r) "https://dc.example.com/api/v2/query/batch-3"
  then Some (reply 503 200 VNone)
  else None.

(** ** Pages of a query result *)

(** The loop of [query] gets from [page] (the items of a response's JSON
    object) to [last] by fetching [nexts]: each id of [nexts] is announced
    by the page before it, which is not [done], and, asked for after
    [history], is answered with status 200 and a JSON object whose [data]
    pandas lays out under [columns] and appends to [df] without raising. *)
Fixpoint page_run (e : Env) (host tok : string) (columns : list string) (df : DataFrame)
         (history : list Request) (page : list (string * value)) (nexts : list value)
         (last : list (string * value)) : Prop :=
  match nexts with
  | [] => last = page
  | next :: more =>
      (exists done, assoc "done" page = Some done /\ truthy done = false)
      /\ assoc "nextBatchId" page = Some next
      /\ let req := page_request host tok (py_str e next) in
         let r := server e history req in
         status_code r = 200
         /\ exists items data,
              json_of r = Some (VDict items)
              /\ assoc "data" items = Some data
              /\ frame_error e data columns = None
              /\ append_error e df {| df_data := data; df_columns := columns |} = None
              /\ page_run e host tok columns df (history ++ [req]) items more last
  end.

(** [page] starts a chain of result pages [nexts] of which only the last
    says [done]. *)
Definition page_chain (e : Env) (host tok : string) (columns : list string)
           (df : DataFrame) (history : list Request) (page : list (string * value))
           (nexts : list value) : Prop :=
  exists last done,
    page_run e host tok columns df history page nexts last
    /\ assoc "done" last = Some done /\ truthy done = true.

(** [job] is a listed job with the given id. *)
Definition has_id (job id : value) : Prop :=
  exists fields, job = VDict fields /\ assoc "id" fields = Some id.

(** ** A bulk job's uploads *)

Definition csv_headers (tok : string) : list (string * string) :=
  [("Content-Type", "text/csv"); ("Authorization", "Bearer " +:+ tok)].

Definition batches_url (host job : string) : string :=
  "https://" +:+ host +:+ "/api/v1/ingest/jobs/" +:+ job +:+ "/batches".

(** The encoding argument [upload_file] hands to the splitter. *)
Definition split_encoding (encoding : value) : value :=
  if truthy encoding then encoding else VNone.

(** The chunks the splitter writes for the files, in order. *)
Definition chunks_of (e : Env) (tempdir encoding : value) (files : list string)
  : list Chunk :=
  concat (List.map (fun file_path =>
                      fst (bysize e file_path tempdir BULK_API_MAX_PAYLOAD_SIZE
                             (split_encoding encoding)))
            files).

(** The splitter itself does not fail on any of the files. *)
Definition splits_cleanly (e : Env) (tempdir encoding : value) (files : list string)
  : Prop :=
  Forall (fun file_path =>
            snd (bysize e file_path tempdir BULK_API_MAX_PAYLOAD_SIZE
                   (split_encoding encoding)) = None)
    files.

(** The state after the given chunks went up: one PUT each, and each chunk
    file removed. *)
Definition uploaded (url : string) (headers : list (string * string))
           (chunks : list Chunk) (s : State) : State :=
  set_removed (removed s ++ List.map chunk_path chunks)
    (set_sent (sent s ++ List.map (upload_request url headers) chunks) s).

(** The mocked endpoint accepting the first upload of a job and rejecting
    every later one. *)
Definition second_upload_rejected : Env :=
  {| clock := clock (mock_env all_ok);
     server := fun history r =>
                 let is_put r := match req_method r with PUT => true | _ => false end in
                 if is_put r && existsb is_put history
                 then reply 500 202 VNone
                 else mock_server all_ok history r;
     jwt_encode := jwt_encode (mock_env all_ok);
     py_repr := py_repr (mock_env all_ok);
     bysize := bysize (mock_env all_ok);
     frame_error := frame_error (mock_env all_ok);
     append_error := append_error (mock_env all_ok) |}.


(** ** Frames *)

(** However [m] ends, the state it leaves is related by [R] to the one it
    started from. *)
Definition keeps (R : State -> State -> Prop) {A} (m : M A) : Prop :=
  forall e s out s1, m e s = (out, s1) -> R s s1.

(** The context keys [_authenticate] writes. *)
Definition token_keys : list string :=
  ["dne_cdpTokenRefreshTime"; "dne_cdpAssertion"; "dne_cdpAuthToken";
   "dne_cdpInstanceUrl"; "dne_cdpOffcoreToken"; "dne_cdpOffcoreUrl"].

(** Every other entry of the context is as it was. *)
Definition config_kept (s s1 : State) : Prop :=
  forall key, ~ In key token_keys -> context s1 !! key = context s !! key.

(** Only requests accepted by [ok] were sent, and no file was removed. *)
Definition only_sent (ok : Request -> bool) (s s1 : State) : Prop :=
  (exists l, sent s1 = sent s ++ l /\ forallb ok l = true)
  /\ removed s1 = removed s.

(** A request that neither uploads to a job nor changes its state. *)
Definition leaves_jobs (r : Request) : bool :=
  match req_method r with
  | PUT | PATCH => false
  | _ => true
  end.

(** ** Command line *)

(** The values [--command] accepts. *)
Inductive Command : Type :=
| list_active_jobs
| list_all_jobs
| command_job_info
| command_abort_job.

(** [main], after the instance is built and the arguments are parsed;
    [job_id] is [None] when [--job_id] is not given, and a string otherwise. *)
Definition main (selected_command : Command) (job_id : value) : M unit :=
  match selected_command with
  | list_active_jobs =>
      list_jobs 50 0 EmptyString "Open,UploadComplete,InProgress";; ret tt
  | list_all_jobs =>
      list_jobs 50 0 EmptyString EmptyString;; ret tt
  | command_job_info =>
      if truthy job_id then job_info job_id;; ret tt else ret tt
  | command_abort_job =>
      if truthy job_id then abort_job job_id;; ret tt else ret tt
  end.

(** * Properties of the batch splitter *)

Lemma item_size_nonneg (item : value) : 0 <= item_size item.
Proof. unfold item_size. lia. Qed.

Lemma item_size_rec_a1 : item_size rec_a1 = 8.
Proof. reflexivity. Qed.

Lemma group_size_app (g h : list value) :
  group_size (g ++ h) = group_size g + group_size h.
Proof.
  induction g as [|x g IH]; simpl; [reflexivity|]. rewrite IH. lia.
Qed.

Lemma group_size_nonneg (g : list value) : 0 <= group_size g.
Proof.
  induction g as [|x g IH]; simpl; [lia|].
  pose proof (item_size_nonneg x). lia.
Qed.

Lemma group_size_member (g : list value) (r : value) :
  In r g -> item_size r <= group_size g.
Proof.
  induction g as [|x g IH]; simpl; [tauto|].
  intros [->|Hin].
  - pose proof (group_size_nonneg g). lia.
  - specialize (IH Hin). pose proof (item_size_nonneg x). lia.
Qed.

Lemma seen_step (max_size : Z) (st : SplitState) (item : value) :
  seen (split_step max_size st item) = seen st ++ [item].
Proof.
  unfold seen, split_step.
  destruct (max_size <? current_size st + item_size item); simpl.
  - rewrite concat_app. simpl. rewrite app_nil_r. reflexivity.
  - rewrite app_assoc. reflexivity.
Qed.

Lemma seen_loop (max_size : Z) (input : list value) (st : SplitState) :
  seen (fold_left (split_step max_size) input st) = seen st ++ input.
Proof.
  revert st. induction input as [|x input IH]; intros st; simpl.
  - rewrite app_nil_r. reflexivity.
  - rewrite IH, seen_step, <- app_assoc. reflexivity.
Qed.

Lemma concat_finish (st : SplitState) : concat (split_finish st) = seen st.
Proof.
  unfold split_finish, seen. destruct (current_list st).
  - rewrite app_nil_r. reflexivity.
  - rewrite concat_app. simpl. rewrite app_nil_r. reflexivity.
Qed.

(** C2: the groups returned by [_split_json_list], concatenated, are the
    input sequence itself: same records, same order, none dropped or
    repeated, for every input and every [max_size]. *)
Theorem split_concat_is_input (input_json_list : list value) (max_size : Z) :
  concat (_split_json_list input_json_list max_size) = input_json_list.
Proof.
  unfold _split_json_list.
  rewrite concat_finish, seen_loop. reflexivity.
Qed.

(** The result list only grows at its end. *)
Lemma results_step_prefix (max_size : Z) (st : SplitState) (item : value) :
  exists more, result_lists (split_step max_size st item) = result_lists st ++ more.
Proof.
  unfold split_step.
  destruct (max_size <? current_size st + item_size item); simpl.
  - eexists. reflexivity.
  - exists []. rewrite app_nil_r. reflexivity.
Qed.

Lemma results_loop_prefix (max_size : Z) (input : list value) (st : SplitState) :
  exists more,
    result_lists (fold_left (split_step max_size) input st) = result_lists st ++ more.
Proof.
  revert st. induction input as [|x input IH]; intros st; simpl.
  - exists []. rewrite app_nil_r. reflexivity.
  - destruct (IH (split_step max_size st x)) as [more Hmore].
    destruct (results_step_prefix max_size st x) as [m1 Hm1].
    exists (m1 ++ more). rewrite Hmore, Hm1, <- app_assoc. reflexivity.
Qed.

(** Whenever the first record alone is larger than [max_size], the first
    group returned is the empty one that the loop closes before it. *)
Lemma split_oversized_head (item : value) (rest : list value) (max_size : Z) :
  max_size < item_size item ->
  exists groups, _split_json_list (item :: rest) max_size = [] :: groups.
Proof.
  intros Hbig. unfold _split_json_list. simpl fold_left.
  destruct (results_loop_prefix max_size rest (split_step max_size split_init item))
    as [more Hmore].
  fold split_init.
  assert (Hstep : result_lists (split_step max_size split_init item) = [[]]).
  { unfold split_step, split_init. simpl.
    destruct (Z.ltb_spec max_size (0 + item_size item)); [reflexivity | lia]. }
  rewrite Hstep in Hmore. unfold split_finish. rewrite Hmore.
  destruct (current_list _); simpl; eexists; reflexivity.
Qed.

(** C3: on ten copies of [{"a": 1}] (8 bytes each) with [max_size = 1] the
    function returns eleven groups, an empty one followed by ten
    singletons: the loop closes the still empty current group when the
    first record already exceeds the limit. *)
Theorem split_ten_records_limit_1 :
  _split_json_list (repeat rec_a1 10) 1 = [] :: repeat [rec_a1] 10
  /\ In [] (_split_json_list (repeat rec_a1 10) 1)
  /\ length (_split_json_list (repeat rec_a1 10) 1) = 11%nat.
Proof.
  assert (H : _split_json_list (repeat rec_a1 10) 1 = [] :: repeat [rec_a1] 10)
    by (vm_compute; reflexivity).
  rewrite H. split; [reflexivity|]. split; [left; reflexivity | reflexivity].
Qed.

Lemma group_ok_singleton (max_size : Z) (item : value) : group_ok max_size [item].
Proof.
  split; simpl.
  - lia.
  - intros r [->|[]] _. reflexivity.
Qed.

Lemma group_ok_within (max_size : Z) (g : list value) :
  group_size g <= max_size -> group_ok max_size g.
Proof.
  intros Hle. split; [auto|].
  intros r Hin Hbig. pose proof (group_size_member g r Hin). lia.
Qed.

Lemma split_inv_init (max_size : Z) : split_inv max_size split_init.
Proof.
  split; simpl; [reflexivity | tauto |].
  split; simpl; [lia | tauto].
Qed.

Lemma split_inv_step (max_size : Z) (st : SplitState) (item : value) :
  split_inv max_size st -> split_inv max_size (split_step max_size st item).
Proof.
  intros [Hsz Hclosed Hcur]. unfold split_step.
  destruct (Z.ltb_spec max_size (current_size st + item_size item)) as [Hover|Hfit];
    split; simpl.
  - lia.
  - intros g Hin. apply in_app_or in Hin as [Hin|[<-|[]]]; auto.
  - apply group_ok_singleton.
  - rewrite group_size_app, Hsz. simpl. lia.
  - exact Hclosed.
  - apply group_ok_within. rewrite group_size_app, <- Hsz. simpl. lia.
Qed.

Lemma split_inv_loop (max_size : Z) (input : list value) (st : SplitState) :
  split_inv max_size st -> split_inv max_size (fold_left (split_step max_size) input st).
Proof.
  revert st. induction input as [|x input IH]; intros st Hinv; simpl; [exact Hinv|].
  apply IH, split_inv_step, Hinv.
Qed.

Lemma split_groups_ok (input : list value) (max_size : Z) (g : list value) :
  In g (_split_json_list input max_size) -> group_ok max_size g.
Proof.
  unfold _split_json_list. fold split_init.
  pose proof (split_inv_loop max_size input split_init (split_inv_init max_size))
    as [_ Hclosed Hcur].
  unfold split_finish. destruct (current_list _) eqn:Hcl.
  - apply Hclosed.
  - intros Hin. apply in_app_or in Hin as [Hin|[<-|[]]]; auto.
Qed.

(** C4: in the result of [_split_json_list], a group of two or more records
    has total serialized size at most [max_size]; a record that alone
    exceeds [max_size] is the only record of its group; hence every
    non-empty group (and, for [max_size >= 0], every group) is within the
    limit or is a singleton holding an oversized record. *)
Theorem split_group_sizes (input_json_list : list value) (max_size : Z) (g : list value) :
  In g (_split_json_list input_json_list max_size) ->
  ((2 <= length g)%nat -> group_size g <= max_size)
  /\ (forall r, In r g -> max_size < item_size r -> g = [r])
  /\ (0 <= max_size \/ g <> [] ->
      group_size g <= max_size \/ exists r, g = [r] /\ max_size < item_size r).
Proof.
  intros Hin. destruct (split_groups_ok _ _ _ Hin) as [Hmany Hbig].
  split; [exact Hmany|]. split; [exact Hbig|].
  intros Hcase. destruct g as [|r [|r' g]].
  - destruct Hcase as [Hpos|Hne]; [left; simpl; lia | congruence].
  - destruct (Z.le_gt_cases (item_size r) max_size) as [Hle|Hgt].
    + left. simpl. lia.
    + right. exists r. split; [reflexivity | lia].
  - left. apply Hmany. simpl. lia.
Qed.


(** The bound is on the sum of the records' own sizes, as the loop counts
    them: the payload [{"data": [...]}] posted for a group is longer by
    its wrapper and separators. *)
Lemma group_size_is_not_payload_size :
  _split_json_list [rec_a1; rec_a1] 16 = [[rec_a1; rec_a1]]
  /\ group_size [rec_a1; rec_a1] = 16
  /\ Z.of_nat (String.length (Json.dumps (VDict [("data", VList [rec_a1; rec_a1])]))) = 30.
Proof. vm_compute. repeat split. Qed.

(** * Running the monad *)

Lemma bind_Return {A B} (m : M A) (k : A -> M B) e s a s' :
  m e s = (Return a, s') -> bind m k e s = k a e s'.
Proof. intros H. unfold bind. rewrite H. reflexivity. Qed.

Lemma bind_Raise {A B} (m : M A) (k : A -> M B) e s x s' :
  m e s = (Raise x, s') -> bind m k e s = (Raise x, s').
Proof. intros H. unfold bind. rewrite H. reflexivity. Qed.

Lemma ctx_get_Some key v e s :
  context s !! key = Some v -> ctx_get key e s = (Return v, s).
Proof. intros H. unfold ctx_get. rewrite H. reflexivity. Qed.

Lemma ctx_get_None key e s :
  context s !! key = None -> ctx_get key e s = (Raise (KeyError key), s).
Proof. intros H. unfold ctx_get. rewrite H. reflexivity. Qed.

Lemma bearer_headers_Some ct tok e s :
  context s !! "dne_cdpOffcoreToken" = Some (VStr tok) ->
  bearer_headers ct e s
  = (Return [("Content-Type", ct); ("Authorization", "Bearer " +:+ tok)], s).
Proof.
  intros H. unfold bearer_headers.
  rewrite (bind_Return _ _ _ _ _ _ (ctx_get_Some _ _ e s H)). reflexivity.
Qed.

Lemma offcore_url_Some path host e s :
  context s !! "dne_cdpOffcoreUrl" = Some (VStr host) ->
  offcore_url path e s = (Return ("https://" +:+ host +:+ path), s).
Proof.
  intros H. unfold offcore_url.
  rewrite (bind_Return _ _ _ _ _ _ (ctx_get_Some _ _ e s H)). reflexivity.
Qed.

Lemma getitem_Some items key v e s :
  assoc key items = Some v -> getitem (VDict items) key e s = (Return v, s).
Proof. intros H. unfold getitem. rewrite H. reflexivity. Qed.

(** C10: with [data["data"] == []] the splitter returns no group, so
    [streaming_upsert] sends no POST and returns [None]; the state it
    leaves is the one [_authenticate] left. *)
Theorem streaming_upsert_empty api obj items test_mode e s s1 tok :
  _authenticate false e s = (Return tt, s1) ->
  context s1 !! "dne_cdpOffcoreToken" = Some (VStr tok) ->
  assoc "data" items = Some (VList []) ->
  streaming_upsert api obj (VDict items) test_mode e s = (Return None, s1).
Proof.
  intros Hauth Htok Hdata. unfold streaming_upsert.
  rewrite (bind_Return _ _ _ _ _ _ Hauth).
  rewrite (bind_Return _ _ _ _ _ _ (bearer_headers_Some _ _ e s1 Htok)).
  rewrite (bind_Return _ _ _ _ _ _ (getitem_Some _ _ _ e s1 Hdata)).
  reflexivity.
Qed.


Lemma set_sent_same s : set_sent (sent s) s = s.
Proof. destruct s. reflexivity. Qed.

Lemma set_sent_twice l1 l2 s : set_sent l2 (set_sent l1 s) = set_sent l2 s.
Proof. reflexivity. Qed.

Lemma request_run m u h d e s :
  request m u h d e s
  = (Return (server e (sent s) {| req_method := m; req_url := u; req_headers := h; req_data := d |}),
     set_sent (sent s ++ [{| req_method := m; req_url := u; req_headers := h; req_data := d |}]) s).
Proof. reflexivity. Qed.

Lemma status_eqb_ok r n : status_code r = n -> negb (status_code r =? n) = false.
Proof. intros ->. rewrite Z.eqb_refl. reflexivity. Qed.

Lemma status_eqb_bad r n : status_code r <> n -> negb (status_code r =? n) = true.
Proof. intros H. apply Z.eqb_neq in H. rewrite H. reflexivity. Qed.

Section StreamingLoop.
Variables (e : Env) (host tok api obj : string) (test_mode : bool).

Let headers := json_headers tok.
Let post := streaming_request host tok api obj test_mode.

Lemma streaming_loop_step chunk chunks acc s :
  context s !! "dne_cdpOffcoreUrl" = Some (VStr host) ->
  streaming_loop headers api obj test_mode (chunk :: chunks) acc e s
  = let r := server e (sent s) (post chunk) in
    if negb (status_code r =? 202)
    then (Raise (SalesforceDataCloudError "Streaming UPSERT" (req_url (post chunk))
                   (status_code r) (text r)),
          set_sent (sent s ++ [post chunk]) s)
    else streaming_loop headers api obj test_mode chunks (Some r) e
           (set_sent (sent s ++ [post chunk]) s).
Proof.
  intros Hurl. cbn [streaming_loop].
  rewrite (bind_Return _ _ _ _ _ _ (offcore_url_Some _ _ e s Hurl)).
  rewrite (bind_Return _ _ _ _ _ _ (request_run _ _ _ _ e s)).
  cbv zeta. fold headers.
  change {| req_method := POST; req_url := _; req_headers := headers; req_data := _ |}
    with (post chunk).
  destruct (negb (status_code (server e (sent s) (post chunk)) =? 202)); reflexivity.
Qed.

Lemma streaming_loop_ok chunks : forall acc s,
  context s !! "dne_cdpOffcoreUrl" = Some (VStr host) ->
  Forall (fun r => status_code r = 202) (replies e (sent s) (List.map post chunks)) ->
  streaming_loop headers api obj test_mode chunks acc e s
  = (Return (last_response acc (replies e (sent s) (List.map post chunks))),
     set_sent (sent s ++ List.map post chunks) s).
Proof.
  induction chunks as [|chunk chunks IH]; intros acc s Hurl Hok.
  - cbn. rewrite app_nil_r, set_sent_same. reflexivity.
  - rewrite streaming_loop_step by exact Hurl. cbv zeta.
    cbn [List.map replies] in Hok |- *. inversion Hok as [|r rs Hr Hrs]; subst.
    rewrite (status_eqb_ok _ _ Hr).
    rewrite IH; [| exact Hurl | exact Hrs].
    cbn [sent set_sent last_response fold_left]. rewrite set_sent_twice, <- app_assoc.
    reflexivity.
Qed.

Lemma streaming_loop_fail chunks : forall acc s oks bad rest,
  context s !! "dne_cdpOffcoreUrl" = Some (VStr host) ->
  replies e (sent s) (List.map post chunks) = oks ++ bad :: rest ->
  Forall (fun r => status_code r = 202) oks ->
  status_code bad <> 202 ->
  streaming_loop headers api obj test_mode chunks acc e s
  = (Raise (SalesforceDataCloudError "Streaming UPSERT"
              ("https://" +:+ host +:+ streaming_path api obj test_mode)
              (status_code bad) (text bad)),
     set_sent (sent s ++ take (S (length oks)) (List.map post chunks)) s).
Proof.
  induction chunks as [|chunk chunks IH]; intros acc s oks bad rest Hurl Hrs Hoks Hbad.
  - destruct oks; discriminate Hrs.
  - rewrite streaming_loop_step by exact Hurl. cbv zeta.
    cbn [List.map replies] in Hrs. destruct oks as [|ok oks].
    + injection Hrs as Hr _. rewrite Hr, (status_eqb_bad _ _ Hbad). reflexivity.
    + injection Hrs as Hr Hrest. inversion Hoks as [|? ? Hok Hoks']; subst ok.
      rewrite (status_eqb_ok _ _ Hok).
      rewrite (IH _ _ oks bad rest); [| exact Hurl | exact Hrest | exact Hoks' | exact Hbad].
      cbn [sent set_sent length List.map]. rewrite set_sent_twice, <- app_assoc. reflexivity.
Qed.

End StreamingLoop.

Lemma split_two_small r1 r2 max_size :
  item_size r1 + item_size r2 <= max_size ->
  _split_json_list [r1; r2] max_size = [[r1; r2]].
Proof.
  intros Hfit. pose proof (item_size_nonneg r1). pose proof (item_size_nonneg r2).
  unfold _split_json_list. cbn [fold_left]. unfold split_step at 2. cbn.
  destruct (Z.ltb_spec max_size (0 + item_size r1)); [lia|].
  unfold split_step. cbn.
  destruct (Z.ltb_spec max_size (0 + item_size r1 + item_size r2)); [lia|].
  reflexivity.
Qed.

Lemma streaming_upsert_enters_loop api obj items test_mode e s s1 tok records :
  _authenticate false e s = (Return tt, s1) ->
  context s1 !! "dne_cdpOffcoreToken" = Some (VStr tok) ->
  assoc "data" items = Some (VList records) ->
  streaming_upsert api obj (VDict items) test_mode e s
  = streaming_loop (json_headers tok) api obj test_mode
      (_split_json_list records STREAMING_API_MAX_PAYLOAD_SIZE) None e s1.
Proof.
  intros Hauth Htok Hdata. unfold streaming_upsert.
  rewrite (bind_Return _ _ _ _ _ _ Hauth).
  rewrite (bind_Return _ _ _ _ _ _ (bearer_headers_Some _ _ e s1 Htok)).
  rewrite (bind_Return _ _ _ _ _ _ (getitem_Some _ _ _ e s1 Hdata)).
  reflexivity.
Qed.

(** C8: [streaming_upsert] splits the records with the 200 KB streaming
    limit and sends one POST per resulting group, in order.  When every
    response is 202 every group is posted and the last response is returned
    as it came; at the first response that is not 202 the structured error
    is raised with that response's status and body and no later group is
    posted.  Two records that fit the limit together make one group, hence
    exactly one POST, whose response is the result. *)
Theorem streaming_upsert_posts api obj items test_mode e s s1 tok host records :
  _authenticate false e s = (Return tt, s1) ->
  context s1 !! "dne_cdpOffcoreToken" = Some (VStr tok) ->
  context s1 !! "dne_cdpOffcoreUrl" = Some (VStr host) ->
  assoc "data" items = Some (VList records) ->
  let chunks := _split_json_list records STREAMING_API_MAX_PAYLOAD_SIZE in
  let posts := List.map (streaming_request host tok api obj test_mode) chunks in
  let rs := replies e (sent s1) posts in
  (Forall (fun r => status_code r = 202) rs ->
   streaming_upsert api obj (VDict items) test_mode e s
   = (Return (last_response None rs), set_sent (sent s1 ++ posts) s1))
  /\ (forall oks bad rest,
        rs = oks ++ bad :: rest ->
        Forall (fun r => status_code r = 202) oks ->
        status_code bad <> 202 ->
        streaming_upsert api obj (VDict items) test_mode e s
        = (Raise (SalesforceDataCloudError "Streaming UPSERT"
                    ("https://" +:+ host +:+ streaming_path api obj test_mode)
                    (status_code bad) (text bad)),
           set_sent (sent s1 ++ take (S (length oks)) posts) s1))
  /\ (forall r1 r2,
        records = [r1; r2] ->
        item_size r1 + item_size r2 <= STREAMING_API_MAX_PAYLOAD_SIZE ->
        let req := streaming_request host tok api obj test_mode [r1; r2] in
        let response := server e (sent s1) req in
        posts = [req]
        /\ (status_code response = 202 ->
            streaming_upsert api obj (VDict items) test_mode e s
            = (Return (Some response), set_sent (sent s1 ++ [req]) s1))).
Proof.
  intros Hauth Htok Hurl Hdata chunks posts rs.
  rewrite (streaming_upsert_enters_loop api obj items test_mode e s s1 tok records
             Hauth Htok Hdata).
  fold chunks. split; [|split].
  - intros Hok. apply (streaming_loop_ok e host tok api obj test_mode); assumption.
  - intros oks bad rest Hrs Hoks Hbad.
    apply (streaming_loop_fail e host tok api obj test_mode chunks None s1 oks bad rest);
      assumption.
  - intros r1 r2 -> Hfit req response.
    assert (Hposts : posts = [req]).
    { unfold posts, chunks. rewrite (split_two_small _ _ _ Hfit). reflexivity. }
    split; [exact Hposts|]. intros Hresp.
    rewrite (streaming_loop_ok e host tok api obj test_mode); [| exact Hurl |].
    + fold posts. rewrite Hposts. reflexivity.
    + fold posts. rewrite Hposts. cbn. constructor; [exact Hresp | constructor].
Qed.


(** * Traces of requests *)

Lemma bind_inv {A B} (m : M A) (k : A -> M B) e s out s2 :
  bind m k e s = (out, s2) ->
  (exists a s1, m e s = (Return a, s1) /\ k a e s1 = (out, s2))
  \/ (exists x, m e s = (Raise x, s2) /\ out = Raise x)
  \/ (m e s = (OutOfFuel, s2) /\ out = OutOfFuel).
Proof.
  unfold bind. destruct (m e s) as [[a|x|] s1]; intros H.
  - left. eauto.
  - right. left. inversion H; subst. eauto.
  - right. right. inversion H; subst. eauto.
Qed.

Lemma traces_weaken {A} (m : M A) (P Q : outcome A -> list Request -> Prop) :
  traces m P -> (forall out l, P out l -> Q out l) -> traces m Q.
Proof.
  intros Hm HPQ e s out s1 Hrun. destruct (Hm e s out s1 Hrun) as (l & Hl & HP). eauto.
Qed.

Lemma traces_bind {A B} (m : M A) (k : A -> M B)
      (P : outcome A -> list Request -> Prop) (Q : outcome B -> list Request -> Prop) :
  traces m P ->
  (forall a l1, P (Return a) l1 -> traces (k a) (fun out l2 => Q out (l1 ++ l2))) ->
  (forall x l, P (Raise x) l -> Q (Raise x) l) ->
  (forall l, P OutOfFuel l -> Q OutOfFuel l) ->
  traces (bind m k) Q.
Proof.
  intros Hm Hk Hx Hf e s out s2 Hrun.
  apply bind_inv in Hrun as [(a & s1 & Hm1 & Hk1) | [(x & Hm1 & ->) | (Hm1 & ->)]].
  - destruct (Hm e s _ _ Hm1) as (l1 & Hl1 & HP).
    destruct (Hk a l1 HP e s1 _ _ Hk1) as (l2 & Hl2 & HQ).
    exists (l1 ++ l2). rewrite Hl2, Hl1, app_assoc. auto.
  - destruct (Hm e s _ _ Hm1) as (l & Hl & HP). eauto.
  - destruct (Hm e s _ _ Hm1) as (l & Hl & HP). eauto.
Qed.

Lemma sends_only_bind {A B} ok (m : M A) (k : A -> M B) :
  sends_only ok m -> (forall a, sends_only ok (k a)) -> sends_only ok (bind m k).
Proof.
  intros Hm Hk. unfold sends_only in *. eapply traces_bind; [exact Hm | | |].
  - intros a l1 [_ Hl1]. eapply traces_weaken; [apply Hk|].
    intros out l2 [Hout Hl2]. split; [exact Hout|]. rewrite forallb_app, Hl1, Hl2. reflexivity.
  - intros x l [_ Hl]. split; [discriminate | exact Hl].
  - intros l [Hout _]. congruence.
Qed.

Lemma silent_sends_only {A} ok (m : M A) : silent m -> sends_only ok m.
Proof.
  intros Hm e s out s1 Hrun. destruct (Hm e s out s1 Hrun) as [Hs Ho].
  exists []. rewrite app_nil_r. auto.
Qed.

Lemma silent_pure {A} (f : Env -> State -> outcome A) :
  (forall e s, f e s <> OutOfFuel) -> silent (fun e s => (f e s, s)).
Proof. intros Hf e s out s1 H. inversion H; subst. auto. Qed.

Lemma silent_ret {A} (a : A) : silent (ret a).
Proof. intros e s out s1 H. inversion H; subst. split; [reflexivity | discriminate]. Qed.

Lemma silent_raise {A} (x : Exn) : silent (@raise A x).
Proof. intros e s out s1 H. inversion H; subst. split; [reflexivity | discriminate]. Qed.

Lemma silent_ctx_get key : silent (ctx_get key).
Proof.
  intros e s out s1. unfold ctx_get. destruct (context s !! key); intros H;
    inversion H; subst; split; (reflexivity || discriminate).
Qed.

Lemma silent_ctx_get_default key : silent (ctx_get_default key).
Proof. intros e s out s1 H. inversion H; subst. split; [reflexivity | discriminate]. Qed.

Lemma silent_ctx_set key v : silent (ctx_set key v).
Proof. intros e s out s1 H. inversion H; subst. split; [reflexivity | discriminate]. Qed.

Lemma silent_time_ms : silent time_ms.
Proof. intros e s out s1 H. inversion H; subst. split; [reflexivity | discriminate]. Qed.

Lemma silent_os_remove path : silent (os_remove path).
Proof. intros e s out s1 H. inversion H; subst. split; [reflexivity | discriminate]. Qed.

Lemma silent_resp_json r : silent (resp_json r).
Proof. unfold resp_json. destruct (json_of r); [apply silent_ret | apply silent_raise]. Qed.

Lemma silent_getitem v key : silent (getitem v key).
Proof.
  unfold getitem. destruct v; try apply silent_raise.
  destruct (assoc key items); [apply silent_ret | apply silent_raise].
Qed.

Lemma silent_as_str v : silent (as_str v).
Proof. destruct v; first [apply silent_ret | apply silent_raise]. Qed.

Lemma silent_as_number v : silent (as_number v).
Proof. destruct v; first [apply silent_ret | apply silent_raise]. Qed.

Lemma silent_format_value v : silent (format_value v).
Proof. intros e s out s1 H. inversion H; subst. split; [reflexivity | discriminate]. Qed.

Lemma silent_py_iter v : silent (py_iter v).
Proof. destruct v; first [apply silent_ret | apply silent_raise]. Qed.

Lemma silent_keys v : silent (keys v).
Proof. destruct v; first [apply silent_ret | apply silent_raise]. Qed.

Lemma silent_bind {A B} (m : M A) (k : A -> M B) :
  silent m -> (forall a, silent (k a)) -> silent (bind m k).
Proof.
  intros Hm Hk e s out s2 Hrun.
  apply bind_inv in Hrun as [(a & s1 & Hm1 & Hk1) | [(x & Hm1 & ->) | (Hm1 & ->)]].
  - destruct (Hm _ _ _ _ Hm1) as [E1 _]. destruct (Hk a _ _ _ _ Hk1) as [E2 Ho].
    split; [congruence | exact Ho].
  - destruct (Hm _ _ _ _ Hm1) as [E1 _]. split; [exact E1 | discriminate].
  - destruct (Hm _ _ _ _ Hm1) as [_ Ho]. congruence.
Qed.

Lemma sends_only_request ok m u h d :
  ok {| req_method := m; req_url := u; req_headers := h; req_data := d |} = true ->
  sends_only ok (request m u h d).
Proof.
  intros Hok e s out s1 H. inversion H; subst. eexists. split; [reflexivity|].
  split; [discriminate|]. cbn [forallb]. rewrite Hok. reflexivity.
Qed.

Create HintDb trace_db.
#[local] Hint Resolve silent_ret silent_raise silent_ctx_get silent_ctx_get_default
  silent_ctx_set silent_time_ms silent_os_remove silent_resp_json silent_getitem
  silent_as_str silent_as_number silent_format_value silent_py_iter silent_keys
  : trace_db.

(** Peel the binds of a straight-line method. *)
Ltac trace_steps :=
  repeat first
    [ solve [ auto with trace_db ]
    | apply silent_sends_only; solve [ auto with trace_db ]
    | apply sends_only_bind; [| intros ? ]
    | apply sends_only_request; reflexivity
    | match goal with
      | |- sends_only _ (if ?c then _ else _) => destruct c
      | |- sends_only _ (match ?x with _ => _ end) => destruct x
      end ].

Lemma silent_bearer_headers ct : silent (bearer_headers ct).
Proof. unfold bearer_headers. repeat (apply silent_bind; [|intros ?]); auto with trace_db. Qed.

Lemma silent_offcore_url path : silent (offcore_url path).
Proof. unfold offcore_url. repeat (apply silent_bind; [|intros ?]); auto with trace_db. Qed.

#[local] Hint Resolve silent_bearer_headers silent_offcore_url : trace_db.

Lemma s2s_exchange_posts : sends_only is_post s2s_exchange.
Proof.
  unfold s2s_exchange. trace_steps.
  apply silent_sends_only, silent_pure. discriminate.
Qed.

Lemma cdp_exchange_posts : sends_only is_post cdp_exchange.
Proof. unfold cdp_exchange. trace_steps. Qed.

Lemma refresh_token_posts : sends_only is_post refresh_token.
Proof.
  unfold refresh_token. apply sends_only_bind; [apply s2s_exchange_posts|].
  intros _. apply cdp_exchange_posts.
Qed.

#[local] Hint Resolve refresh_token_posts : trace_db.

Lemma authenticate_posts force : sends_only is_post (_authenticate force).
Proof. unfold _authenticate. trace_steps. Qed.


(** * The bulk bracket *)

Lemma ends_with_transition_app state l1 l2 :
  forallb not_patch l1 = true ->
  ends_with_transition state l2 -> ends_with_transition state (l1 ++ l2).
Proof.
  intros H1 (l0 & r & -> & H0 & Hr). exists (l1 ++ l0), r.
  rewrite app_assoc, forallb_app, H1, H0. auto.
Qed.

Lemma absorbs_close state A : absorbs (@close_trace state A).
Proof.
  split; [|split].
  - intros [a|x|] l1 l2 H1; cbn.
    + apply ends_with_transition_app, H1.
    + intros H2. rewrite forallb_app, H1, H2. reflexivity.
    + auto.
  - intros x l H. exact H.
  - intros l H. exact H.
Qed.


Lemma traces_prefix {A B} (m : M A) (k : A -> M B) Q :
  absorbs Q -> sends_only not_patch m -> (forall a, traces (k a) Q) -> traces (bind m k) Q.
Proof.
  intros (Happ & Hraise & Hfuel) Hm Hk. eapply traces_bind; [exact Hm | | |].
  - intros a l1 [_ Hl1]. eapply traces_weaken; [apply Hk|]. intros out l2. apply Happ, Hl1.
  - intros x l [_ Hl]. apply Hraise, Hl.
  - intros l [Hout _]. congruence.
Qed.

Lemma post_is_not_patch r : is_post r = true -> not_patch r = true.
Proof. unfold is_post, not_patch, is_patch. destruct (req_method r); cbn; congruence. Qed.

Lemma sends_only_weaken {A} (ok ok' : Request -> bool) (m : M A) :
  (forall r, ok r = true -> ok' r = true) -> sends_only ok m -> sends_only ok' m.
Proof.
  intros Hok Hm. eapply traces_weaken; [exact Hm|]. intros out l [Ho Hl]. split; [exact Ho|].
  rewrite forallb_forall in *. auto.
Qed.

Lemma authenticate_no_patch force : sends_only not_patch (_authenticate force).
Proof. eapply sends_only_weaken; [apply post_is_not_patch | apply authenticate_posts]. Qed.

#[local] Hint Resolve authenticate_no_patch : trace_db.





Lemma close_job_trace job_id state :
  traces (_close_job job_id state) (close_trace state).
Proof.
  unfold _close_job.
  repeat (apply traces_prefix;
          [ apply absorbs_close
          | first [ apply authenticate_no_patch
                  | apply silent_sends_only; auto with trace_db ]
          | intros ? ]).
  intros e s out s1 H. unfold request in H. inversion H; subst.
  eexists. split; [reflexivity|]. eexists [], _.
  split; [reflexivity | split; [reflexivity | split; reflexivity]].
Qed.


Lemma try_finally_inv {A} (body : M A) cleanup e s out s2 :
  try_finally body cleanup e s = (out, s2) ->
  exists r s1, body e s = (r, s1)
    /\ ((r = OutOfFuel /\ out = OutOfFuel /\ s2 = s1)
        \/ (r <> OutOfFuel
            /\ exists oc, cleanup r e s1 = (oc, s2)
                 /\ out = match oc with
                          | Return _ => r
                          | Raise x => Raise x
                          | OutOfFuel => OutOfFuel
                          end)).
Proof.
  unfold try_finally. destruct (body e s) as [r s1]. intros H. exists r, s1.
  split; [reflexivity|]. destruct r as [a|x|].
  - right. split; [discriminate|]. destruct (cleanup (Return a) e s1) as [[u|y|] s3];
      inversion H; subst; eexists; split; reflexivity.
  - right. split; [discriminate|]. destruct (cleanup (Raise x) e s1) as [[u|y|] s3];
      inversion H; subst; eexists; split; reflexivity.
  - left. inversion H; subst. auto.
Qed.

Lemma abort_job_trace job_id : traces (abort_job job_id) (close_trace "Aborted").
Proof. exact (close_job_trace job_id "Aborted"). Qed.




(** * The bulk bracket, assembled *)





(** The public wrappers return [None] and otherwise do what
    [_bulk_operation] does. *)
Lemma bulk_upsert_run api obj files e s :
  bulk_upsert api obj files e s
  = (match fst (_bulk_operation api obj files "upsert" e s) with
     | Return _ => Return tt
     | Raise x => Raise x
     | OutOfFuel => OutOfFuel
     end, snd (_bulk_operation api obj files "upsert" e s)).
Proof.
  unfold bulk_upsert, bind.
  destruct (_bulk_operation api obj files "upsert" e s) as [[r|x|] s1]; reflexivity.
Qed.

Lemma bulk_delete_run api obj files e s :
  bulk_delete api obj files e s
  = (match fst (_bulk_operation api obj files "delete" e s) with
     | Return _ => Return tt
     | Raise x => Raise x
     | OutOfFuel => OutOfFuel
     end, snd (_bulk_operation api obj files "delete" e s)).
Proof.
  unfold bulk_delete, bind.
  destruct (_bulk_operation api obj files "delete" e s) as [[r|x|] s1]; reflexivity.
Qed.

(** * The token manager *)

Ltac lookup_ctx :=
  cbn [context set_context set_ticks set_sent set_removed];
  repeat (rewrite lookup_insert_ne by done);
  first [ rewrite lookup_insert_eq; reflexivity | eassumption ].

(** One statement of a method body: a primitive that returns. *)
Ltac prim :=
  first
    [ apply ctx_get_Some; lookup_ctx
    | apply bearer_headers_Some; lookup_ctx
    | apply offcore_url_Some; lookup_ctx
    | apply getitem_Some; eassumption
    | reflexivity ].

Ltac mstep := erewrite bind_Return by prim; cbv beta zeta.

Section Exchange.
Variables (e : Env) (s : State) (key : value) (login : string).
Hypothesis Hkey : context s !! "privateKey" = Some key.
Hypothesis Hlogin : context s !! "loginUrl" = Some (VStr login).

Let now := clock e (ticks s).
Let jwt := jwt_encode e (jwt_payload (context s) (clock e (S (ticks s)))) key.
Let r1 := s2s_request login jwt.
Let resp1 := server e (sent s) r1.
Let c1 := <["dne_cdpAssertion" := VStr jwt]>
            (<["dne_cdpTokenRefreshTime" := VInt now]> (context s)).
Let s_a := {| context := c1; ticks := S (S (ticks s));
              sent := sent s ++ [r1]; removed := removed s |}.

Lemma s2s_exchange_request :
  s2s_exchange e s
  = (let* s2s_response_json := resp_json resp1 in
     if negb (status_code resp1 =? 200)
     then raise (SalesforceDataCloudError "Get S2S Access Token" (req_url r1)
                   (status_code resp1) (text resp1))
     else
     let* access_token := getitem s2s_response_json "access_token" in
     ctx_set "dne_cdpAuthToken" access_token;;
     let* instance_url := getitem s2s_response_json "instance_url" in
     ctx_set "dne_cdpInstanceUrl" instance_url) e s_a.
Proof.
  unfold s2s_exchange.
  repeat mstep.
  cbn [context set_context set_ticks set_sent set_removed ticks sent removed].
  rewrite !lookup_insert_ne by done.
  reflexivity.
Qed.

Lemma s2s_exchange_rejected :
  status_code resp1 <> 200 ->
  s2s_exchange e s = (Raise (rejection "Get S2S Access Token" (req_url r1) resp1), s_a).
Proof.
  intros Hbad. rewrite s2s_exchange_request. unfold rejection, bind, resp_json.
  destruct (json_of resp1); [|reflexivity]. cbn [ret].
  rewrite (status_eqb_bad _ _ Hbad). reflexivity.
Qed.

Lemma s2s_exchange_accepted tok1 inst :
  accepts resp1 tok1 inst ->
  s2s_exchange e s
  = (Return tt,
     set_context (<["dne_cdpInstanceUrl" := inst]> (<["dne_cdpAuthToken" := tok1]> c1)) s_a).
Proof.
  intros (Hok & items & Hjson & Htok & Hinst). rewrite s2s_exchange_request.
  unfold resp_json at 1. rewrite Hjson. mstep.
  rewrite (status_eqb_ok _ _ Hok). cbv iota.
  do 3 mstep. reflexivity.
Qed.

End Exchange.


Section PlatformExchange.
Variables (e : Env) (s : State) (tok1 : value) (inst : string).
Hypothesis Htok : context s !! "dne_cdpAuthToken" = Some tok1.
Hypothesis Hinst : context s !! "dne_cdpInstanceUrl" = Some (VStr inst).

Let r2 := cdp_request inst tok1.
Let resp2 := server e (sent s) r2.

Lemma cdp_exchange_request :
  cdp_exchange e s
  = (let* cdp_response_json := resp_json resp2 in
     if negb (status_code resp2 =? 200)
     then raise (SalesforceDataCloudError "Data Cloud Token Exchange" (req_url r2)
                   (status_code resp2) (text resp2))
     else
     let* offcore_token := getitem cdp_response_json "access_token" in
     ctx_set "dne_cdpOffcoreToken" offcore_token;;
     let* offcore_url := getitem cdp_response_json "instance_url" in
     ctx_set "dne_cdpOffcoreUrl" offcore_url) e (set_sent (sent s ++ [r2]) s).
Proof. unfold cdp_exchange. repeat mstep. reflexivity. Qed.

Lemma cdp_exchange_rejected :
  status_code resp2 <> 200 ->
  cdp_exchange e s
  = (Raise (rejection "Data Cloud Token Exchange" (req_url r2) resp2),
     set_sent (sent s ++ [r2]) s).
Proof.
  intros Hbad. rewrite cdp_exchange_request. unfold rejection, bind, resp_json.
  destruct (json_of resp2); [|reflexivity]. cbn [ret].
  rewrite (status_eqb_bad _ _ Hbad). reflexivity.
Qed.

Lemma cdp_exchange_accepted tok2 url2 :
  accepts resp2 tok2 url2 ->
  cdp_exchange e s
  = (Return tt,
     set_context (<["dne_cdpOffcoreUrl" := url2]>
                    (<["dne_cdpOffcoreToken" := tok2]> (context s)))
                 (set_sent (sent s ++ [r2]) s)).
Proof.
  intros (Hok & items & Hjson & Htok2 & Hurl2). rewrite cdp_exchange_request.
  unfold resp_json at 1. rewrite Hjson. mstep.
  rewrite (status_eqb_ok _ _ Hok). cbv iota.
  do 3 mstep. reflexivity.
Qed.

End PlatformExchange.

(** [_authenticate] on a fresh token: nothing but the clock is read. *)
Lemma authenticate_fresh e s T :
  context s !! "dne_cdpTokenRefreshTime" = Some (VInt T) ->
  token_age (clock e (ticks s)) T < 115 ->
  _authenticate false e s = (Return tt, set_ticks (S (ticks s)) s).
Proof.
  intros Htime Hage. unfold _authenticate. do 3 mstep.
  destruct (Z.ltb_spec (token_age (clock e (ticks s)) T) 115); [reflexivity | lia].
Qed.

(** [_authenticate] on a stale token, or forced: the refresh branch runs. *)
Lemma authenticate_refreshes force e s T :
  context s !! "dne_cdpTokenRefreshTime" = Some (VInt T) ->
  force = true \/ 115 <= token_age (clock e (ticks s)) T ->
  _authenticate force e s = refresh_token e (set_ticks (S (ticks s)) s).
Proof.
  intros Htime Hcase. unfold _authenticate. do 3 mstep.
  destruct Hcase as [->|Hstale].
  - rewrite andb_false_r. reflexivity.
  - destruct (Z.ltb_spec (token_age (clock e (ticks s)) T) 115); [lia | reflexivity].
Qed.

Section Refresh.
Variables (e : Env) (s : State) (T : Z) (force : bool) (key : value) (login : string).
Hypothesis Htime : context s !! "dne_cdpTokenRefreshTime" = Some (VInt T).
Hypothesis Hkey : context s !! "privateKey" = Some key.
Hypothesis Hlogin : context s !! "loginUrl" = Some (VStr login).
Hypothesis Hcase : force = true \/ 115 <= token_age (clock e (ticks s)) T.

Let now := clock e (S (ticks s)).
Let jwt := jwt_encode e (jwt_payload (context s) (clock e (S (S (ticks s))))) key.
Let r1 := s2s_request login jwt.
Let resp1 := server e (sent s) r1.
Let c1 := <["dne_cdpAssertion" := VStr jwt]>
            (<["dne_cdpTokenRefreshTime" := VInt now]> (context s)).

Lemma authenticate_s2s_rejected :
  status_code resp1 <> 200 ->
  _authenticate force e s
  = (Raise (rejection "Get S2S Access Token" (req_url r1) resp1),
     {| context := c1; ticks := S (S (S (ticks s)));
        sent := sent s ++ [r1]; removed := removed s |}).
Proof.
  intros Hbad. rewrite (authenticate_refreshes force e s T Htime Hcase).
  unfold refresh_token.
  erewrite bind_Raise; [reflexivity|].
  apply (s2s_exchange_rejected e (set_ticks (S (ticks s)) s) key login Hkey Hlogin Hbad).
Qed.

Variables (tok1 : value) (inst : string).
Hypothesis Hresp1 : accepts resp1 tok1 (VStr inst).

Let r2 := cdp_request inst tok1.
Let resp2 := server e (sent s ++ [r1]) r2.
Let c2 := <["dne_cdpInstanceUrl" := VStr inst]> (<["dne_cdpAuthToken" := tok1]> c1).

Lemma authenticate_after_s2s :
  _authenticate force e s
  = cdp_exchange e {| context := c2; ticks := S (S (S (ticks s)));
                      sent := sent s ++ [r1]; removed := removed s |}.
Proof.
  rewrite (authenticate_refreshes force e s T Htime Hcase).
  unfold refresh_token.
  erewrite bind_Return; [reflexivity|].
  apply (s2s_exchange_accepted e (set_ticks (S (ticks s)) s) key login Hkey Hlogin
           tok1 (VStr inst) Hresp1).
Qed.

Lemma authenticate_cdp_rejected :
  status_code resp2 <> 200 ->
  _authenticate force e s
  = (Raise (rejection "Data Cloud Token Exchange" (req_url r2) resp2),
     {| context := c2; ticks := S (S (S (ticks s)));
        sent := sent s ++ [r1; r2]; removed := removed s |}).
Proof.
  intros Hbad. rewrite authenticate_after_s2s.
  erewrite cdp_exchange_rejected; [| unfold c2; lookup_ctx .. | exact Hbad].
  unfold set_sent. cbn [context ticks sent removed]. rewrite <- app_assoc. reflexivity.
Qed.

Lemma authenticate_exchanged tok2 url2 :
  accepts resp2 tok2 url2 ->
  _authenticate force e s
  = (Return tt,
     {| context := <["dne_cdpOffcoreUrl" := url2]> (<["dne_cdpOffcoreToken" := tok2]> c2);
        ticks := S (S (S (ticks s)));
        sent := sent s ++ [r1; r2]; removed := removed s |}).
Proof.
  intros Hok. rewrite authenticate_after_s2s.
  erewrite cdp_exchange_accepted; [| unfold c2; lookup_ctx .. | exact Hok].
  unfold set_sent, set_context. cbn [context ticks sent removed].
  rewrite <- app_assoc. reflexivity.
Qed.

End Refresh.


(** C5: when the token age computed from the stored refresh time is below
    115 minutes and [force_refresh] is false, [_authenticate] sends nothing
    and changes nothing but the count of clock readings.  When the token is
    stale, or [force_refresh] is true whatever the age, and both endpoints
    accept, the call sends exactly the two exchange requests and stores the
    refresh time and the platform token; a second call inside the window
    then sends nothing more and leaves the context as it is. *)
Theorem authenticate_freshness e s T :
  context s !! "dne_cdpTokenRefreshTime" = Some (VInt T) ->
  (token_age (clock e (ticks s)) T < 115 ->
   _authenticate false e s = (Return tt, set_ticks (S (ticks s)) s))
  /\ (forall force key login tok1 inst tok2 url2,
        context s !! "privateKey" = Some key ->
        context s !! "loginUrl" = Some (VStr login) ->
        force = true \/ 115 <= token_age (clock e (ticks s)) T ->
        let now := clock e (S (ticks s)) in
        let jwt := jwt_encode e (jwt_payload (context s) (clock e (S (S (ticks s))))) key in
        let r1 := s2s_request login jwt in
        let r2 := cdp_request inst tok1 in
        accepts (server e (sent s) r1) tok1 (VStr inst) ->
        accepts (server e (sent s ++ [r1]) r2) tok2 url2 ->
        exists s1,
          _authenticate force e s = (Return tt, s1)
          /\ sent s1 = sent s ++ [r1; r2]
          /\ context s1 !! "dne_cdpTokenRefreshTime" = Some (VInt now)
          /\ context s1 !! "dne_cdpOffcoreToken" = Some tok2
          /\ context s1 !! "dne_cdpOffcoreUrl" = Some url2
          /\ (token_age (clock e (ticks s1)) now < 115 ->
              exists s2,
                _authenticate false e s1 = (Return tt, s2)
                /\ sent s2 = sent s ++ [r1; r2]
                /\ context s2 = context s1)).
Proof.
  intros Htime. split; [apply authenticate_fresh, Htime|].
  intros force key login tok1 inst tok2 url2 Hkey Hlogin Hcase now jwt r1 r2 H1 H2.
  eexists. split.
  { apply (authenticate_exchanged e s T force key login Htime Hkey Hlogin Hcase
             tok1 inst H1 tok2 url2 H2). }
  cbn [sent context ticks].
  split; [reflexivity|]. split; [lookup_ctx|]. split; [lookup_ctx|]. split; [lookup_ctx|].
  intros Hfresh. eexists. split.
  { apply (authenticate_fresh e _ now); [lookup_ctx | exact Hfresh]. }
  split; reflexivity.
Qed.



(** * Status checks at the call sites *)

Lemma create_job_rejected api obj op e s tok host :
  context s !! "dne_cdpOffcoreToken" = Some (VStr tok) ->
  context s !! "dne_cdpOffcoreUrl" = Some (VStr host) ->
  let req := create_request host tok api obj op in
  let response := server e (sent s) req in
  status_code response <> 201 ->
  _create_job api obj op e s
  = (Raise (SalesforceDataCloudError "Create Job" (req_url req)
              (status_code response) (text response)),
     set_sent (sent s ++ [req]) s).
Proof.
  intros Htok Hhost req response Hbad. unfold _create_job. do 3 mstep.
  fold (json_headers tok). fold (create_request host tok api obj op). fold req response.
  rewrite (status_eqb_bad _ _ Hbad). reflexivity.
Qed.

Lemma split_callback_rejected url headers chunk e s :
  let req := upload_request url headers chunk in
  let response := server e (sent s) req in
  status_code response <> 202 ->
  split_callback url headers chunk e s
  = (Raise (SalesforceDataCloudError "Upload File" url
              (status_code response) (text response)),
     set_sent (sent s ++ [req]) s).
Proof.
  intros req response Hbad. unfold split_callback. mstep.
  fold (upload_request url headers chunk). fold req response.
  rewrite (status_eqb_bad _ _ Hbad). reflexivity.
Qed.

Lemma query_rejected fuel query_str e s s1 tok host :
  _authenticate false e s = (Return tt, s1) ->
  context s1 !! "dne_cdpOffcoreToken" = Some (VStr tok) ->
  context s1 !! "dne_cdpOffcoreUrl" = Some (VStr host) ->
  let req := query_request host tok query_str in
  let response := server e (sent s1) req in
  status_code response <> 200 ->
  query fuel query_str e s
  = (Raise (SalesforceDataCloudError "Query" (req_url req)
              (status_code response) (text response)),
     set_sent (sent s1 ++ [req]) s1).
Proof.
  intros Hauth Htok Hhost req response Hbad. unfold query.
  rewrite (bind_Return _ _ _ _ _ _ Hauth). do 3 mstep.
  fold (json_headers tok). fold (query_request host tok query_str). fold req response.
  rewrite (status_eqb_bad _ _ Hbad). reflexivity.
Qed.

Lemma frame_of_run items metadata data e s :
  assoc "data" items = Some data ->
  frame_error e data (List.map fst metadata) = None ->
  frame_of (VDict items) (VDict metadata) e s
  = (Return {| df_data := data; df_columns := List.map fst metadata |}, s).
Proof.
  intros Hdata Hframe. unfold frame_of. do 2 mstep. unfold new_frame.
  rewrite Hframe. reflexivity.
Qed.

(** The unchecked site: [_close_job] hands back whatever the PATCH got. *)
Lemma close_job_returns job_id state e s s1 tok host :
  _authenticate false e s = (Return tt, s1) ->
  context s1 !! "dne_cdpOffcoreToken" = Some (VStr tok) ->
  context s1 !! "dne_cdpOffcoreUrl" = Some (VStr host) ->
  let req := close_request host tok (py_str e job_id) state in
  _close_job job_id state e s
  = (Return (server e (sent s1) req), set_sent (sent s1 ++ [req]) s1).
Proof.
  intros Hauth Htok Hhost req. unfold _close_job.
  rewrite (bind_Return _ _ _ _ _ _ Hauth). do 4 mstep. reflexivity.
Qed.

Lemma list_jobs_returns limit offset orderby state e s s1 tok host :
  _authenticate false e s = (Return tt, s1) ->
  context s1 !! "dne_cdpOffcoreToken" = Some (VStr tok) ->
  context s1 !! "dne_cdpOffcoreUrl" = Some (VStr host) ->
  let req := list_request host tok limit offset orderby state in
  json_of (server e (sent s1) req) <> None ->
  list_jobs limit offset orderby state e s
  = (Return (server e (sent s1) req), set_sent (sent s1 ++ [req]) s1).
Proof.
  intros Hauth Htok Hhost req Hjson. unfold list_jobs.
  rewrite (bind_Return _ _ _ _ _ _ Hauth). do 3 mstep.
  fold (json_headers tok). fold (list_request host tok limit offset orderby state).
  fold req. unfold bind, resp_json.
  destruct (json_of (server e (sent s1) req)); [reflexivity | congruence].
Qed.

Lemma job_info_returns job_id e s s1 tok host :
  _authenticate false e s = (Return tt, s1) ->
  context s1 !! "dne_cdpOffcoreToken" = Some (VStr tok) ->
  context s1 !! "dne_cdpOffcoreUrl" = Some (VStr host) ->
  let req := info_request host tok (py_str e job_id) in
  json_of (server e (sent s1) req) <> None ->
  job_info job_id e s
  = (Return (server e (sent s1) req), set_sent (sent s1 ++ [req]) s1).
Proof.
  intros Hauth Htok Hhost req Hjson. unfold job_info.
  rewrite (bind_Return _ _ _ _ _ _ Hauth). do 5 mstep.
  fold (json_headers tok). fold (info_request host tok (py_str e job_id)).
  fold req. unfold bind, resp_json.
  destruct (json_of (server e (sent s1) req)); [reflexivity | congruence].
Qed.

(** * Query: what the returned frame holds *)

Lemma bind_Return_inv {A B} (m : M A) (k : A -> M B) e s b s2 :
  bind m k e s = (Return b, s2) ->
  exists a s1, m e s = (Return a, s1) /\ k a e s1 = (Return b, s2).
Proof.
  intros H. apply bind_inv in H as [H | [(x & _ & Hx) | (_ & Hx)]];
    [exact H | discriminate | discriminate].
Qed.

Lemma getitem_inv v key e s x s1 :
  getitem v key e s = (Return x, s1) ->
  s1 = s /\ exists items, v = VDict items /\ assoc key items = Some x.
Proof.
  destruct v; try discriminate. cbn [getitem].
  destruct (assoc key items) eqn:Hk; intros H; inversion H; subst. eauto.
Qed.

Lemma ctx_get_inv key e s v s1 :
  ctx_get key e s = (Return v, s1) -> s1 = s /\ context s !! key = Some v.
Proof.
  unfold ctx_get. destruct (context s !! key); intros H; inversion H; subst. auto.
Qed.

Lemma as_str_inv v e s x s1 :
  as_str v e s = (Return x, s1) -> s1 = s /\ v = VStr x.
Proof. destruct v; try discriminate. intros H. inversion H; subst. auto. Qed.

Lemma resp_json_inv r e s v s1 :
  resp_json r e s = (Return v, s1) -> s1 = s /\ json_of r = Some v.
Proof.
  unfold resp_json. destruct (json_of r); intros H; inversion H; subst. auto.
Qed.

Lemma bearer_headers_inv ct e s h s1 :
  bearer_headers ct e s = (Return h, s1) ->
  s1 = s /\ exists tok, context s !! "dne_cdpOffcoreToken" = Some (VStr tok)
                        /\ h = [("Content-Type", ct); ("Authorization", "Bearer " +:+ tok)].
Proof.
  unfold bearer_headers. intros H.
  apply bind_Return_inv in H as (v & s2 & Hv & H). apply ctx_get_inv in Hv as [-> Hv].
  apply bind_Return_inv in H as (x & s3 & Hx & H). apply as_str_inv in Hx as [-> ->].
  inversion H; subst. eauto.
Qed.

Lemma offcore_url_inv path e s u s1 :
  offcore_url path e s = (Return u, s1) ->
  s1 = s /\ exists host, context s !! "dne_cdpOffcoreUrl" = Some (VStr host)
                         /\ u = "https://" +:+ host +:+ path.
Proof.
  unfold offcore_url. intros H.
  apply bind_Return_inv in H as (v & s2 & Hv & H). apply ctx_get_inv in Hv as [-> Hv].
  apply bind_Return_inv in H as (x & s3 & Hx & H). apply as_str_inv in Hx as [-> ->].
  inversion H; subst. eauto.
Qed.

Lemma frame_of_inv response_dict output_metadata e s df s1 :
  frame_of response_dict output_metadata e s = (Return df, s1) ->
  s1 = s /\ exists items, response_dict = VDict items
                          /\ assoc "data" items = Some (df_data df).
Proof.
  unfold frame_of. intros H.
  apply bind_Return_inv in H as (d & s2 & Hd & H).
  apply getitem_inv in Hd as (-> & items & -> & Hd).
  apply bind_Return_inv in H as (c & s3 & Hc & H).
  destruct output_metadata; try discriminate. inversion Hc; subst.
  unfold new_frame in H. destruct (frame_error e d _); [discriminate|].
  inversion H; subst. eauto.
Qed.

(** The loop hands back the frame it was started with: the result of
    [df.append] is dropped at every round. *)
Lemma query_loop_frame fuel : forall headers output_metadata response_dict df e s df' s',
  query_loop fuel headers output_metadata response_dict df e s = (Return df', s') ->
  df' = df.
Proof.
  induction fuel as [|fuel IH]; intros headers md rd df e s df' s' H.
  - cbn [query_loop] in H. apply bind_Return_inv in H as (d & s1 & _ & H).
    destruct (truthy d); [inversion H; reflexivity | discriminate].
  - cbn [query_loop] in H. apply bind_Return_inv in H as (d & s1 & _ & H).
    destruct (truthy d); [inversion H; reflexivity|].
    do 5 (apply bind_Return_inv in H as (? & ? & _ & H)).
    destruct (negb _); [discriminate|].
    do 3 (apply bind_Return_inv in H as (? & ? & _ & H)).
    apply IH in H. exact H.
Qed.

(** Whatever pages follow, a frame returned by [query] holds the data of
    the first response. *)
Lemma query_returns_first_page fuel query_str e s df s' :
  query fuel query_str e s = (Return df, s') ->
  exists s1 tok host items,
    _authenticate false e s = (Return tt, s1)
    /\ json_of (server e (sent s1) (query_request host tok query_str)) = Some (VDict items)
    /\ assoc "data" items = Some (df_data df).
Proof.
  unfold query. intros H.
  apply bind_Return_inv in H as ([] & s1 & Hauth & H).
  apply bind_Return_inv in H as (h & s2 & Hh & H).
  apply bearer_headers_inv in Hh as (-> & tok & Htok & ->).
  apply bind_Return_inv in H as (u & s2 & Hu & H).
  apply offcore_url_inv in Hu as (-> & host & Hhost & ->).
  apply bind_Return_inv in H as (r & s2 & Hr & H).
  unfold request in Hr. inversion Hr; subst r s2. clear Hr.
  fold (json_headers tok) in H. fold (query_request host tok query_str) in H.
  destruct (negb _); [discriminate|].
  apply bind_Return_inv in H as (rd & s2 & Hrd & H).
  apply resp_json_inv in Hrd as (-> & Hrd).
  apply bind_Return_inv in H as (md & s2 & _ & H).
  apply bind_Return_inv in H as (df0 & s3 & Hdf & H).
  apply frame_of_inv in Hdf as (_ & items & -> & Hdata).
  apply query_loop_frame in H. subst df0.
  exists s1, tok, host, items. auto.
Qed.

(** C1: on a result of two pages the second page is fetched and its rows
    are left out of the returned frame. *)
Theorem query_two_pages_keeps_first :
  let run := query 5 "SELECT id, name FROM person" (mock_env all_ok) new_instance in
  exists df,
    fst run = Return df
    /\ List.map (fun r => (req_method r, req_url r)) (drop 2 (sent (snd run)))
       = [(POST, "https://dc.example.com/api/v2/query");
          (GET, "https://dc.example.com/api/v2/query/batch-2")]
    /\ df_rows df = [VList [VInt 1; VStr "ann"]; VList [VInt 2; VStr "bob"]]
    /\ all_pages_rows [page_one; page_two]
       = [VList [VInt 1; VStr "ann"]; VList [VInt 2; VStr "bob"]; VList [VInt 3; VStr "cy"]]
    /\ df_rows df <> all_pages_rows [page_one; page_two].
Proof.
  eexists. split; [vm_compute; reflexivity|].
  split; [vm_compute; reflexivity|].
  split; [vm_compute; reflexivity|].
  split; [vm_compute; reflexivity|].
  vm_compute. discriminate.
Qed.


(** * The statements at the mocked endpoint *)

(** A new instance authenticates in three clock readings and two requests
    whenever both token endpoints accept. *)
Lemma mock_authentication (m : Mock) :
  s2s_status m = 200 -> cdp_status m = 200 ->
  _authenticate false (mock_env m) new_instance = (Return tt, authenticated).
Proof.
  intros H1 H2. destruct m; cbn in H1, H2; subst. vm_compute. reflexivity.
Qed.

(** Five copies of [{"a": 1}] under a limit of 16 bytes: pairs. *)
Lemma split_group_sizes_witness :
  In [rec_a1; rec_a1] (_split_json_list (repeat rec_a1 5) 16)
  /\ group_size [rec_a1; rec_a1] <= 16.
Proof.
  assert (H : In [rec_a1; rec_a1] (_split_json_list (repeat rec_a1 5) 16))
    by (vm_compute; auto).
  split; [exact H|].
  apply (split_group_sizes (repeat rec_a1 5) 16 [rec_a1; rec_a1] H). simpl. lia.
Defined.

(** An empty record list at the mocked endpoint. *)
Lemma streaming_upsert_empty_witness :
  streaming_upsert "api" "obj" (VDict [("data", VList [])]) false
    (mock_env all_ok) new_instance
  = (Return None, authenticated).
Proof.
  apply (streaming_upsert_empty "api" "obj" [("data", VList [])] false
           (mock_env all_ok) new_instance authenticated "cdp-token").
  - apply mock_authentication; reflexivity.
  - vm_compute. reflexivity.
  - reflexivity.
Defined.

(** Two small records: one POST, accepted by one endpoint and rejected by
    another. *)
Lemma streaming_upsert_posts_witness :
  (exists response,
      fst (streaming_upsert "api" "obj" (VDict [("data", VList [rec_a1; rec_a1])]) false
             (mock_env all_ok) new_instance) = Return (Some response)
      /\ status_code response = 202)
  /\ fst (streaming_upsert "api" "obj" (VDict [("data", VList [rec_a1; rec_a1])]) false
            (mock_env platform_rejects) new_instance)
     = Raise (SalesforceDataCloudError "Streaming UPSERT"
                "https://dc.example.com/api/v1/ingest/sources/api/obj" 500
                (Json.dumps (VDict [("error", VStr "rejected")]))).
Proof.
  split.
  - destruct (streaming_upsert_posts "api" "obj" [("data", VList [rec_a1; rec_a1])] false
                (mock_env all_ok) new_instance authenticated "cdp-token" "dc.example.com"
                [rec_a1; rec_a1])
      as (_ & _ & Htwo).
    + apply mock_authentication; reflexivity.
    + vm_compute. reflexivity.
    + vm_compute. reflexivity.
    + reflexivity.
    + destruct (Htwo rec_a1 rec_a1) as [_ Hrun]; [reflexivity | vm_compute; discriminate |].
      eexists. rewrite Hrun by (vm_compute; reflexivity). split; [reflexivity|].
      vm_compute. reflexivity.
  - destruct (streaming_upsert_posts "api" "obj" [("data", VList [rec_a1; rec_a1])] false
                (mock_env platform_rejects) new_instance authenticated "cdp-token"
                "dc.example.com" [rec_a1; rec_a1])
      as (_ & Hfail & _).
    + apply mock_authentication; reflexivity.
    + vm_compute. reflexivity.
    + vm_compute. reflexivity.
    + reflexivity.
    + rewrite (Hfail [] (reply 500 202 VNone) []).
      * reflexivity.
      * vm_compute. reflexivity.
      * constructor.
      * vm_compute. discriminate.
Defined.



(** Two calls in a row on a new instance send the two exchange requests
    once; a forced third call sends them again. *)
Lemma authenticate_freshness_witness :
  let e := mock_env all_ok in
  let first := _authenticate false e new_instance in
  let second := _authenticate false e (snd first) in
  let forced := _authenticate true e (snd second) in
  fst first = Return tt
  /\ fst second = Return tt
  /\ sent (snd second)
     = [s2s_request "login.salesforce.com" "header.claims.signature";
        cdp_request "https://org.my.salesforce.com" (VStr "core-token")]
  /\ context (snd second) = context (snd first)
  /\ length (sent (snd forced)) = 4%nat.
Proof.
  intros e first second forced.
  destruct (authenticate_freshness e new_instance 0) as [_ Hstale]; [reflexivity|].
  destruct (Hstale false (VStr "PRIVATE KEY") "login.salesforce.com" (VStr "core-token")
              "https://org.my.salesforce.com" (VStr "cdp-token") (VStr "dc.example.com"))
    as (s1 & Hrun1 & Hsent1 & _ & _ & _ & Hagain).
  { vm_compute. reflexivity. }
  { vm_compute. reflexivity. }
  { right. vm_compute. discriminate. }
  { split; [reflexivity|]. eexists. split; [reflexivity|]. split; reflexivity. }
  { split; [reflexivity|]. eexists. split; [reflexivity|]. split; reflexivity. }
  assert (Hs1 : snd first = s1) by (unfold first; rewrite Hrun1; reflexivity).
  assert (Hticks : ticks s1 = 3%nat) by (rewrite <- Hs1; vm_compute; reflexivity).
  destruct Hagain as (s2 & Hrun2 & Hsent2 & Hctx2).
  { rewrite Hticks. vm_compute. reflexivity. }
  assert (Hs2 : snd second = s2) by (unfold second; rewrite Hs1, Hrun2; reflexivity).
  split; [unfold first; rewrite Hrun1; reflexivity|].
  split; [unfold second; rewrite Hs1, Hrun2; reflexivity|].
  split; [rewrite Hs2, Hsent2; reflexivity|].
  split; [rewrite Hs2, Hs1; exact Hctx2|].
  destruct (authenticate_freshness e s2 1700000000001) as [_ Hforce].
  { rewrite Hctx2, <- Hs1. vm_compute. reflexivity. }
  destruct (Hforce true (VStr "PRIVATE KEY") "login.salesforce.com" (VStr "core-token")
              "https://org.my.salesforce.com" (VStr "cdp-token") (VStr "dc.example.com"))
    as (s3 & Hrun3 & Hsent3 & _).
  { rewrite Hctx2, <- Hs1. vm_compute. reflexivity. }
  { rewrite Hctx2, <- Hs1. vm_compute. reflexivity. }
  { left. reflexivity. }
  { split; [reflexivity|]. eexists. split; [reflexivity|]. split; reflexivity. }
  { split; [reflexivity|]. eexists. split; [reflexivity|]. split; reflexivity. }
  unfold forced. rewrite Hs2, Hrun3. cbn [snd]. rewrite Hsent3, Hsent2. reflexivity.
Defined.



(** C7, counterexample: the job endpoint answers the abort PATCH with 500
    and [abort_job] returns that response to its caller. *)
Lemma abort_job_returns_on_500 :
  let run := abort_job (VStr "job-1") (mock_env platform_rejects) authenticated in
  exists response,
    fst run = Return response
    /\ status_code response = 500
    /\ List.map req_method (drop 2 (sent (snd run))) = [PATCH].
Proof. eexists. vm_compute. repeat split. Qed.

(** * More on the batch splitter *)

Lemma split_concat (input : list value) (max_size : Z) :
  concat (_split_json_list input max_size) = input.
Proof. unfold _split_json_list. rewrite concat_finish, seen_loop. reflexivity. Qed.

Lemma split_member (input : list value) (max_size : Z) (g : list value) (r : value) :
  In g (_split_json_list input max_size) -> In r g -> In r input.
Proof.
  intros Hg Hr. rewrite <- (split_concat input max_size).
  apply in_concat. exists g. auto.
Qed.

Lemma head_shape_first (max_size : Z) (first : value) :
  head_shape max_size first (split_step max_size split_init first).
Proof.
  unfold head_shape, split_step, all_groups, split_init. cbn.
  destruct (Z.ltb_spec max_size (0 + item_size first)) as [Hbig|Hfit]; cbn.
  - split; [discriminate|]. exists [], [[first]]. split; [reflexivity|].
    split; [constructor; [discriminate | constructor]|]. split; [lia | reflexivity].
  - split; [discriminate|]. exists [first], []. split; [reflexivity|].
    split; [constructor|]. split; [discriminate | lia].
Qed.

Lemma head_shape_step (max_size : Z) (first : value) (st : SplitState) (item : value) :
  head_shape max_size first st -> head_shape max_size first (split_step max_size st item).
Proof.
  intros (Hcur & g0 & rest & Hall & Hrest & Hhead).
  unfold head_shape, split_step, all_groups in *.
  destruct (max_size <? current_size st + item_size item); cbn.
  - split; [discriminate|]. exists g0, (rest ++ [[item]]).
    rewrite Hall. split; [reflexivity|]. split; [|exact Hhead].
    apply Forall_app. split; [exact Hrest|]. constructor; [discriminate | constructor].
  - split; [destruct (current_list st); discriminate|].
    destruct (result_lists st) as [|g1 closed] eqn:Hres; cbn in *.
    + injection Hall as <- <-. exists (current_list st ++ [item]), [].
      split; [reflexivity|]. split; [constructor|].
      split; [destruct (current_list st); discriminate|].
      intros Hbig. apply Hhead in Hbig. contradiction.
    + injection Hall as <- <-. exists g1, (closed ++ [current_list st ++ [item]]).
      split; [reflexivity|]. split; [|exact Hhead].
      apply Forall_app in Hrest as [Hclosed _]. apply Forall_app. split; [exact Hclosed|].
      constructor; [destruct (current_list st); discriminate | constructor].
Qed.

Lemma head_shape_loop (max_size : Z) (first : value) (input : list value) (st : SplitState) :
  head_shape max_size first st ->
  head_shape max_size first (fold_left (split_step max_size) input st).
Proof.
  revert st. induction input as [|x input IH]; intros st H; cbn; [exact H|].
  apply IH, head_shape_step, H.
Qed.

Lemma split_finish_all_groups (st : SplitState) :
  current_list st <> [] -> split_finish st = all_groups st.
Proof.
  unfold split_finish, all_groups. destruct (current_list st); [congruence | reflexivity].
Qed.

Lemma split_head_shape (first : value) (rest_input : list value) (max_size : Z) :
  exists g0 rest,
    _split_json_list (first :: rest_input) max_size = g0 :: rest
    /\ Forall (fun g => g <> []) rest
    /\ (g0 = [] <-> max_size < item_size first).
Proof.
  unfold _split_json_list. cbn [fold_left]. fold split_init.
  destruct (head_shape_loop max_size first rest_input _ (head_shape_first max_size first))
    as (Hcur & g0 & rest & Hall & Hrest & Hhead).
  rewrite (split_finish_all_groups _ Hcur). eauto.
Qed.

(** X2: of the groups returned, only the first can be empty, and it is
    empty exactly when the first record alone is larger than [max_size];
    an empty input gives no group at all. *)
Theorem split_empty_group_only_first (input_json_list : list value) (max_size : Z) :
  match input_json_list, _split_json_list input_json_list max_size with
  | [], groups => groups = []
  | first :: _, g0 :: rest =>
      Forall (fun g => g <> []) rest /\ (g0 = [] <-> max_size < item_size first)
  | _ :: _, [] => False
  end.
Proof.
  destruct input_json_list as [|first rest_input]; [reflexivity|].
  destruct (split_head_shape first rest_input max_size) as (g0 & rest & -> & Hrest & Hhead).
  auto.
Qed.

(** X1: when no record is larger than [max_size], no group is empty and
    every group is within [max_size]. *)
Theorem split_within_limit (input_json_list : list value) (max_size : Z) (g : list value) :
  (forall r, In r input_json_list -> item_size r <= max_size) ->
  In g (_split_json_list input_json_list max_size) ->
  g <> [] /\ group_size g <= max_size.
Proof.
  intros Hfit Hg. split.
  - destruct input_json_list as [|first rest_input]; [contradiction Hg|].
    destruct (split_head_shape first rest_input max_size) as (g0 & rest & Heq & Hrest & Hhead).
    rewrite Heq in Hg. destruct Hg as [<-|Hg].
    + intros Hempty. apply Hhead in Hempty.
      specialize (Hfit first (or_introl eq_refl)). lia.
    + rewrite Forall_forall in Hrest. apply Hrest. apply list_elem_of_In. exact Hg.
  - destruct (split_groups_ok _ _ _ Hg) as [Hmany _].
    destruct g as [|r [|r' g]].
    + destruct input_json_list as [|first rest_input]; [contradiction Hg|].
      specialize (Hfit first (or_introl eq_refl)). pose proof (item_size_nonneg first).
      cbn. lia.
    + assert (Hin : In r input_json_list)
        by (apply (split_member _ max_size [r] r Hg); left; reflexivity).
      specialize (Hfit r Hin). cbn. lia.
    + apply Hmany. cbn. lia.
Qed.

(** Five copies of [{"a": 1}] under a limit of 16 bytes: a pair. *)
Lemma split_within_limit_witness :
  In [rec_a1; rec_a1] (_split_json_list (repeat rec_a1 5) 16)
  /\ [rec_a1; rec_a1] <> [] /\ group_size [rec_a1; rec_a1] <= 16.
Proof.
  assert (Hg : In [rec_a1; rec_a1] (_split_json_list (repeat rec_a1 5) 16))
    by (vm_compute; auto).
  split; [exact Hg|].
  apply (split_within_limit (repeat rec_a1 5) 16 [rec_a1; rec_a1]); [|exact Hg].
  intros r Hr. apply repeat_spec in Hr. subst r. vm_compute. discriminate.
Defined.


Lemma nonempty_groups_count (groups : list (list value)) :
  Forall (fun g => g <> []) groups -> (length groups <= length (concat groups))%nat.
Proof.
  induction 1 as [|g groups Hg _ IH]; cbn; [lia|].
  rewrite List.length_app. destruct g; [congruence | cbn; lia].
Qed.

(** X5: the number of groups, and so of streaming POSTs, is at most the
    number of records, plus one when the first record alone is larger than
    [max_size]. *)
Theorem split_group_count (input_json_list : list value) (max_size : Z) :
  (length (_split_json_list input_json_list max_size)
   <= length input_json_list
      + match input_json_list with
        | first :: _ => if (max_size <? item_size first)%Z then 1 else 0
        | [] => 0
        end)%nat.
Proof.
  destruct input_json_list as [|first rest_input]; [cbn; lia|].
  pose proof (split_concat (first :: rest_input) max_size) as Hconcat.
  destruct (split_head_shape first rest_input max_size)
    as (g0 & rest & Hsplit & Hrest & Hhead).
  rewrite Hsplit in *. cbn [concat] in Hconcat.
  apply nonempty_groups_count in Hrest.
  rewrite <- Hconcat, List.length_app. cbn [length].
  destruct (Z.ltb_spec max_size (item_size first)) as [Hbig|Hfit].
  - lia.
  - destruct g0 as [|r g0]; [apply proj1 in Hhead; specialize (Hhead eq_refl); lia|].
    cbn [length]. lia.
Qed.


Lemma greedy_closed (max_size : Z) (groups : list (list value)) (g : list value) (y : value) :
  greedy max_size (groups ++ [g]) ->
  max_size < group_size g + item_size y ->
  greedy max_size ((groups ++ [g]) ++ [[y]]).
Proof.
  intros Hgreedy Hover. induction groups as [|g1 groups IH]; cbn in *.
  - auto.
  - destruct (groups ++ [g]) as [|h rest] eqn:Heq; [destruct groups; discriminate|].
    cbn in *. destruct Hgreedy as [Hhead Hrest]. split; [exact Hhead|]. apply IH, Hrest.
Qed.

Lemma greedy_grown (max_size : Z) (groups : list (list value)) (g : list value) (y : value) :
  greedy max_size (groups ++ [g]) ->
  g <> [] \/ groups = [] ->
  greedy max_size (groups ++ [g ++ [y]]).
Proof.
  intros Hgreedy Hcase. induction groups as [|g1 groups IH]; cbn in *; [exact I|].
  destruct Hcase as [Hg|Hnil]; [|discriminate].
  destruct groups as [|g2 groups]; cbn in *.
  - destruct g as [|x g]; [congruence|]. cbn. exact Hgreedy.
  - destruct Hgreedy as [Hhead Hrest]. split; [exact Hhead|]. apply IH; auto.
Qed.

Lemma greedy_step (max_size : Z) (st : SplitState) (item : value) :
  current_size st = group_size (current_list st) ->
  current_list st <> [] \/ result_lists st = [] ->
  greedy max_size (all_groups st) ->
  greedy max_size (all_groups (split_step max_size st item)).
Proof.
  intros Hsize Hcase Hgreedy. unfold all_groups, split_step in *.
  destruct (Z.ltb_spec max_size (current_size st + item_size item)) as [Hover|Hfit]; cbn.
  - apply greedy_closed; [exact Hgreedy | lia].
  - apply greedy_grown; assumption.
Qed.

Lemma step_keeps_current (max_size : Z) (st : SplitState) (item : value) :
  current_list (split_step max_size st item) <> [].
Proof.
  unfold split_step. destruct (max_size <? current_size st + item_size item); cbn;
    [discriminate | destruct (current_list st); discriminate].
Qed.

Lemma greedy_loop (max_size : Z) (input : list value) (st : SplitState) :
  split_inv max_size st ->
  current_list st <> [] \/ result_lists st = [] ->
  greedy max_size (all_groups st) ->
  greedy max_size (all_groups (fold_left (split_step max_size) input st)).
Proof.
  revert st. induction input as [|x input IH]; intros st Hinv Hcase Hgreedy; cbn;
    [exact Hgreedy|].
  apply IH.
  - apply split_inv_step, Hinv.
  - left. apply step_keeps_current.
  - apply greedy_step; [apply (inv_size _ _ Hinv) | exact Hcase | exact Hgreedy].
Qed.

Lemma greedy_split (first : value) (rest_input : list value) (max_size : Z) :
  greedy max_size (_split_json_list (first :: rest_input) max_size).
Proof.
  unfold _split_json_list. cbn [fold_left]. fold split_init.
  rewrite split_finish_all_groups.
  - apply greedy_loop.
    + apply split_inv_step, split_inv_init.
    + left. apply step_keeps_current.
    + apply greedy_step; [reflexivity | right; reflexivity | exact I].
  - destruct (head_shape_loop max_size first rest_input _ (head_shape_first max_size first))
      as [Hcur _].
    exact Hcur.
Qed.

Lemma greedy_adjacent (max_size : Z) (before : list (list value)) :
  forall groups g y h after,
    greedy max_size groups ->
    groups = before ++ g :: (y :: h) :: after ->
    max_size < group_size g + item_size y.
Proof.
  induction before as [|b before IH]; intros groups g y h after Hgreedy ->; cbn in Hgreedy.
  - tauto.
  - destruct (before ++ g :: (y :: h) :: after) as [|x rest] eqn:Heq;
      [destruct before; discriminate|].
    destruct Hgreedy as [_ Hrest]. apply (IH _ g y h after Hrest (eq_sym Heq)).
Qed.

(** X3: the split is greedy.  Wherever a group is followed by another, the
    first record of the following group did not fit in it: the group's
    total plus that record's size exceeds [max_size]. *)
Theorem split_is_greedy (input_json_list : list value) (max_size : Z)
        (before : list (list value)) (g : list value) (y : value) (h : list value)
        (after : list (list value)) :
  _split_json_list input_json_list max_size = before ++ g :: (y :: h) :: after ->
  max_size < group_size g + item_size y.
Proof.
  intros Heq. destruct input_json_list as [|first rest_input].
  - destruct before; discriminate Heq.
  - apply (greedy_adjacent max_size before _ g y h after (greedy_split first rest_input max_size)
             Heq).
Qed.

(** Five copies of [{"a": 1}] under a limit of 16 bytes: a third record
    does not fit after two. *)
Lemma split_is_greedy_witness :
  _split_json_list (repeat rec_a1 5) 16
  = [] ++ [rec_a1; rec_a1] :: [rec_a1; rec_a1] :: [[rec_a1]]
  /\ 16 < group_size [rec_a1; rec_a1] + item_size rec_a1.
Proof.
  assert (H : _split_json_list (repeat rec_a1 5) 16
              = [] ++ [rec_a1; rec_a1] :: [rec_a1; rec_a1] :: [[rec_a1]])
    by (vm_compute; reflexivity).
  split; [exact H|].
  apply (split_is_greedy (repeat rec_a1 5) 16 [] [rec_a1; rec_a1] rec_a1 [rec_a1] [[rec_a1]] H).
Defined.

Lemma split_fitting_loop (max_size : Z) (input : list value) : forall st,
  result_lists st = [] ->
  current_size st = group_size (current_list st) ->
  group_size (current_list st) + group_size input <= max_size ->
  fold_left (split_step max_size) input st
  = {| result_lists := []; current_list := current_list st ++ input;
       current_size := group_size (current_list st ++ input) |}.
Proof.
  induction input as [|x input IH]; intros st Hres Hsize Hfit; cbn [fold_left].
  - rewrite app_nil_r. destruct st; cbn in *; subst. reflexivity.
  - cbn in Hfit. pose proof (group_size_nonneg input). pose proof (item_size_nonneg x).
    assert (Hstep : split_step max_size st x
                    = {| result_lists := []; current_list := current_list st ++ [x];
                         current_size := group_size (current_list st ++ [x]) |}).
    { unfold split_step.
      destruct (Z.ltb_spec max_size (current_size st + item_size x)); [lia|].
      rewrite Hres, Hsize, group_size_app. cbn. f_equal. lia. }
    rewrite Hstep, IH; cbn.
    + rewrite <- app_assoc. reflexivity.
    + reflexivity.
    + reflexivity.
    + rewrite group_size_app. cbn. lia.
Qed.

(** X4: records that fit the limit together are sent as one group: a
    non-empty input whose sizes add up to at most [max_size] comes back as
    the single group holding all of it. *)
Theorem split_one_group (input_json_list : list value) (max_size : Z) :
  input_json_list <> [] ->
  group_size input_json_list <= max_size ->
  _split_json_list input_json_list max_size = [input_json_list].
Proof.
  intros Hne Hfit. unfold _split_json_list. fold split_init.
  rewrite (split_fitting_loop max_size input_json_list split_init); cbn; auto.
  unfold split_finish. cbn. destruct input_json_list; [congruence | reflexivity].
Qed.

(** Three records of 8 bytes under a limit of 24. *)
Lemma split_one_group_witness :
  _split_json_list [rec_a1; rec_a1; rec_a1] 24 = [[rec_a1; rec_a1; rec_a1]].
Proof.
  apply (split_one_group [rec_a1; rec_a1; rec_a1] 24); [discriminate|].
  vm_compute. discriminate.
Defined.


(** * The freshness window *)

Lemma token_age_window (now refresh_time : Z) :
  token_age now refresh_time < 115 <-> now - refresh_time <= 6870000.
Proof.
  unfold token_age, py_round_div.
  pose proof (Z.div_mod (now - refresh_time) 60000 ltac:(lia)) as Hdm.
  pose proof (Z.mod_pos_bound (now - refresh_time) 60000 ltac:(lia)) as Hr.
  set (q := (now - refresh_time) / 60000) in *.
  set (r := (now - refresh_time) mod 60000) in *.
  destruct (Z.ltb_spec (2 * r) 60000); [lia|].
  destruct (Z.ltb_spec 60000 (2 * r)); [lia|].
  destruct (Z.even q) eqn:Hev; [lia|].
  assert (q <> 114) by (intros ->; discriminate Hev). lia.
Qed.

(** X6: the token is taken as fresh up to and including 6,870,000 ms
    (114.5 minutes, which [round] takes down to 114) after the stored
    refresh time: inside that window an unforced [_authenticate] reads the
    clock and does nothing else; one millisecond later it runs the refresh
    branch. *)
Theorem freshness_window e s T :
  context s !! "dne_cdpTokenRefreshTime" = Some (VInt T) ->
  (clock e (ticks s) - T <= 6870000 ->
   _authenticate false e s = (Return tt, set_ticks (S (ticks s)) s))
  /\ (6870000 < clock e (ticks s) - T ->
      _authenticate false e s = refresh_token e (set_ticks (S (ticks s)) s)).
Proof.
  intros Htime. split; intros Hel.
  - apply (authenticate_fresh e s T Htime). apply token_age_window. exact Hel.
  - apply (authenticate_refreshes false e s T Htime). right.
    destruct (Z.lt_ge_cases (token_age (clock e (ticks s)) T) 115) as [Hlt|Hge]; [|lia].
    apply token_age_window in Hlt. lia.
Qed.

(** A second call right after the exchange, at the mocked endpoint. *)
Lemma freshness_window_witness :
  _authenticate false (mock_env all_ok) authenticated
  = (Return tt, set_ticks 4 authenticated).
Proof.
  destruct (freshness_window (mock_env all_ok) authenticated 1700000000001) as [Hfresh _].
  - vm_compute. reflexivity.
  - apply Hfresh. vm_compute. discriminate.
Defined.

(** * Edge behaviour of the operations *)

Lemma bearer_headers_missing ct e s :
  context s !! "dne_cdpOffcoreToken" = None ->
  bearer_headers ct e s = (Raise (KeyError "dne_cdpOffcoreToken"), s).
Proof.
  intros H. unfold bearer_headers.
  rewrite (bind_Raise _ _ _ _ _ _ (ctx_get_None _ e s H)). reflexivity.
Qed.

Section MissingToken.
Variables (e : Env) (s : State) (T : Z).
Hypothesis Htime : context s !! "dne_cdpTokenRefreshTime" = Some (VInt T).
Hypothesis Hfresh : token_age (clock e (ticks s)) T < 115.
Hypothesis Htoken : context s !! "dne_cdpOffcoreToken" = None.

Let s1 := set_ticks (S (ticks s)) s.
Let failed {A} : outcome A * State := (Raise (KeyError "dne_cdpOffcoreToken"), s1).

Lemma headers_after_fresh_auth {A} (k : list (string * string) -> M A) ct :
  bind (_authenticate false) (fun _ => bind (bearer_headers ct) k) e s = failed.
Proof.
  rewrite (bind_Return _ _ _ _ _ _ (authenticate_fresh e s T Htime Hfresh)).
  rewrite (bind_Raise _ _ _ _ _ _ (bearer_headers_missing ct e s1 Htoken)).
  reflexivity.
Qed.

Lemma streaming_upsert_no_token api obj data test_mode :
  streaming_upsert api obj data test_mode e s = failed.
Proof. apply headers_after_fresh_auth. Qed.

Lemma close_job_no_token job_id state : _close_job job_id state e s = failed.
Proof. apply headers_after_fresh_auth. Qed.

Lemma list_jobs_no_token limit offset orderby state :
  list_jobs limit offset orderby state e s = failed.
Proof. apply headers_after_fresh_auth. Qed.

Lemma job_info_no_token job_id : job_info job_id e s = failed.
Proof. apply headers_after_fresh_auth. Qed.

Lemma query_no_token fuel query_str : query fuel query_str e s = failed.
Proof. apply headers_after_fresh_auth. Qed.

Lemma bulk_operation_no_token api obj files op :
  _bulk_operation api obj files op e s = failed.
Proof.
  unfold _bulk_operation.
  rewrite (bind_Return _ _ _ _ _ _ (authenticate_fresh e s T Htime Hfresh)).
  erewrite bind_Raise; [reflexivity|]. unfold _create_job.
  rewrite (bind_Raise _ _ _ _ _ _ (bearer_headers_missing _ e s1 Htoken)). reflexivity.
Qed.

End MissingToken.

(** X7: a context whose refresh time is fresh but which holds no platform
    token (the state a failed exchange leaves) makes every operation raise
    [KeyError('dne_cdpOffcoreToken')] without sending a request; the bulk
    operations stop before a job is created. *)
Theorem operations_without_token e s T :
  context s !! "dne_cdpTokenRefreshTime" = Some (VInt T) ->
  token_age (clock e (ticks s)) T < 115 ->
  context s !! "dne_cdpOffcoreToken" = None ->
  let failed {A} : outcome A * State :=
    (Raise (KeyError "dne_cdpOffcoreToken"), set_ticks (S (ticks s)) s) in
  (forall api obj data test_mode, streaming_upsert api obj data test_mode e s = failed)
  /\ (forall api obj files, bulk_upsert api obj files e s = failed)
  /\ (forall api obj files, bulk_delete api obj files e s = failed)
  /\ (forall limit offset orderby state, list_jobs limit offset orderby state e s = failed)
  /\ (forall job_id, job_info job_id e s = failed)
  /\ (forall job_id, abort_job job_id e s = failed)
  /\ (forall fuel query_str, query fuel query_str e s = failed).
Proof.
  intros Htime Hfresh Htoken failed.
  split; [intros; apply (streaming_upsert_no_token e s T Htime Hfresh Htoken)|].
  split.
  { intros. rewrite bulk_upsert_run,
      (bulk_operation_no_token e s T Htime Hfresh Htoken). reflexivity. }
  split.
  { intros. rewrite bulk_delete_run,
      (bulk_operation_no_token e s T Htime Hfresh Htoken). reflexivity. }
  split; [intros; apply (list_jobs_no_token e s T Htime Hfresh Htoken)|].
  split; [intros; apply (job_info_no_token e s T Htime Hfresh Htoken)|].
  split; [intros job_id;
          exact (close_job_no_token e s T Htime Hfresh Htoken job_id "Aborted")|].
  intros; apply (query_no_token e s T Htime Hfresh Htoken).
Qed.

(** After the login endpoint turned the exchange down, the next operation
    inside the window fails on the missing key. *)
Lemma operations_without_token_witness :
  let e := mock_env login_rejects in
  let s := snd (_authenticate false e new_instance) in
  fst (query 5 "SELECT 1" e s) = Raise (KeyError "dne_cdpOffcoreToken")
  /\ sent (snd (query 5 "SELECT 1" e s)) = sent s.
Proof.
  intros e s.
  destruct (operations_without_token e s 1700000000001) as (_ & _ & _ & _ & _ & _ & Hq).
  - vm_compute. reflexivity.
  - vm_compute. reflexivity.
  - vm_compute. reflexivity.
  - rewrite (Hq 5%nat "SELECT 1"). split; reflexivity.
Defined.

(** X8: [list_jobs] and [job_info] log [response.json()], so a response
    whose body is not JSON makes them raise the decoding error after the
    GET was sent, whatever the status code. *)
Theorem listing_needs_json_body e s s1 tok host :
  _authenticate false e s = (Return tt, s1) ->
  context s1 !! "dne_cdpOffcoreToken" = Some (VStr tok) ->
  context s1 !! "dne_cdpOffcoreUrl" = Some (VStr host) ->
  (forall limit offset orderby state,
      let req := list_request host tok limit offset orderby state in
      json_of (server e (sent s1) req) = None ->
      list_jobs limit offset orderby state e s
      = (Raise JSONDecodeError, set_sent (sent s1 ++ [req]) s1))
  /\ (forall job_id,
        let req := info_request host tok (py_str e job_id) in
        json_of (server e (sent s1) req) = None ->
        job_info job_id e s
        = (Raise JSONDecodeError, set_sent (sent s1 ++ [req]) s1)).
Proof.
  intros Hauth Htok Hhost. split.
  - intros limit offset orderby state req Hjson. unfold list_jobs.
    rewrite (bind_Return _ _ _ _ _ _ Hauth). do 3 mstep.
    fold (json_headers tok). fold (list_request host tok limit offset orderby state).
    fold req. unfold bind, resp_json. rewrite Hjson. reflexivity.
  - intros job_id req Hjson. unfold job_info.
    rewrite (bind_Return _ _ _ _ _ _ Hauth). do 5 mstep.
    fold (json_headers tok). fold (info_request host tok (py_str e job_id)).
    fold req. unfold bind, resp_json. rewrite Hjson. reflexivity.
Qed.


Lemma getitem_missing items key e s :
  assoc key items = None -> getitem (VDict items) key e s = (Raise (KeyError key), s).
Proof. intros H. unfold getitem. rewrite H. reflexivity. Qed.

Section CreateJob.
Variables (e : Env) (s : State) (tok host api obj op : string).
Hypothesis Htok : context s !! "dne_cdpOffcoreToken" = Some (VStr tok).
Hypothesis Hhost : context s !! "dne_cdpOffcoreUrl" = Some (VStr host).

Let req := create_request host tok api obj op.
Let response := server e (sent s) req.
Hypothesis Hcreated : status_code response = 201.

Lemma create_job_created :
  _create_job api obj op e s
  = (let* response_dict := resp_json response in getitem response_dict "id")
      e (set_sent (sent s ++ [req]) s).
Proof.
  unfold _create_job. do 3 mstep.
  fold (json_headers tok). fold (create_request host tok api obj op). fold req response.
  rewrite (status_eqb_ok _ _ Hcreated). reflexivity.
Qed.

Lemma create_job_returns_id items id :
  json_of response = Some (VDict items) -> assoc "id" items = Some id ->
  _create_job api obj op e s = (Return id, set_sent (sent s ++ [req]) s).
Proof.
  intros Hjson Hid. rewrite create_job_created. unfold resp_json. rewrite Hjson.
  mstep. apply getitem_Some, Hid.
Qed.

Lemma create_job_no_json :
  json_of response = None ->
  _create_job api obj op e s = (Raise JSONDecodeError, set_sent (sent s ++ [req]) s).
Proof.
  intros Hjson. rewrite create_job_created. unfold bind, resp_json. rewrite Hjson.
  reflexivity.
Qed.

Lemma create_job_no_id items :
  json_of response = Some (VDict items) -> assoc "id" items = None ->
  _create_job api obj op e s = (Raise (KeyError "id"), set_sent (sent s ++ [req]) s).
Proof.
  intros Hjson Hid. rewrite create_job_created. unfold resp_json. rewrite Hjson.
  mstep. apply getitem_missing, Hid.
Qed.

End CreateJob.

(** X9: job creation answered 201.  The job id is the [id] field of the
    JSON body.  When the body is not JSON, or has no [id], the bulk
    operation raises (the decoding error, or [KeyError('id')]) right after
    the create POST: nothing is uploaded and neither a close nor an abort is
    sent for the job the server has just created. *)
Theorem created_job_id e s s1 tok host api obj op files :
  _authenticate false e s = (Return tt, s1) ->
  context s1 !! "dne_cdpOffcoreToken" = Some (VStr tok) ->
  context s1 !! "dne_cdpOffcoreUrl" = Some (VStr host) ->
  let req := create_request host tok api obj op in
  let response := server e (sent s1) req in
  status_code response = 201 ->
  (forall items id,
      json_of response = Some (VDict items) -> assoc "id" items = Some id ->
      _create_job api obj op e s1 = (Return id, set_sent (sent s1 ++ [req]) s1))
  /\ (json_of response = None ->
      _bulk_operation api obj files op e s
      = (Raise JSONDecodeError, set_sent (sent s1 ++ [req]) s1))
  /\ (forall items,
        json_of response = Some (VDict items) -> assoc "id" items = None ->
        _bulk_operation api obj files op e s
        = (Raise (KeyError "id"), set_sent (sent s1 ++ [req]) s1)).
Proof.
  intros Hauth Htok Hhost req response Hcreated. split; [|split].
  - intros items id Hjson Hid.
    apply (create_job_returns_id e s1 tok host api obj op Htok Hhost Hcreated items id
             Hjson Hid).
  - intros Hjson. unfold _bulk_operation.
    rewrite (bind_Return _ _ _ _ _ _ Hauth).
    rewrite (bind_Raise _ _ _ _ _ _
               (create_job_no_json e s1 tok host api obj op Htok Hhost Hcreated Hjson)).
    reflexivity.
  - intros items Hjson Hid. unfold _bulk_operation.
    rewrite (bind_Return _ _ _ _ _ _ Hauth).
    rewrite (bind_Raise _ _ _ _ _ _
               (create_job_no_id e s1 tok host api obj op Htok Hhost Hcreated items
                  Hjson Hid)).
    reflexivity.
Qed.

(** The mocked endpoint, and one that answers the create POST with an
    empty object. *)
Lemma created_job_id_witness :
  _create_job "api" "obj" "upsert" (mock_env all_ok) authenticated
  = (Return (VStr "job-1"),
     set_sent (sent authenticated
               ++ [create_request "dc.example.com" "cdp-token" "api" "obj" "upsert"])
       authenticated)
  /\ fst (_bulk_operation "api" "obj" ["a.csv"] "upsert"
            (mock_env_with created_without_id all_ok) new_instance)
     = Raise (KeyError "id").
Proof.
  split.
  - destruct (created_job_id (mock_env all_ok) new_instance authenticated
                "cdp-token" "dc.example.com" "api" "obj" "upsert" [])
      as (Hid & _).
    + apply mock_authentication; reflexivity.
    + vm_compute. reflexivity.
    + vm_compute. reflexivity.
    + vm_compute. reflexivity.
    + apply (Hid [("id", VStr "job-1")] (VStr "job-1")); vm_compute; reflexivity.
  - destruct (created_job_id (mock_env_with created_without_id all_ok) new_instance
                authenticated "cdp-token" "dc.example.com" "api" "obj" "upsert" ["a.csv"])
      as (_ & _ & Hnoid).
    + vm_compute. reflexivity.
    + vm_compute. reflexivity.
    + vm_compute. reflexivity.
    + vm_compute. reflexivity.
    + rewrite (Hnoid []); [reflexivity | vm_compute; reflexivity | reflexivity].
Defined.

(** An endpoint that answers every GET with a gateway page. *)
Lemma listing_needs_json_body_witness :
  let e := mock_env_with gets_fail all_ok in
  fst (list_jobs 50 0 EmptyString "Open" e new_instance) = Raise JSONDecodeError
  /\ fst (job_info (VStr "job-1") e new_instance) = Raise JSONDecodeError
  /\ length (sent (snd (job_info (VStr "job-1") e new_instance))) = 3%nat.
Proof.
  intros e.
  destruct (listing_needs_json_body e new_instance authenticated "cdp-token" "dc.example.com")
    as [Hlist Hinfo].
  - vm_compute. reflexivity.
  - vm_compute. reflexivity.
  - vm_compute. reflexivity.
  - rewrite Hlist by (vm_compute; reflexivity).
    rewrite Hinfo by (vm_compute; reflexivity).
    split; [reflexivity|]. split; [reflexivity|]. vm_compute. reflexivity.
Defined.

(** X10: what [streaming_upsert] does with an argument of the wrong shape,
    once authenticated: a dict without the key [data] raises
    [KeyError('data')]; an argument that is not a dict, or a [data] entry
    that cannot be iterated ([None], a number, a boolean), raises
    [TypeError]; in each case nothing is posted. *)
Theorem streaming_upsert_bad_input e s s1 tok api obj test_mode :
  _authenticate false e s = (Return tt, s1) ->
  context s1 !! "dne_cdpOffcoreToken" = Some (VStr tok) ->
  (forall items,
      assoc "data" items = None ->
      streaming_upsert api obj (VDict items) test_mode e s = (Raise (KeyError "data"), s1))
  /\ (forall data,
        (forall items, data <> VDict items) ->
        streaming_upsert api obj data test_mode e s = (Raise TypeError, s1))
  /\ (forall items records,
        assoc "data" items = Some records ->
        (records = VNone \/ (exists b, records = VBool b) \/ (exists z, records = VInt z)) ->
        streaming_upsert api obj (VDict items) test_mode e s = (Raise TypeError, s1)).
Proof.
  intros Hauth Htok.
  split; [|split].
  - intros items Hmiss. unfold streaming_upsert.
    rewrite (bind_Return _ _ _ _ _ _ Hauth).
    rewrite (bind_Return _ _ _ _ _ _ (bearer_headers_Some _ _ e s1 Htok)).
    rewrite (bind_Raise _ _ _ _ _ _ (getitem_missing _ _ e s1 Hmiss)). reflexivity.
  - intros data Hshape. unfold streaming_upsert.
    rewrite (bind_Return _ _ _ _ _ _ Hauth).
    rewrite (bind_Return _ _ _ _ _ _ (bearer_headers_Some _ _ e s1 Htok)).
    destruct data; try reflexivity. destruct (Hshape items eq_refl).
  - intros items records Hdata Hshape. unfold streaming_upsert.
    rewrite (bind_Return _ _ _ _ _ _ Hauth).
    rewrite (bind_Return _ _ _ _ _ _ (bearer_headers_Some _ _ e s1 Htok)).
    rewrite (bind_Return _ _ _ _ _ _ (getitem_Some _ _ _ e s1 Hdata)).
    destruct Hshape as [->|[[b ->]|[z ->]]]; reflexivity.
Qed.

(** A dict with another key, and a bare list of records. *)
Lemma streaming_upsert_bad_input_witness :
  streaming_upsert "api" "obj" (VDict [("rows", VList [rec_a1])]) false
    (mock_env all_ok) new_instance
  = (Raise (KeyError "data"), authenticated)
  /\ streaming_upsert "api" "obj" (VList [rec_a1]) false (mock_env all_ok) new_instance
     = (Raise TypeError, authenticated).
Proof.
  destruct (streaming_upsert_bad_input (mock_env all_ok) new_instance authenticated
              "cdp-token" "api" "obj" false) as (Hkey & Htype & _).
  - apply mock_authentication; reflexivity.
  - vm_compute. reflexivity.
  - split.
    + apply Hkey. reflexivity.
    + apply Htype. intros items. discriminate.
Defined.


(** * Query: following the pages *)

Lemma append_frame_run df other e s :
  append_error e df other = None ->
  append_frame df other e s = (Return (df_append df other), s).
Proof. intros H. unfold append_frame. rewrite H. reflexivity. Qed.

(** On a page that says [done] the loop returns the frame it holds. *)
Lemma query_loop_done fuel headers output_metadata page done df e s :
  assoc "done" page = Some done -> truthy done = true ->
  query_loop fuel headers output_metadata (VDict page) df e s = (Return df, s).
Proof.
  intros Hdone Htrue. destruct fuel; cbn [query_loop]; mstep; rewrite Htrue; reflexivity.
Qed.

(** A next-page GET answered with a status other than 200. *)
Lemma query_loop_rejected fuel host tok output_metadata page done next df e s :
  context s !! "dne_cdpOffcoreUrl" = Some (VStr host) ->
  assoc "done" page = Some done -> truthy done = false ->
  assoc "nextBatchId" page = Some next ->
  let req := page_request host tok (py_str e next) in
  let response := server e (sent s) req in
  status_code response <> 200 ->
  query_loop (S fuel) (json_headers tok) output_metadata (VDict page) df e s
  = (Raise (SalesforceDataCloudError "Query" (req_url req)
              (status_code response) (text response)),
     set_sent (sent s ++ [req]) s).
Proof.
  intros Hhost Hdone Hfalse Hnext req response Hbad.
  cbn [query_loop]. mstep. rewrite Hfalse. cbv iota. do 5 mstep.
  fold (page_request host tok (py_str e next)). fold req response.
  rewrite (status_eqb_bad _ _ Hbad). reflexivity.
Qed.

(** The rounds of the loop over accepted pages. *)
Lemma query_loop_run e host tok metadata df (nexts : list value) :
  forall fuel page last s,
    context s !! "dne_cdpOffcoreUrl" = Some (VStr host) ->
    page_run e host tok (List.map fst metadata) df (sent s) page nexts last ->
    query_loop (length nexts + fuel) (json_headers tok) (VDict metadata) (VDict page) df e s
    = query_loop fuel (json_headers tok) (VDict metadata) (VDict last) df e
        (set_sent (sent s ++ List.map (fun next => page_request host tok (py_str e next)) nexts)
           s).
Proof.
  induction nexts as [|next more IH]; intros fuel page last s Hhost Hrun.
  - cbn in Hrun. subst last. cbn. rewrite app_nil_r, set_sent_same. reflexivity.
  - destruct Hrun as ((done & Hdone & Hfalse) & Hnext & Hok & items & data & Hjson
                      & Hdata & Hframe & Happend & Hmore).
    change (length (next :: more) + fuel)%nat with (S (length more + fuel)).
    cbn [query_loop]. mstep. rewrite Hfalse. cbv iota. do 5 mstep.
    fold (page_request host tok (py_str e next)).
    rewrite (status_eqb_ok _ _ Hok). cbv iota.
    unfold resp_json at 1. rewrite Hjson. mstep.
    rewrite (bind_Return _ _ _ _ _ _ (frame_of_run _ _ _ _ _ Hdata Hframe)).
    rewrite (bind_Return _ _ _ _ _ _ (append_frame_run _ _ _ _ Happend)).
    rewrite (IH fuel items last); [| exact Hhost | exact Hmore].
    cbn [sent set_sent List.map]. rewrite set_sent_twice, <- app_assoc. reflexivity.
Qed.

(** [query] up to its loop, on an accepted first page. *)
Lemma query_enters_loop fuel query_str e s s1 tok host page metadata data :
  _authenticate false e s = (Return tt, s1) ->
  context s1 !! "dne_cdpOffcoreToken" = Some (VStr tok) ->
  context s1 !! "dne_cdpOffcoreUrl" = Some (VStr host) ->
  let req := query_request host tok query_str in
  let response := server e (sent s1) req in
  status_code response = 200 ->
  json_of response = Some (VDict page) ->
  assoc "metadata" page = Some (VDict metadata) ->
  assoc "data" page = Some data ->
  frame_error e data (List.map fst metadata) = None ->
  query fuel query_str e s
  = query_loop fuel (json_headers tok) (VDict metadata) (VDict page)
      {| df_data := data; df_columns := List.map fst metadata |} e
      (set_sent (sent s1 ++ [req]) s1).
Proof.
  intros Hauth Htok Hhost req response Hok Hjson Hmeta Hdata Hframe.
  unfold query. rewrite (bind_Return _ _ _ _ _ _ Hauth). do 3 mstep.
  fold (json_headers tok). fold (query_request host tok query_str). fold req response.
  rewrite (status_eqb_ok _ _ Hok). cbv iota.
  unfold resp_json at 1. rewrite Hjson. do 2 mstep.
  rewrite (bind_Return _ _ _ _ _ _ (frame_of_run _ _ _ _ _ Hdata Hframe)).
  reflexivity.
Qed.

Lemma frame_of_fails items metadata data x e s :
  assoc "data" items = Some data ->
  frame_error e data (List.map fst metadata) = Some x ->
  frame_of (VDict items) (VDict metadata) e s = (Raise x, s).
Proof.
  intros Hdata Hframe. unfold frame_of. do 2 mstep. unfold new_frame.
  rewrite Hframe. reflexivity.
Qed.

(** [query] on a first page that pandas turns down. *)
Lemma query_first_frame_fails fuel query_str e s s1 tok host page metadata data x :
  _authenticate false e s = (Return tt, s1) ->
  context s1 !! "dne_cdpOffcoreToken" = Some (VStr tok) ->
  context s1 !! "dne_cdpOffcoreUrl" = Some (VStr host) ->
  let req := query_request host tok query_str in
  let response := server e (sent s1) req in
  status_code response = 200 ->
  json_of response = Some (VDict page) ->
  assoc "metadata" page = Some (VDict metadata) ->
  assoc "data" page = Some data ->
  frame_error e data (List.map fst metadata) = Some x ->
  query fuel query_str e s = (Raise x, set_sent (sent s1 ++ [req]) s1).
Proof.
  intros Hauth Htok Hhost req response Hok Hjson Hmeta Hdata Hframe.
  unfold query. rewrite (bind_Return _ _ _ _ _ _ Hauth). do 3 mstep.
  fold (json_headers tok). fold (query_request host tok query_str). fold req response.
  rewrite (status_eqb_ok _ _ Hok). cbv iota.
  unfold resp_json at 1. rewrite Hjson. do 2 mstep.
  rewrite (bind_Raise _ _ _ _ _ _ (frame_of_fails _ _ _ _ _ _ Hdata Hframe)).
  reflexivity.
Qed.

(** A round of the loop in which pandas raises, on the new page's frame
    or on the append. *)
Lemma query_loop_pandas_fails fuel host tok metadata page done next items data df x e s :
  context s !! "dne_cdpOffcoreUrl" = Some (VStr host) ->
  assoc "done" page = Some done -> truthy done = false ->
  assoc "nextBatchId" page = Some next ->
  let req := page_request host tok (py_str e next) in
  let response := server e (sent s) req in
  status_code response = 200 ->
  json_of response = Some (VDict items) ->
  assoc "data" items = Some data ->
  let columns := List.map fst metadata in
  frame_error e data columns = Some x
  \/ (frame_error e data columns = None
      /\ append_error e df {| df_data := data; df_columns := columns |} = Some x) ->
  query_loop (S fuel) (json_headers tok) (VDict metadata) (VDict page) df e s
  = (Raise x, set_sent (sent s ++ [req]) s).
Proof.
  intros Hhost Hdone Hfalse Hnext req response Hok Hjson Hdata columns Hfails.
  cbn [query_loop]. mstep. rewrite Hfalse. cbv iota. do 5 mstep.
  fold (page_request host tok (py_str e next)). fold req response.
  rewrite (status_eqb_ok _ _ Hok). cbv iota.
  unfold resp_json at 1. rewrite Hjson. mstep.
  destruct Hfails as [Hframe | [Hframe Happend]].
  - rewrite (bind_Raise _ _ _ _ _ _ (frame_of_fails _ _ _ _ _ _ Hdata Hframe)).
    reflexivity.
  - rewrite (bind_Return _ _ _ _ _ _ (frame_of_run _ _ _ _ _ Hdata Hframe)).
    unfold bind, append_frame. fold columns. rewrite Happend. reflexivity.
Qed.

(** X11: [query] follows the chain of pages to its end.  After a first
    response of status 200 with [metadata] and [data]: when pandas turns
    the first page's [data] down, [query] raises pandas' exception right
    after the POST.  Otherwise, when every further page of the chain is
    answered 200 with [data] that pandas lays out under the metadata keys
    and appends without raising, and the fuel covers the chain, [query]
    sends the POST and one GET per announced batch id, in order, and
    returns the frame built from the first page's [data] and the metadata
    keys.  And when, after some such pages, pandas raises on the next
    page's frame or on the append (as it does from pandas 2.0 on, where
    [append] is gone), [query] raises that exception right after the GET
    of that page. *)
Theorem query_follows_pages fuel query_str e s s1 tok host page metadata data :
  _authenticate false e s = (Return tt, s1) ->
  context s1 !! "dne_cdpOffcoreToken" = Some (VStr tok) ->
  context s1 !! "dne_cdpOffcoreUrl" = Some (VStr host) ->
  let req := query_request host tok query_str in
  let response := server e (sent s1) req in
  status_code response = 200 ->
  json_of response = Some (VDict page) ->
  assoc "metadata" page = Some (VDict metadata) ->
  assoc "data" page = Some data ->
  let columns := List.map fst metadata in
  let df := {| df_data := data; df_columns := columns |} in
  let gets := List.map (fun next => page_request host tok (py_str e next)) in
  (forall x,
      frame_error e data columns = Some x ->
      query fuel query_str e s = (Raise x, set_sent (sent s1 ++ [req]) s1))
  /\ (forall nexts,
        frame_error e data columns = None ->
        page_chain e host tok columns df (sent s1 ++ [req]) page nexts ->
        (length nexts <= fuel)%nat ->
        query fuel query_str e s
        = (Return df, set_sent (sent s1 ++ req :: gets nexts) s1))
  /\ (forall nexts last done next items data2 x,
        frame_error e data columns = None ->
        page_run e host tok columns df (sent s1 ++ [req]) page nexts last ->
        assoc "done" last = Some done ->
        truthy done = false ->
        assoc "nextBatchId" last = Some next ->
        (length nexts < fuel)%nat ->
        let req2 := page_request host tok (py_str e next) in
        let response2 := server e (sent s1 ++ req :: gets nexts) req2 in
        status_code response2 = 200 ->
        json_of response2 = Some (VDict items) ->
        assoc "data" items = Some data2 ->
        frame_error e data2 columns = Some x
        \/ (frame_error e data2 columns = None
            /\ append_error e df {| df_data := data2; df_columns := columns |} = Some x) ->
        query fuel query_str e s
        = (Raise x, set_sent (sent s1 ++ req :: gets nexts ++ [req2]) s1)).
Proof.
  intros Hauth Htok Hhost req response Hok Hjson Hmeta Hdata columns df gets.
  split; [|split].
  - intros x Hframe.
    apply (query_first_frame_fails fuel query_str e s s1 tok host page metadata data x
             Hauth Htok Hhost Hok Hjson Hmeta Hdata Hframe).
  - intros nexts Hframe (last & done & Hrun & Hdone & Htrue) Hfuel.
    rewrite (query_enters_loop fuel query_str e s s1 tok host page metadata data
               Hauth Htok Hhost Hok Hjson Hmeta Hdata Hframe).
    replace fuel with (length nexts + (fuel - length nexts))%nat by lia.
    rewrite (query_loop_run e host tok metadata df nexts _ page last);
      [| exact Hhost | exact Hrun].
    rewrite (query_loop_done _ _ _ last done df e _ Hdone Htrue).
    cbn [sent set_sent]. rewrite set_sent_twice, <- app_assoc. reflexivity.
  - intros nexts last done next items data2 x Hframe Hrun Hdone Hfalse Hnext Hfuel
           req2 response2 Hok2 Hjson2 Hdata2 Hfails.
    rewrite (query_enters_loop fuel query_str e s s1 tok host page metadata data
               Hauth Htok Hhost Hok Hjson Hmeta Hdata Hframe).
    replace fuel with (length nexts + S (fuel - S (length nexts)))%nat by lia.
    rewrite (query_loop_run e host tok metadata df nexts _ page last);
      [| exact Hhost | exact Hrun].
    match goal with
    | |- query_loop _ _ _ _ _ _ ?st = _ =>
        rewrite (query_loop_pandas_fails _ host tok metadata last done next items data2
                   df x e st Hhost Hdone Hfalse Hnext)
    end.
    + cbn [sent set_sent]. rewrite set_sent_twice, <- !app_assoc. reflexivity.
    + cbn [sent set_sent]. rewrite <- app_assoc. exact Hok2.
    + cbn [sent set_sent]. rewrite <- app_assoc. exact Hjson2.
    + exact Hdata2.
    + exact Hfails.
Qed.

(** The two pages of the mocked endpoint; a first page with a short row;
    the two pages under a pandas without [append]. *)
Lemma query_follows_pages_witness :
  let rows := VList [VList [VInt 1; VStr "ann"]; VList [VInt 2; VStr "bob"]] in
  let post := query_request "dc.example.com" "cdp-token" "SELECT 1" in
  let get := page_request "dc.example.com" "cdp-token" "batch-2" in
  query 1 "SELECT 1" (mock_env all_ok) new_instance
  = (Return {| df_data := rows; df_columns := ["id"; "name"] |},
     set_sent (sent authenticated ++ [post; get]) authenticated)
  /\ query 1 "SELECT 1" (mock_env_with short_row_page all_ok) new_instance
     = (Raise ValueError, set_sent (sent authenticated ++ [post]) authenticated)
  /\ query 1 "SELECT 1" pandas_2 new_instance
     = (Raise AttributeError, set_sent (sent authenticated ++ [post; get]) authenticated).
Proof.
  intros rows post get. split; [|split].
  - destruct (query_follows_pages 1 "SELECT 1" (mock_env all_ok) new_instance authenticated
                "cdp-token" "dc.example.com" page_one_items page_metadata rows)
      as (_ & Hchain & _).
    + apply mock_authentication; reflexivity.
    + vm_compute. reflexivity.
    + vm_compute. reflexivity.
    + vm_compute. reflexivity.
    + vm_compute. reflexivity.
    + reflexivity.
    + reflexivity.
    + apply (Hchain [VStr "batch-2"]).
      * reflexivity.
      * exists [("metadata", VDict page_metadata);
                ("data", VList [VList [VInt 3; VStr "cy"]]); ("done", VBool true)],
          (VBool true).
        split; [|split; reflexivity].
        split; [exists (VBool false); split; reflexivity|].
        split; [reflexivity|]. split; [vm_compute; reflexivity|].
        exists [("metadata", VDict page_metadata);
                ("data", VList [VList [VInt 3; VStr "cy"]]); ("done", VBool true)],
          (VList [VList [VInt 3; VStr "cy"]]).
        split; [vm_compute; reflexivity|]. split; [reflexivity|].
        split; [reflexivity|]. split; reflexivity.
      * cbn. lia.
  - destruct (query_follows_pages 1 "SELECT 1" (mock_env_with short_row_page all_ok)
                new_instance authenticated "cdp-token" "dc.example.com"
                [("metadata", VDict page_metadata); ("data", VList [VList [VInt 1]]);
                 ("done", VBool true)]
                page_metadata (VList [VList [VInt 1]]))
      as (Hfirst & _).
    + vm_compute. reflexivity.
    + vm_compute. reflexivity.
    + vm_compute. reflexivity.
    + vm_compute. reflexivity.
    + vm_compute. reflexivity.
    + reflexivity.
    + reflexivity.
    + apply (Hfirst ValueError). reflexivity.
  - destruct (query_follows_pages 1 "SELECT 1" pandas_2 new_instance authenticated
                "cdp-token" "dc.example.com" page_one_items page_metadata rows)
      as (_ & _ & Hfails).
    + vm_compute. reflexivity.
    + vm_compute. reflexivity.
    + vm_compute. reflexivity.
    + vm_compute. reflexivity.
    + vm_compute. reflexivity.
    + reflexivity.
    + reflexivity.
    + apply (Hfails [] page_one_items (VBool false) (VStr "batch-2")
               [("metadata", VDict page_metadata);
                ("data", VList [VList [VInt 3; VStr "cy"]]); ("done", VBool true)]
               (VList [VList [VInt 3; VStr "cy"]]) AttributeError).
      * reflexivity.
      * reflexivity.
      * reflexivity.
      * reflexivity.
      * reflexivity.
      * cbn. lia.
      * vm_compute. reflexivity.
      * vm_compute. reflexivity.
      * reflexivity.
      * right. split; reflexivity.
Defined.


(** * Aborting all jobs *)

Lemma close_job_fresh job_id state e s T tok host :
  context s !! "dne_cdpTokenRefreshTime" = Some (VInt T) ->
  token_age (clock e (ticks s)) T < 115 ->
  context s !! "dne_cdpOffcoreToken" = Some (VStr tok) ->
  context s !! "dne_cdpOffcoreUrl" = Some (VStr host) ->
  let req := close_request host tok (py_str e job_id) state in
  _close_job job_id state e s
  = (Return (server e (sent s) req),
     set_sent (sent s ++ [req]) (set_ticks (S (ticks s)) s)).
Proof.
  intros Htime Hfresh Htok Hhost req.
  apply (close_job_returns job_id state e s (set_ticks (S (ticks s)) s) tok host).
  - apply (authenticate_fresh e s T Htime Hfresh).
  - exact Htok.
  - exact Hhost.
Qed.

Lemma abort_listed e T tok host fields id s :
  assoc "id" fields = Some id ->
  context s !! "dne_cdpTokenRefreshTime" = Some (VInt T) ->
  token_age (clock e (ticks s)) T < 115 ->
  context s !! "dne_cdpOffcoreToken" = Some (VStr tok) ->
  context s !! "dne_cdpOffcoreUrl" = Some (VStr host) ->
  (let* id := getitem (VDict fields) "id" in abort_job id;; ret tt) e s
  = (Return tt,
     set_sent (sent s ++ [close_request host tok (py_str e id) "Aborted"])
       (set_ticks (S (ticks s)) s)).
Proof.
  intros Hid Htime Hfresh Htok Hhost. mstep. unfold abort_job.
  rewrite (bind_Return _ _ _ _ _ _
             (close_job_fresh id "Aborted" e s T tok host Htime Hfresh Htok Hhost)).
  reflexivity.
Qed.

Lemma abort_each e T tok host (jobs : list value) : forall ids s,
  Forall2 has_id jobs ids ->
  context s !! "dne_cdpTokenRefreshTime" = Some (VInt T) ->
  context s !! "dne_cdpOffcoreToken" = Some (VStr tok) ->
  context s !! "dne_cdpOffcoreUrl" = Some (VStr host) ->
  (forall n, (ticks s <= n < ticks s + length jobs)%nat -> token_age (clock e n) T < 115) ->
  for_each (fun job => let* id := getitem job "id" in abort_job id;; ret tt) jobs e s
  = (Return tt,
     set_sent (sent s ++ List.map (fun id => close_request host tok (py_str e id) "Aborted") ids)
       (set_ticks (ticks s + length jobs) s)).
Proof.
  induction jobs as [|job jobs IH]; intros ids s Hids Htime Htok Hhost Hfresh.
  - inversion Hids; subst. cbn. rewrite app_nil_r, Nat.add_0_r.
    destruct s; reflexivity.
  - inversion Hids as [|? id ? ids' Hjob Hrest]; subst.
    destruct Hjob as (fields & -> & Hid).
    cbn [for_each].
    rewrite (bind_Return _ _ _ _ _ _
               (abort_listed e T tok host fields id s Hid Htime
                  (Hfresh (ticks s) ltac:(cbn; lia)) Htok Hhost)).
    rewrite (IH ids'); [| exact Hrest | exact Htime | exact Htok | exact Hhost |].
    + unfold set_sent, set_ticks. cbn [sent ticks context removed List.map length].
      f_equal. f_equal; [lia | rewrite <- app_assoc; reflexivity].
    + intros n Hn. apply Hfresh. cbn in Hn |- *. lia.
Qed.

(** X12: with the token fresh throughout, [abort_all_jobs] lists the Open
    and UploadComplete jobs with one GET and then sends one abort PATCH per
    listed job, in listing order; the answers to the PATCHes are not looked
    at, so a rejected abort does not stop the ones after it. *)
Theorem abort_all_jobs_each_once e s T tok host items jobs ids :
  context s !! "dne_cdpTokenRefreshTime" = Some (VInt T) ->
  context s !! "dne_cdpOffcoreToken" = Some (VStr tok) ->
  context s !! "dne_cdpOffcoreUrl" = Some (VStr host) ->
  (forall n, (ticks s <= n < ticks s + 2 + length jobs)%nat ->
             token_age (clock e n) T < 115) ->
  let req := list_request host tok 50 0 EmptyString "Open,UploadComplete" in
  json_of (server e (sent s) req) = Some (VDict items) ->
  assoc "data" items = Some (VList jobs) ->
  Forall2 has_id jobs ids ->
  abort_all_jobs e s
  = (Return tt,
     set_sent (sent s ++ req
                 :: List.map (fun id => close_request host tok (py_str e id) "Aborted") ids)
       (set_ticks (ticks s + 2 + length jobs) s)).
Proof.
  intros Htime Htok Hhost Hfresh req Hjson Hdata Hids. unfold abort_all_jobs.
  rewrite (bind_Return _ _ _ _ _ _
             (authenticate_fresh e s T Htime (Hfresh (ticks s) ltac:(lia)))).
  assert (Hlist : list_jobs 50 0 EmptyString "Open,UploadComplete" e
                    (set_ticks (S (ticks s)) s)
                  = (Return (server e (sent s) req),
                     set_sent (sent s ++ [req]) (set_ticks (S (S (ticks s))) s))).
  { apply (list_jobs_returns 50 0 EmptyString "Open,UploadComplete" e
             (set_ticks (S (ticks s)) s) (set_ticks (S (S (ticks s))) s) tok host).
    - apply (authenticate_fresh e (set_ticks (S (ticks s)) s) T Htime).
      apply Hfresh. cbn. lia.
    - exact Htok.
    - exact Hhost.
    - cbn [sent set_ticks]. fold req. rewrite Hjson. discriminate. }
  rewrite (bind_Return _ _ _ _ _ _ Hlist).
  unfold resp_json at 1. rewrite Hjson. do 3 mstep.
  rewrite (abort_each e T tok host jobs ids); [| exact Hids | exact Htime | exact Htok
                                               | exact Hhost |].
  - unfold set_sent, set_ticks. cbn [sent ticks context removed].
    f_equal. f_equal; [lia | rewrite <- app_assoc; reflexivity].
  - intros n Hn. apply Hfresh. cbn in Hn. lia.
Qed.

(** One listed job, whose abort the endpoint rejects. *)
Lemma abort_all_jobs_each_once_witness :
  let e := mock_env platform_rejects in
  fst (abort_all_jobs e authenticated) = Return tt
  /\ List.map (fun r => (req_method r, req_url r, status_code (server e [] r)))
       (drop 2 (sent (snd (abort_all_jobs e authenticated))))
     = [(GET, "https://dc.example.com/api/v1/ingest/jobs?limit=50&offset=0&orderby=&states=Open,UploadComplete", 200);
        (PATCH, "https://dc.example.com/api/v1/ingest/jobs/job-1", 500)].
Proof.
  intros e.
  rewrite (abort_all_jobs_each_once e authenticated 1700000000001 "cdp-token"
             "dc.example.com" [("data", VList [VDict [("id", VStr "job-1")]])]
             [VDict [("id", VStr "job-1")]] [VStr "job-1"]).
  - split; [reflexivity | vm_compute; reflexivity].
  - vm_compute. reflexivity.
  - vm_compute. reflexivity.
  - vm_compute. reflexivity.
  - intros n Hn. apply token_age_window.
    change (ticks authenticated) with 3%nat in Hn. cbn in Hn |- *. lia.
  - vm_compute. reflexivity.
  - reflexivity.
  - constructor; [|constructor]. exists [("id", VStr "job-1")]. split; reflexivity.
Defined.


(** * A bulk job's uploads *)

Lemma replies_app e history (a b : list Request) :
  replies e history (a ++ b) = replies e history a ++ replies e (history ++ a) b.
Proof.
  revert history. induction a as [|r a IH]; intros history; cbn.
  - rewrite app_nil_r. reflexivity.
  - rewrite IH, <- app_assoc. reflexivity.
Qed.

Lemma replies_length e history (reqs : list Request) :
  length (replies e history reqs) = length reqs.
Proof. revert history. induction reqs; intros; cbn; auto. Qed.

Lemma uploaded_nil url headers s : uploaded url headers [] s = s.
Proof. unfold uploaded. cbn. rewrite !app_nil_r. destruct s; reflexivity. Qed.

Lemma uploaded_app url headers (a b : list Chunk) s :
  uploaded url headers b (uploaded url headers a s) = uploaded url headers (a ++ b) s.
Proof.
  unfold uploaded, set_removed, set_sent. cbn.
  rewrite !List.map_app, !app_assoc. reflexivity.
Qed.

Lemma split_callback_accepted url headers chunk e s :
  status_code (server e (sent s) (upload_request url headers chunk)) = 202 ->
  split_callback url headers chunk e s = (Return tt, uploaded url headers [chunk] s).
Proof.
  intros Hok. unfold split_callback. mstep.
  fold (upload_request url headers chunk). rewrite (status_eqb_ok _ _ Hok). cbv iota.
  mstep. reflexivity.
Qed.

Section Chunks.
Variables (e : Env) (url : string) (headers : list (string * string)).

Let put := upload_request url headers.

Lemma chunks_accepted (chunks : list Chunk) : forall s,
  Forall (fun r => status_code r = 202) (replies e (sent s) (List.map put chunks)) ->
  for_each (split_callback url headers) chunks e s
  = (Return tt, uploaded url headers chunks s).
Proof.
  induction chunks as [|c chunks IH]; intros s Hok.
  - cbn. rewrite uploaded_nil. reflexivity.
  - cbn in Hok. inversion Hok as [|? ? Hc Hrest]; subst. cbn [for_each].
    rewrite (bind_Return _ _ _ _ _ _ (split_callback_accepted url headers c e s Hc)).
    rewrite IH.
    + rewrite uploaded_app. reflexivity.
    + exact Hrest.
Qed.

Lemma chunks_rejected (chunks : list Chunk) : forall s oks bad rest,
  replies e (sent s) (List.map put chunks) = oks ++ bad :: rest ->
  Forall (fun r => status_code r = 202) oks ->
  status_code bad <> 202 ->
  for_each (split_callback url headers) chunks e s
  = (Raise (SalesforceDataCloudError "Upload File" url (status_code bad) (text bad)),
     set_sent (sent s ++ List.map put (take (S (length oks)) chunks))
       (set_removed (removed s ++ List.map chunk_path (take (length oks) chunks)) s)).
Proof.
  induction chunks as [|c chunks IH]; intros s oks bad rest Hrs Hoks Hbad.
  - destruct oks; discriminate Hrs.
  - cbn in Hrs. cbn [for_each]. destruct oks as [|ok oks].
    + injection Hrs as Hr _.
      assert (Hc : status_code (server e (sent s) (upload_request url headers c)) <> 202)
        by (fold put; rewrite Hr; exact Hbad).
      rewrite (bind_Raise _ _ _ _ _ _ (split_callback_rejected url headers c e s Hc)).
      fold put. rewrite Hr. cbn. rewrite take_0, (List.app_nil_r (removed s)).
      destruct s; reflexivity.
    + injection Hrs as Hr Hrest. inversion Hoks as [|? ? Hok Hoks']; subst ok.
      rewrite (bind_Return _ _ _ _ _ _ (split_callback_accepted url headers c e s Hok)).
      rewrite (IH _ oks bad rest); [| exact Hrest | exact Hoks'
                                    | exact Hbad].
      unfold uploaded, set_sent, set_removed. cbn. rewrite <- !app_assoc.
      reflexivity.
Qed.

End Chunks.


Section Files.
Variables (e : Env) (url : string) (headers : list (string * string))
          (tempdir encoding : value).

Let put := upload_request url headers.
Let configured (s : State) : Prop :=
  context s !! "tempDir" = Some tempdir
  /\ context s !! "inputFileEncoding" = Some encoding.

Lemma upload_file_run file_path s :
  configured s ->
  upload_file url headers file_path e s
  = (let chunks := bysize e file_path tempdir BULK_API_MAX_PAYLOAD_SIZE
                     (split_encoding encoding) in
     for_each (split_callback url headers) (fst chunks);;
     match snd chunks with
     | Some x => raise x
     | None => ret tt
     end) e s.
Proof. intros [Htemp Henc]. unfold upload_file. do 3 mstep. reflexivity. Qed.


Lemma files_rejected (files : list string) : forall s oks bad rest,
  configured s ->
  splits_cleanly e tempdir encoding files ->
  replies e (sent s) (List.map put (chunks_of e tempdir encoding files))
  = oks ++ bad :: rest ->
  Forall (fun r => status_code r = 202) oks ->
  status_code bad <> 202 ->
  for_each (upload_file url headers) files e s
  = (Raise (SalesforceDataCloudError "Upload File" url (status_code bad) (text bad)),
     set_sent (sent s ++ List.map put
                 (take (S (length oks)) (chunks_of e tempdir encoding files)))
       (set_removed (removed s ++ List.map chunk_path
                       (take (length oks) (chunks_of e tempdir encoding files))) s)).
Proof.
  induction files as [|f files IH]; intros s oks bad rest Hconf Hclean Hrs Hoks Hbad.
  - destruct oks; discriminate Hrs.
  - inversion Hclean as [|? ? Hf Hrest]; subst.
    unfold chunks_of in *. cbn [List.map concat] in *.
    set (cs := fst (bysize e f tempdir BULK_API_MAX_PAYLOAD_SIZE (split_encoding encoding)))
      in *.
    set (more := concat (List.map _ files)) in *.
    rewrite List.map_app, replies_app in Hrs.
    assert (Hlen : length (replies e (sent s) (List.map put cs)) = length cs)
      by (rewrite replies_length, List.length_map; reflexivity).
    cbn [for_each].
    apply app_eq_app in Hrs as [l [[H1 H2]|[H1 H2]]].
    + destruct l as [|b l].
      * (* the first file goes up whole; the rejection is in a later one *)
        rewrite app_nil_r in H1. cbn in H2. symmetry in H2.
        assert (Hok1 : Forall (fun r => status_code r = 202)
                         (replies e (sent s) (List.map put cs)))
          by (rewrite H1; exact Hoks).
        erewrite bind_Return.
        2:{ rewrite (upload_file_run f s Hconf). cbv zeta. fold cs.
            rewrite (bind_Return _ _ _ _ _ _ (chunks_accepted e url headers _ s Hok1)).
            unfold cs. rewrite Hf. reflexivity. }
        rewrite (IH _ [] bad rest); [| exact Hconf | exact Hrest | exact H2
                                     | constructor | exact Hbad].
        assert (Hoks_len : length oks = length cs) by (rewrite <- H1; exact Hlen).
        rewrite Hoks_len.
        replace (take (S (length cs)) (cs ++ more)) with (cs ++ take 1 more)
          by (rewrite take_app_ge by lia; repeat f_equal; lia).
        replace (take (length cs) (cs ++ more)) with cs
          by (rewrite take_app_le by lia; rewrite take_ge by lia; reflexivity).
        unfold uploaded, set_sent, set_removed. cbn.
        rewrite take_0, !List.map_app, !app_nil_r, <- !app_assoc. reflexivity.
      * (* the rejection is in the first file *)
        injection H2 as Hb Hr. subst b.
        erewrite bind_Raise.
        2:{ rewrite (upload_file_run f s Hconf). cbv zeta. fold cs.
            rewrite (bind_Raise _ _ _ _ _ _
                       (chunks_rejected e url headers cs s oks bad l H1 Hoks Hbad)).
            reflexivity. }
        assert (Hoks_len : (length oks < length cs)%nat).
        { rewrite <- Hlen, H1, List.length_app. cbn. lia. }
        rewrite !take_app_le by lia. reflexivity.
    + (* the first file goes up whole; the rejection is in a later one *)
      subst oks. apply Forall_app in Hoks as [Hok1 Hokl].
      erewrite bind_Return.
      2:{ rewrite (upload_file_run f s Hconf). cbv zeta. fold cs.
          rewrite (bind_Return _ _ _ _ _ _ (chunks_accepted e url headers _ s Hok1)).
          unfold cs. rewrite Hf. reflexivity. }
      rewrite (IH _ l bad rest); [| exact Hconf | exact Hrest | exact H2
                                   | exact Hokl | exact Hbad].
      rewrite List.length_app, Hlen.
      replace (take (S (length cs + length l)) (cs ++ more))
        with (cs ++ take (S (length l)) more)
        by (rewrite take_app_ge by lia; repeat f_equal; lia).
      replace (take (length cs + length l) (cs ++ more)) with (cs ++ take (length l) more)
        by (rewrite take_app_ge by lia; repeat f_equal; lia).
      unfold uploaded, set_sent, set_removed. cbn.
      rewrite !List.map_app, <- !app_assoc. reflexivity.
Qed.

End Files.


Section BulkJob.
Variables (e : Env) (s s1 : State) (T : Z) (tok host api obj op : string)
          (tempdir encoding : value) (files : list string)
          (items : list (string * value)) (id : value).
Hypothesis Hauth : _authenticate false e s = (Return tt, s1).
Hypothesis Htime : context s1 !! "dne_cdpTokenRefreshTime" = Some (VInt T).
Hypothesis Hfresh : token_age (clock e (ticks s1)) T < 115.
Hypothesis Htok : context s1 !! "dne_cdpOffcoreToken" = Some (VStr tok).
Hypothesis Hhost : context s1 !! "dne_cdpOffcoreUrl" = Some (VStr host).
Hypothesis Htemp : context s1 !! "tempDir" = Some tempdir.
Hypothesis Henc : context s1 !! "inputFileEncoding" = Some encoding.

Let create := create_request host tok api obj op.
Let job := py_str e id.
Let url := batches_url host job.
Let chunks := chunks_of e tempdir encoding files.
Let put := upload_request url (csv_headers tok).
Let s2 := set_sent (sent s1 ++ [create]) s1.

Hypothesis Hcreated : status_code (server e (sent s1) create) = 201.
Hypothesis Hjson : json_of (server e (sent s1) create) = Some (VDict items).
Hypothesis Hid : assoc "id" items = Some id.
Hypothesis Hclean : splits_cleanly e tempdir encoding files.

Lemma bulk_operation_created :
  _bulk_operation api obj files op e s
  = try_finally (upload_and_close id files) (abort_if_open id) e s2.
Proof.
  unfold _bulk_operation. rewrite (bind_Return _ _ _ _ _ _ Hauth).
  rewrite (bind_Return _ _ _ _ _ _
             (create_job_returns_id e s1 tok host api obj op Htok Hhost Hcreated
                items id Hjson Hid)).
  reflexivity.
Qed.

Lemma upload_and_close_uploads :
  upload_and_close id files e s2
  = (for_each (upload_file url (csv_headers tok)) files;;
     _close_job id "UploadComplete") e s2.
Proof. unfold upload_and_close. do 4 mstep. reflexivity. Qed.


Lemma upload_and_close_rejected oks bad rest :
  replies e (sent s1 ++ [create]) (List.map put chunks) = oks ++ bad :: rest ->
  Forall (fun r => status_code r = 202) oks ->
  status_code bad <> 202 ->
  upload_and_close id files e s2
  = (Raise (SalesforceDataCloudError "Upload File" url (status_code bad) (text bad)),
     set_sent (sent s1 ++ create :: List.map put (take (S (length oks)) chunks))
       (set_removed (removed s1 ++ List.map chunk_path (take (length oks) chunks)) s1)).
Proof.
  intros Hrs Hoks Hbad. rewrite upload_and_close_uploads.
  rewrite (bind_Raise _ _ _ _ _ _
             (files_rejected e url (csv_headers tok) tempdir encoding files s2
                oks bad rest (conj Htemp Henc) Hclean Hrs Hoks Hbad)).
  unfold s2, set_sent, set_removed. cbn [sent ticks context removed].
  fold chunks put. rewrite <- !app_assoc. reflexivity.
Qed.

End BulkJob.






(** * Frames *)

Section Keeps.
Variable R : State -> State -> Prop.
Hypothesis R_refl : forall s, R s s.
Hypothesis R_trans : forall s1 s2 s3, R s1 s2 -> R s2 s3 -> R s1 s3.

Lemma keeps_eq {A} (m : M A) : keeps eq m -> keeps R m.
Proof. intros Hm e s out s1 Hrun. rewrite <- (Hm e s out s1 Hrun). apply R_refl. Qed.

Lemma keeps_bind {A B} (m : M A) (k : A -> M B) :
  keeps R m -> (forall a, keeps R (k a)) -> keeps R (bind m k).
Proof.
  intros Hm Hk e s out s2 Hrun.
  apply bind_inv in Hrun as [(a & s1 & Hm1 & Hk1) | [(x & Hm1 & _) | (Hm1 & _)]].
  - eapply R_trans; [exact (Hm _ _ _ _ Hm1) | exact (Hk a _ _ _ _ Hk1)].
  - exact (Hm _ _ _ _ Hm1).
  - exact (Hm _ _ _ _ Hm1).
Qed.

Lemma keeps_for_each {A} (f : A -> M unit) (l : list A) :
  (forall x, keeps R (f x)) -> keeps R (for_each f l).
Proof.
  intros Hf. induction l as [|x l IH]; cbn [for_each].
  - intros e s out s1 H. inversion H; subst. apply R_refl.
  - apply keeps_bind; [apply Hf | intros _; exact IH].
Qed.

Lemma keeps_try_finally {A} (body : M A) (cleanup : outcome A -> M unit) :
  keeps R body -> (forall r, keeps R (cleanup r)) -> keeps R (try_finally body cleanup).
Proof.
  intros Hb Hc e s out s2 Hrun.
  apply try_finally_inv in Hrun as (r & s1 & Hbody & [(_ & _ & ->) | (_ & oc & Hclean & _)]).
  - exact (Hb _ _ _ _ Hbody).
  - eapply R_trans; [exact (Hb _ _ _ _ Hbody) | exact (Hc r _ _ _ _ Hclean)].
Qed.

End Keeps.

(** The statements that read the state and leave it as it is. *)
Lemma reads_ret {A} (a : A) : keeps eq (ret a).
Proof. intros e s out s1 H. inversion H; reflexivity. Qed.

Lemma reads_raise {A} (x : Exn) : keeps eq (@raise A x).
Proof. intros e s out s1 H. inversion H; reflexivity. Qed.

Lemma reads_pure {A} (f : Env -> State -> outcome A) : keeps eq (fun e s => (f e s, s)).
Proof. intros e s out s1 H. inversion H; reflexivity. Qed.

Lemma reads_ctx_get key : keeps eq (ctx_get key).
Proof.
  intros e s out s1. unfold ctx_get. destruct (context s !! key); intros H;
    inversion H; reflexivity.
Qed.

Lemma reads_ctx_get_default key : keeps eq (ctx_get_default key).
Proof. intros e s out s1 H. inversion H; reflexivity. Qed.

Lemma reads_resp_json r : keeps eq (resp_json r).
Proof. unfold resp_json. destruct (json_of r); [apply reads_ret | apply reads_raise]. Qed.

Lemma reads_getitem v key : keeps eq (getitem v key).
Proof.
  unfold getitem. destruct v; try apply reads_raise.
  destruct (assoc key items); [apply reads_ret | apply reads_raise].
Qed.

Lemma reads_as_str v : keeps eq (as_str v).
Proof. destruct v; first [apply reads_ret | apply reads_raise]. Qed.

Lemma reads_as_number v : keeps eq (as_number v).
Proof. destruct v; first [apply reads_ret | apply reads_raise]. Qed.

Lemma reads_format_value v : keeps eq (format_value v).
Proof. intros e s out s1 H. inversion H; reflexivity. Qed.

Lemma reads_py_iter v : keeps eq (py_iter v).
Proof. destruct v; first [apply reads_ret | apply reads_raise]. Qed.

Lemma reads_keys v : keeps eq (keys v).
Proof. destruct v; first [apply reads_ret | apply reads_raise]. Qed.

Create HintDb keep_db.
#[local] Hint Resolve reads_ret reads_raise reads_ctx_get reads_ctx_get_default
  reads_resp_json reads_getitem reads_as_str reads_as_number reads_format_value
  reads_py_iter reads_keys : keep_db.

Lemma reads_bind {A B} (m : M A) (k : A -> M B) :
  keeps eq m -> (forall a, keeps eq (k a)) -> keeps eq (bind m k).
Proof. apply keeps_bind. intros s1 s2 s3. apply eq_trans. Qed.

Lemma reads_bearer_headers ct : keeps eq (bearer_headers ct).
Proof.
  unfold bearer_headers.
  repeat (apply reads_bind; [| intros ?]); auto with keep_db.
Qed.

Lemma reads_offcore_url path : keeps eq (offcore_url path).
Proof.
  unfold offcore_url.
  repeat (apply reads_bind; [| intros ?]); auto with keep_db.
Qed.

Lemma reads_new_frame data columns : keeps eq (new_frame data columns).
Proof.
  intros e s out s1. unfold new_frame.
  destruct (frame_error e data columns); intros H; inversion H; reflexivity.
Qed.

Lemma reads_append_frame df other : keeps eq (append_frame df other).
Proof.
  intros e s out s1. unfold append_frame.
  destruct (append_error e df other); intros H; inversion H; reflexivity.
Qed.

#[local] Hint Resolve reads_new_frame reads_append_frame : keep_db.

Lemma reads_frame_of response_dict output_metadata :
  keeps eq (frame_of response_dict output_metadata).
Proof.
  unfold frame_of.
  repeat (apply reads_bind; [| intros ?]); auto with keep_db.
Qed.

#[local] Hint Resolve reads_bearer_headers reads_offcore_url reads_frame_of : keep_db.

(** ** The configuration *)

Lemma config_kept_refl s : config_kept s s.
Proof. intros key _. reflexivity. Qed.

Lemma config_kept_trans s1 s2 s3 :
  config_kept s1 s2 -> config_kept s2 s3 -> config_kept s1 s3.
Proof. intros H12 H23 key Hkey. rewrite (H23 key Hkey). apply H12, Hkey. Qed.

Lemma config_time_ms : keeps config_kept time_ms.
Proof. intros e s out s1 H. inversion H; subst. intros key _. reflexivity. Qed.

Lemma config_request m u h d : keeps config_kept (request m u h d).
Proof. intros e s out s1 H. inversion H; subst. intros key _. reflexivity. Qed.

Lemma config_os_remove path : keeps config_kept (os_remove path).
Proof. intros e s out s1 H. inversion H; subst. intros key _. reflexivity. Qed.

Lemma config_ctx_set key v : In key token_keys -> keeps config_kept (ctx_set key v).
Proof.
  intros Hin e s out s1 H. inversion H; subst. intros key' Hkey'. cbn.
  apply lookup_insert_ne. intros ->. contradiction.
Qed.

Lemma config_reads {A} (m : M A) : keeps eq m -> keeps config_kept m.
Proof. apply keeps_eq, config_kept_refl. Qed.

#[local] Hint Resolve config_time_ms config_request config_os_remove : keep_db.

(** Peel the statements of a method body. *)
Ltac config_steps :=
  repeat first
    [ solve [ auto with keep_db ]
    | apply config_reads; solve [ auto with keep_db ]
    | apply config_ctx_set; cbn; tauto
    | apply (keeps_bind config_kept config_kept_trans); [| intros ? ]
    | match goal with
      | |- keeps _ (if ?c then _ else _) => destruct c
      | |- keeps _ (match ?x with _ => _ end) => destruct x
      end ].

Lemma config_s2s_exchange : keeps config_kept s2s_exchange.
Proof. unfold s2s_exchange. config_steps. apply config_reads, reads_pure. Qed.

Lemma config_cdp_exchange : keeps config_kept cdp_exchange.
Proof. unfold cdp_exchange. config_steps. Qed.

#[local] Hint Resolve config_s2s_exchange config_cdp_exchange : keep_db.

Lemma config_authenticate force : keeps config_kept (_authenticate force).
Proof. unfold _authenticate, refresh_token. config_steps. Qed.

#[local] Hint Resolve config_authenticate : keep_db.

Lemma config_streaming_loop headers api obj test_mode (chunks : list (list value)) :
  forall response,
    keeps config_kept (streaming_loop headers api obj test_mode chunks response).
Proof.
  induction chunks as [|chunk chunks IH]; intros response; cbn [streaming_loop].
  - config_steps.
  - config_steps.
Qed.

Lemma config_close_job job_id state : keeps config_kept (_close_job job_id state).
Proof. unfold _close_job. config_steps. Qed.

#[local] Hint Resolve config_streaming_loop config_close_job : keep_db.

Lemma config_create_job api obj op : keeps config_kept (_create_job api obj op).
Proof. unfold _create_job. config_steps. Qed.

Lemma config_split_callback url headers chunk :
  keeps config_kept (split_callback url headers chunk).
Proof. unfold split_callback. config_steps. Qed.

Lemma config_upload_file url headers file_path :
  keeps config_kept (upload_file url headers file_path).
Proof.
  unfold upload_file. config_steps.
  - apply config_reads, reads_pure.
  - apply keeps_for_each; [apply config_kept_refl | apply config_kept_trans |].
    apply config_split_callback.
Qed.

Lemma config_bulk_operation api obj files op :
  keeps config_kept (_bulk_operation api obj files op).
Proof.
  unfold _bulk_operation.
  apply (keeps_bind config_kept config_kept_trans); [apply config_authenticate | intros _].
  apply (keeps_bind config_kept config_kept_trans); [apply config_create_job | intros job_id].
  apply keeps_try_finally; [apply config_kept_trans | |].
  - unfold upload_and_close. config_steps.
    apply keeps_for_each; [apply config_kept_refl | apply config_kept_trans |].
    apply config_upload_file.
  - intros r. unfold abort_if_open, abort_job. config_steps.
Qed.

Lemma config_list_jobs limit offset orderby state :
  keeps config_kept (list_jobs limit offset orderby state).
Proof. unfold list_jobs. config_steps. Qed.

Lemma config_job_info job_id : keeps config_kept (job_info job_id).
Proof. unfold job_info. config_steps. Qed.

Lemma config_abort_all_jobs : keeps config_kept abort_all_jobs.
Proof.
  unfold abort_all_jobs. config_steps; try apply config_list_jobs.
  all: apply keeps_for_each; [apply config_kept_refl | apply config_kept_trans |];
    intros job; unfold abort_job; config_steps.
Qed.

Lemma config_query_loop fuel headers output_metadata :
  forall response_dict df,
    keeps config_kept (query_loop fuel headers output_metadata response_dict df).
Proof.
  induction fuel as [|fuel IH]; intros response_dict df; cbn [query_loop].
  - config_steps. apply config_reads, (reads_pure (fun _ _ => OutOfFuel)).
  - config_steps.
Qed.

Lemma config_query fuel query_str : keeps config_kept (query fuel query_str).
Proof. unfold query. config_steps. apply config_query_loop. Qed.


(** ** The requests of an operation *)

Lemma only_sent_refl ok s : only_sent ok s s.
Proof. split; [exists []; rewrite app_nil_r; auto | reflexivity]. Qed.

Lemma only_sent_trans ok s1 s2 s3 :
  only_sent ok s1 s2 -> only_sent ok s2 s3 -> only_sent ok s1 s3.
Proof.
  intros [(l1 & E1 & H1) R1] [(l2 & E2 & H2) R2]. split; [|congruence].
  exists (l1 ++ l2). split.
  - rewrite E2, E1, <- app_assoc. reflexivity.
  - rewrite forallb_app, H1, H2. reflexivity.
Qed.

Lemma only_sent_weaken (ok ok' : Request -> bool) {A} (m : M A) :
  (forall r, ok r = true -> ok' r = true) ->
  keeps (only_sent ok) m -> keeps (only_sent ok') m.
Proof.
  intros Hok Hm e s out s1 Hrun. destruct (Hm e s out s1 Hrun) as [(l & E & H) R].
  split; [|exact R]. exists l. split; [exact E|]. rewrite forallb_forall in *. auto.
Qed.

Lemma sent_bind ok {A B} (m : M A) (k : A -> M B) :
  keeps (only_sent ok) m -> (forall a, keeps (only_sent ok) (k a)) ->
  keeps (only_sent ok) (bind m k).
Proof. apply keeps_bind, only_sent_trans. Qed.

Lemma sent_reads ok {A} (m : M A) : keeps eq m -> keeps (only_sent ok) m.
Proof. apply keeps_eq, only_sent_refl. Qed.

Lemma sent_time_ms ok : keeps (only_sent ok) time_ms.
Proof.
  intros e s out s1 H. inversion H; subst.
  split; [exists []; cbn; rewrite app_nil_r; auto | reflexivity].
Qed.

Lemma sent_ctx_set ok key v : keeps (only_sent ok) (ctx_set key v).
Proof.
  intros e s out s1 H. inversion H; subst.
  split; [exists []; cbn; rewrite app_nil_r; auto | reflexivity].
Qed.

Lemma sent_request (ok : Request -> bool) m u h d :
  ok {| req_method := m; req_url := u; req_headers := h; req_data := d |} = true ->
  keeps (only_sent ok) (request m u h d).
Proof.
  intros Hok e s out s1 H. inversion H; subst. split; [|reflexivity].
  eexists. split; [reflexivity|]. cbn [forallb]. rewrite Hok. reflexivity.
Qed.

Ltac sent_steps :=
  repeat first
    [ solve [ auto with keep_db ]
    | apply sent_reads; solve [ auto with keep_db ]
    | apply sent_time_ms
    | apply sent_ctx_set
    | apply sent_request; reflexivity
    | apply sent_bind; [| intros ? ]
    | match goal with
      | |- keeps _ (if ?c then _ else _) => destruct c
      | |- keeps _ (match ?x with _ => _ end) => destruct x
      end ].

Lemma sent_authenticate force : keeps (only_sent is_post) (_authenticate force).
Proof.
  unfold _authenticate, refresh_token, s2s_exchange, cdp_exchange. sent_steps.
  apply sent_reads, reads_pure.
Qed.

Lemma post_leaves_jobs r : is_post r = true -> leaves_jobs r = true.
Proof. unfold is_post, leaves_jobs. destruct (req_method r); auto. Qed.

Lemma sent_authenticate_leaves_jobs force :
  keeps (only_sent leaves_jobs) (_authenticate force).
Proof. exact (only_sent_weaken _ _ _ post_leaves_jobs (sent_authenticate force)). Qed.

#[local] Hint Resolve sent_authenticate sent_authenticate_leaves_jobs : keep_db.

Lemma sent_streaming_loop headers api obj test_mode (chunks : list (list value)) :
  forall response,
    keeps (only_sent is_post) (streaming_loop headers api obj test_mode chunks response).
Proof.
  induction chunks as [|chunk chunks IH]; intros response; cbn [streaming_loop];
    sent_steps.
Qed.

Lemma sent_streaming_upsert api obj data test_mode :
  keeps (only_sent is_post) (streaming_upsert api obj data test_mode).
Proof. unfold streaming_upsert. sent_steps. apply sent_streaming_loop. Qed.

Lemma sent_list_jobs limit offset orderby state :
  keeps (only_sent leaves_jobs) (list_jobs limit offset orderby state).
Proof. unfold list_jobs. sent_steps. Qed.

Lemma sent_job_info job_id : keeps (only_sent leaves_jobs) (job_info job_id).
Proof. unfold job_info. sent_steps. Qed.

Lemma sent_query_loop fuel headers output_metadata :
  forall response_dict df,
    keeps (only_sent leaves_jobs)
      (query_loop fuel headers output_metadata response_dict df).
Proof.
  induction fuel as [|fuel IH]; intros response_dict df; cbn [query_loop].
  - sent_steps. apply sent_reads, (reads_pure (fun _ _ => OutOfFuel)).
  - sent_steps.
Qed.

Lemma sent_query fuel query_str : keeps (only_sent leaves_jobs) (query fuel query_str).
Proof. unfold query. sent_steps. apply sent_query_loop. Qed.

Lemma config_main command job_id : keeps config_kept (main command job_id).
Proof.
  unfold main, abort_job.
  destruct command; config_steps;
    first [apply config_list_jobs | apply config_job_info].
Qed.

(** X15: the configuration is never written.  Whatever an operation of the
    client does and however it ends (returning, raising, or cut off by the
    page bound of the query loop), every entry of the context other than
    the six token entries of [_authenticate] is afterwards as it was before:
    the login URL, client id, user name, private key, temp directory and
    input encoding are only ever read. *)
Theorem configuration_kept :
  (forall force, keeps config_kept (_authenticate force))
  /\ (forall api obj data test_mode,
         keeps config_kept (streaming_upsert api obj data test_mode))
  /\ (forall api obj files, keeps config_kept (bulk_upsert api obj files))
  /\ (forall api obj files, keeps config_kept (bulk_delete api obj files))
  /\ (forall limit offset orderby state,
         keeps config_kept (list_jobs limit offset orderby state))
  /\ (forall job_id, keeps config_kept (job_info job_id))
  /\ (forall job_id, keeps config_kept (abort_job job_id))
  /\ keeps config_kept abort_all_jobs
  /\ (forall fuel query_str, keeps config_kept (query fuel query_str))
  /\ (forall command job_id, keeps config_kept (main command job_id)).
Proof.
  split; [|split; [|split; [|split; [|split; [|split; [|split; [|split; [|split]]]]]]]].
  - apply config_authenticate.
  - intros api obj data test_mode. unfold streaming_upsert. config_steps.
  - intros api obj files. unfold bulk_upsert.
    apply (keeps_bind config_kept config_kept_trans).
    + apply config_bulk_operation.
    + intros _. apply config_reads, reads_ret.
  - intros api obj files. unfold bulk_delete.
    apply (keeps_bind config_kept config_kept_trans).
    + apply config_bulk_operation.
    + intros _. apply config_reads, reads_ret.
  - apply config_list_jobs.
  - apply config_job_info.
  - intros job_id. exact (config_close_job job_id "Aborted").
  - apply config_abort_all_jobs.
  - apply config_query.
  - apply config_main.
Qed.

(** X16: the operations that do not touch a job.  [streaming_upsert] sends
    POSTs only; [list_jobs], [job_info] and [query] (whatever the number of
    pages) send POSTs and GETs only.  None of them sends a PUT or a PATCH,
    so no job is uploaded to, closed or aborted by them, and none removes a
    file. *)
Theorem jobs_left_alone :
  (forall api obj data test_mode,
      keeps (only_sent is_post) (streaming_upsert api obj data test_mode))
  /\ (forall limit offset orderby state,
         keeps (only_sent leaves_jobs) (list_jobs limit offset orderby state))
  /\ (forall job_id, keeps (only_sent leaves_jobs) (job_info job_id))
  /\ (forall fuel query_str, keeps (only_sent leaves_jobs) (query fuel query_str)).
Proof.
  split; [|split; [|split]].
  - apply sent_streaming_upsert.
  - apply sent_list_jobs.
  - apply sent_job_info.
  - apply sent_query.
Qed.

(** X17: the command line.  The two listing commands and [job_info] send
    no PUT and no PATCH and remove no file.  [job_info] and [abort_job]
    without a job id, or with an empty one, send nothing at all and return
    (the error is only logged).  [abort_job] with a job id sends, when it
    returns, exactly one PATCH, the transition to Aborted, as its last
    request. *)
Theorem main_commands job_id :
  (forall command, command <> command_abort_job ->
      keeps (only_sent leaves_jobs) (main command job_id))
  /\ (truthy job_id = false ->
      forall e s, main command_job_info job_id e s = (Return tt, s)
                  /\ main command_abort_job job_id e s = (Return tt, s))
  /\ (truthy job_id = true ->
      traces (main command_abort_job job_id) (close_trace "Aborted")).
Proof.
  split; [|split].
  - intros command Hcommand. unfold main. destruct command; sent_steps;
      first [apply sent_list_jobs | apply sent_job_info | contradiction].
  - intros Hid e s. unfold main. rewrite Hid. split; reflexivity.
  - intros Hid. unfold main. rewrite Hid.
    eapply traces_bind; [apply abort_job_trace | | |].
    + intros r l Hl e s out s1 Hrun. inversion Hrun; subst.
      exists []. rewrite !app_nil_r. split; [reflexivity | exact Hl].
    + intros x l Hl. exact Hl.
    + intros l Hl. exact Hl.
Qed.

(** No job id, an empty one, and [job-1], on an authenticated instance. *)
Lemma main_commands_witness :
  let e := mock_env all_ok in
  main command_abort_job VNone e authenticated = (Return tt, authenticated)
  /\ main command_job_info (VStr EmptyString) e authenticated = (Return tt, authenticated)
  /\ List.map (fun r => (req_method r, req_url r))
       (drop 2 (sent (snd (main command_abort_job (VStr "job-1") e authenticated))))
     = [(PATCH, "https://dc.example.com/api/v1/ingest/jobs/job-1")].
Proof.
  intros e. split; [|split].
  - destruct (main_commands VNone) as (_ & Hnone & _).
    apply (Hnone eq_refl e authenticated).
  - destruct (main_commands (VStr EmptyString)) as (_ & Hnone & _).
    apply (Hnone eq_refl e authenticated).
  - vm_compute. reflexivity.
Defined.


(** * Status checks, site by site *)

(** C7, as amended: at every call site that checks the status (the
    streaming POST of any group, job creation, the upload of any chunk, the
    query POST, every next-page GET the loop reaches, and the two
    token-exchange POSTs when their body is JSON) a status other than the
    expected one raises [SalesforceDataCloudError] with that site's
    operation name, the request URL, and the status and body received.
    The operation around the site raises that error, with one exception:
    after a rejected upload [_bulk_operation] aborts the job it created
    before the error leaves, and what the abort raises, if it raises,
    replaces the upload error.  [bulk_upsert] and [bulk_delete] raise what
    [_bulk_operation] raises.  The PATCH of [_close_job] (also behind
    [abort_job]) is not checked: the response is returned whatever its
    status.  Nor are the GETs of [list_jobs] and [job_info]: a response
    whose body is JSON is returned whatever its status. *)
Theorem checked_sites_raise e s s1 tok host :
  _authenticate false e s = (Return tt, s1) ->
  context s1 !! "dne_cdpOffcoreToken" = Some (VStr tok) ->
  context s1 !! "dne_cdpOffcoreUrl" = Some (VStr host) ->
  (* streaming POST of any group, expected 202 *)
  (forall api obj items test_mode records oks bad rest,
      assoc "data" items = Some (VList records) ->
      replies e (sent s1)
        (List.map (streaming_request host tok api obj test_mode)
           (_split_json_list records STREAMING_API_MAX_PAYLOAD_SIZE))
      = oks ++ bad :: rest ->
      Forall (fun r => status_code r = 202) oks ->
      status_code bad <> 202 ->
      fst (streaming_upsert api obj (VDict items) test_mode e s)
      = Raise (SalesforceDataCloudError "Streaming UPSERT"
                 ("https://" +:+ host +:+ streaming_path api obj test_mode)
                 (status_code bad) (text bad)))
  (* create job POST, expected 201: the site and the bulk operation *)
  /\ (forall api obj op files,
        let req := create_request host tok api obj op in
        let response := server e (sent s1) req in
        status_code response <> 201 ->
        let error := SalesforceDataCloudError "Create Job" (req_url req)
                       (status_code response) (text response) in
        fst (_create_job api obj op e s1) = Raise error
        /\ fst (_bulk_operation api obj files op e s) = Raise error)
  (* upload PUT of a chunk, expected 202: the site *)
  /\ (forall url headers chunk s2,
        let response := server e (sent s2) (upload_request url headers chunk) in
        status_code response <> 202 ->
        fst (split_callback url headers chunk e s2)
        = Raise (SalesforceDataCloudError "Upload File" url
                   (status_code response) (text response)))
  (* upload PUT of any chunk: the bulk operation, which aborts the job first *)
  /\ (forall api obj op files tempdir encoding items id oks bad rest,
        context s1 !! "tempDir" = Some tempdir ->
        context s1 !! "inputFileEncoding" = Some encoding ->
        let create := create_request host tok api obj op in
        status_code (server e (sent s1) create) = 201 ->
        json_of (server e (sent s1) create) = Some (VDict items) ->
        assoc "id" items = Some id ->
        let url := batches_url host (py_str e id) in
        let chunks := chunks_of e tempdir encoding files in
        let put := upload_request url (csv_headers tok) in
        splits_cleanly e tempdir encoding files ->
        replies e (sent s1 ++ [create]) (List.map put chunks) = oks ++ bad :: rest ->
        Forall (fun r => status_code r = 202) oks ->
        status_code bad <> 202 ->
        let error := SalesforceDataCloudError "Upload File" url
                       (status_code bad) (text bad) in
        let s3 := set_sent (sent s1 ++ create
                              :: List.map put (take (S (length oks)) chunks))
                    (set_removed (removed s1
                                  ++ List.map chunk_path (take (length oks) chunks)) s1) in
        fst (_bulk_operation api obj files op e s)
        = match id with
          | VNone => Raise error
          | _ => match fst (abort_job id e s3) with
                 | Return _ => Raise error
                 | Raise x => Raise x
                 | OutOfFuel => OutOfFuel
                 end
          end)
  (* bulk_upsert and bulk_delete pass on what _bulk_operation raises *)
  /\ (forall api obj files x,
        (fst (_bulk_operation api obj files "upsert" e s) = Raise x ->
         fst (bulk_upsert api obj files e s) = Raise x)
        /\ (fst (_bulk_operation api obj files "delete" e s) = Raise x ->
            fst (bulk_delete api obj files e s) = Raise x))
  (* query POST, expected 200 *)
  /\ (forall fuel query_str,
        let req := query_request host tok query_str in
        let response := server e (sent s1) req in
        status_code response <> 200 ->
        fst (query fuel query_str e s)
        = Raise (SalesforceDataCloudError "Query" (req_url req)
                   (status_code response) (text response)))
  (* any next-page GET, expected 200 *)
  /\ (forall fuel query_str page metadata data nexts last done next,
        let req := query_request host tok query_str in
        let response := server e (sent s1) req in
        status_code response = 200 ->
        json_of response = Some (VDict page) ->
        assoc "metadata" page = Some (VDict metadata) ->
        assoc "data" page = Some data ->
        frame_error e data (List.map fst metadata) = None ->
        let df := {| df_data := data; df_columns := List.map fst metadata |} in
        page_run e host tok (List.map fst metadata) df (sent s1 ++ [req]) page nexts last ->
        assoc "done" last = Some done ->
        truthy done = false ->
        assoc "nextBatchId" last = Some next ->
        (length nexts < fuel)%nat ->
        let gets := List.map (fun next => page_request host tok (py_str e next)) nexts in
        let req2 := page_request host tok (py_str e next) in
        let rejected := server e (sent s1 ++ req :: gets) req2 in
        status_code rejected <> 200 ->
        fst (query fuel query_str e s)
        = Raise (SalesforceDataCloudError "Query" (req_url req2)
                   (status_code rejected) (text rejected)))
  (* token exchange POSTs, expected 200, on a JSON body *)
  /\ (forall s0 T force key login,
        context s0 !! "dne_cdpTokenRefreshTime" = Some (VInt T) ->
        context s0 !! "privateKey" = Some key ->
        context s0 !! "loginUrl" = Some (VStr login) ->
        force = true \/ 115 <= token_age (clock e (ticks s0)) T ->
        let jwt := jwt_encode e (jwt_payload (context s0) (clock e (S (S (ticks s0))))) key in
        let r1 := s2s_request login jwt in
        let resp1 := server e (sent s0) r1 in
        (status_code resp1 <> 200 -> json_of resp1 <> None ->
         fst (_authenticate force e s0)
         = Raise (SalesforceDataCloudError "Get S2S Access Token" (req_url r1)
                    (status_code resp1) (text resp1)))
        /\ (forall tok1 inst,
              accepts resp1 tok1 (VStr inst) ->
              let r2 := cdp_request inst tok1 in
              let resp2 := server e (sent s0 ++ [r1]) r2 in
              status_code resp2 <> 200 -> json_of resp2 <> None ->
              fst (_authenticate force e s0)
              = Raise (SalesforceDataCloudError "Data Cloud Token Exchange" (req_url r2)
                         (status_code resp2) (text resp2))))
  (* the close and abort PATCH is not checked *)
  /\ (forall job_id state,
        fst (_close_job job_id state e s)
        = Return (server e (sent s1) (close_request host tok (py_str e job_id) state)))
  (* nor are the GETs of list_jobs and job_info, on a JSON body *)
  /\ (forall limit offset orderby state,
        let response := server e (sent s1) (list_request host tok limit offset orderby state) in
        json_of response <> None ->
        fst (list_jobs limit offset orderby state e s) = Return response)
  /\ (forall job_id,
        let response := server e (sent s1) (info_request host tok (py_str e job_id)) in
        json_of response <> None ->
        fst (job_info job_id e s) = Return response).
Proof.
  intros Hauth Htok Hhost.
  split; [|split; [|split; [|split; [|split; [|split; [|split; [|split; [|split;
    [|split]]]]]]]]].
  - intros api obj items test_mode records oks bad rest Hdata Hrs Hoks Hbad.
    rewrite (streaming_upsert_enters_loop api obj items test_mode e s s1 tok records
               Hauth Htok Hdata).
    rewrite (streaming_loop_fail e host tok api obj test_mode _ None s1 oks bad rest
               Hhost Hrs Hoks Hbad).
    reflexivity.
  - intros api obj op files req response Hbad error.
    pose proof (create_job_rejected api obj op e s1 tok host Htok Hhost Hbad) as Hcreate.
    split.
    + rewrite Hcreate. reflexivity.
    + unfold _bulk_operation. rewrite (bind_Return _ _ _ _ _ _ Hauth).
      rewrite (bind_Raise _ _ _ _ _ _ Hcreate). reflexivity.
  - intros url headers chunk s2 response Hbad.
    rewrite (split_callback_rejected url headers chunk e s2 Hbad). reflexivity.
  - intros api obj op files tempdir encoding items id oks bad rest Htemp Henc create
           Hcreated Hjson Hid url chunks put Hclean Hrs Hoks Hbad error s3.
    rewrite (bulk_operation_created e s s1 tok host api obj op files items id
               Hauth Htok Hhost Hcreated Hjson Hid).
    unfold try_finally.
    rewrite (upload_and_close_rejected e s1 tok host api obj op tempdir encoding files
               id Htok Hhost Htemp Henc Hclean oks bad rest Hrs Hoks Hbad).
    fold create url chunks put error s3.
    assert (Hrun : (bind (abort_job id) (fun _ => ret tt)) e s3
                   = (match fst (abort_job id e s3) with
                      | Return _ => Return tt
                      | Raise x => Raise x
                      | OutOfFuel => OutOfFuel
                      end, snd (abort_job id e s3))).
    { unfold bind. destruct (abort_job id e s3) as [[r|x|] s4]; reflexivity. }
    unfold abort_if_open.
    destruct id; try (rewrite Hrun; destruct (fst (abort_job _ e s3)); reflexivity).
    reflexivity.
  - intros api obj files x. split; intros Hraise.
    + rewrite bulk_upsert_run, Hraise. reflexivity.
    + rewrite bulk_delete_run, Hraise. reflexivity.
  - intros fuel query_str req response Hbad.
    rewrite (query_rejected fuel query_str e s s1 tok host Hauth Htok Hhost Hbad).
    reflexivity.
  - intros fuel query_str page metadata data nexts last done next req response
           Hok Hjson Hmeta Hdata Hframe df Hrun Hdone Hfalse Hnext Hfuel gets req2
           rejected Hbad.
    rewrite (query_enters_loop fuel query_str e s s1 tok host page metadata data
               Hauth Htok Hhost Hok Hjson Hmeta Hdata Hframe).
    replace fuel with (length nexts + S (fuel - S (length nexts)))%nat by lia.
    rewrite (query_loop_run e host tok metadata df nexts _ page last);
      [| exact Hhost | exact Hrun].
    match goal with
    | |- fst (query_loop _ _ _ _ _ _ ?st) = _ =>
        rewrite (query_loop_rejected _ host tok (VDict metadata) last done next df e st
                   Hhost Hdone Hfalse Hnext)
    end.
    + cbn [fst sent set_sent]. fold gets req2. rewrite <- app_assoc. reflexivity.
    + cbn [sent set_sent]. fold gets req2. rewrite <- app_assoc. exact Hbad.
  - intros s0 T force key login Htime Hkey Hlogin Hcase jwt r1 resp1. split.
    + intros Hbad Hjson.
      rewrite (authenticate_s2s_rejected e s0 T force key login Htime Hkey Hlogin Hcase Hbad).
      cbn [fst]. unfold rejection. fold jwt r1 resp1.
      destruct (json_of resp1); [reflexivity | congruence].
    + intros tok1 inst Hacc r2 resp2 Hbad Hjson.
      rewrite (authenticate_cdp_rejected e s0 T force key login Htime Hkey Hlogin Hcase
                 tok1 inst Hacc Hbad).
      cbn [fst]. unfold rejection. fold jwt r1 r2 resp2.
      destruct (json_of resp2); [reflexivity | congruence].
  - intros job_id state.
    rewrite (close_job_returns job_id state e s s1 tok host Hauth Htok Hhost). reflexivity.
  - intros limit offset orderby state response Hjson.
    rewrite (list_jobs_returns limit offset orderby state e s s1 tok host
               Hauth Htok Hhost Hjson).
    reflexivity.
  - intros job_id response Hjson.
    rewrite (job_info_returns job_id e s s1 tok host Hauth Htok Hhost Hjson). reflexivity.
Qed.

(** Each checked site at an endpoint that rejects it (a streaming POST, job
    creation, the second upload of a job, the query POST, the third page of
    a result, the login exchange), and the unchecked close. *)
Lemma checked_sites_raise_witness :
  let e := mock_env platform_rejects in
  let body := Json.dumps (VDict [("error", VStr "rejected")]) in
  fst (_bulk_operation "api" "obj" ["a.csv"] "upsert" e new_instance)
  = Raise (SalesforceDataCloudError "Create Job"
             "https://dc.example.com/api/v1/ingest/jobs" 500 body)
  /\ fst (_bulk_operation "api" "obj" ["a.csv"; "b.csv"] "upsert" second_upload_rejected
            new_instance)
     = Raise (SalesforceDataCloudError "Upload File"
                "https://dc.example.com/api/v1/ingest/jobs/job-1/batches" 500 body)
  /\ fst (query 5 "SELECT 1" e new_instance)
     = Raise (SalesforceDataCloudError "Query" "https://dc.example.com/api/v2/query" 500 body)
  /\ fst (streaming_upsert "api" "obj" (VDict [("data", VList [rec_a1])]) false e new_instance)
     = Raise (SalesforceDataCloudError "Streaming UPSERT"
                "https://dc.example.com/api/v1/ingest/sources/api/obj" 500 body)
  /\ fst (query 5 "SELECT 1" (mock_env_with third_page_rejected all_ok) new_instance)
     = Raise (SalesforceDataCloudError "Query"
                "https://dc.example.com/api/v2/query/batch-3" 503 body)
  /\ fst (_authenticate true (mock_env login_rejects) authenticated)
     = Raise (SalesforceDataCloudError "Get S2S Access Token"
                "https://login.salesforce.com/services/oauth2/token" 401 body)
  /\ (exists response,
         fst (_close_job (VStr "job-1") "UploadComplete" e new_instance) = Return response
         /\ status_code response = 500).
Proof.
  intros e body.
  destruct (checked_sites_raise e new_instance authenticated "cdp-token" "dc.example.com")
    as (Hstream & Hcreate & _ & _ & _ & Hquery & _ & _ & Hclose & _).
  { apply mock_authentication; reflexivity. }
  { vm_compute. reflexivity. }
  { vm_compute. reflexivity. }
  destruct (checked_sites_raise second_upload_rejected new_instance authenticated
              "cdp-token" "dc.example.com")
    as (_ & _ & _ & Hupload & _).
  { vm_compute. reflexivity. }
  { vm_compute. reflexivity. }
  { vm_compute. reflexivity. }
  destruct (checked_sites_raise (mock_env_with third_page_rejected all_ok) new_instance
              authenticated "cdp-token" "dc.example.com")
    as (_ & _ & _ & _ & _ & _ & Hpage & _).
  { vm_compute. reflexivity. }
  { vm_compute. reflexivity. }
  { vm_compute. reflexivity. }
  destruct (checked_sites_raise (mock_env login_rejects) authenticated
              (set_ticks 4 authenticated) "cdp-token" "dc.example.com")
    as (_ & _ & _ & _ & _ & _ & _ & Hauth & _).
  { vm_compute. reflexivity. }
  { vm_compute. reflexivity. }
  { vm_compute. reflexivity. }
  split.
  { destruct (Hcreate "api" "obj" "upsert" ["a.csv"]) as [_ Hop].
    - vm_compute. discriminate.
    - rewrite Hop. vm_compute. reflexivity. }
  split.
  { rewrite (Hupload "api" "obj" "upsert" ["a.csv"; "b.csv"] (VStr "tempfiles")
               (VStr "utf-8") [("id", VStr "job-1")] (VStr "job-1")
               [reply 202 202 (VDict [("accepted", VBool true)])]
               (reply 500 202 VNone)
               [reply 500 202 VNone; reply 500 202 VNone]).
    - vm_compute. reflexivity.
    - vm_compute. reflexivity.
    - vm_compute. reflexivity.
    - vm_compute. reflexivity.
    - vm_compute. reflexivity.
    - reflexivity.
    - repeat constructor.
    - vm_compute. reflexivity.
    - repeat constructor.
    - vm_compute. discriminate. }
  split.
  { rewrite Hquery by (vm_compute; discriminate). vm_compute. reflexivity. }
  split.
  { rewrite (Hstream "api" "obj" [("data", VList [rec_a1])] false [rec_a1] []
               (reply 500 202 VNone) []).
    - reflexivity.
    - reflexivity.
    - vm_compute. reflexivity.
    - constructor.
    - vm_compute. discriminate. }
  split.
  { rewrite (Hpage 5%nat "SELECT 1" page_one_items page_metadata
               (VList [VList [VInt 1; VStr "ann"]; VList [VInt 2; VStr "bob"]])
               [VStr "batch-2"]
               [("data", VList [VList [VInt 3; VStr "cy"]]); ("done", VBool false);
                ("nextBatchId", VStr "batch-3")]
               (VBool false) (VStr "batch-3")).
    - vm_compute. reflexivity.
    - vm_compute. reflexivity.
    - vm_compute. reflexivity.
    - reflexivity.
    - reflexivity.
    - reflexivity.
    - split; [exists (VBool false); split; reflexivity|].
      split; [reflexivity|]. split; [vm_compute; reflexivity|].
      exists [("data", VList [VList [VInt 3; VStr "cy"]]); ("done", VBool false);
              ("nextBatchId", VStr "batch-3")], (VList [VList [VInt 3; VStr "cy"]]).
      split; [vm_compute; reflexivity|]. split; [reflexivity|].
      split; [reflexivity|]. split; reflexivity.
    - reflexivity.
    - reflexivity.
    - reflexivity.
    - cbn. lia.
    - vm_compute. discriminate. }
  split.
  { destruct (Hauth authenticated 1700000000001 true (VStr "PRIVATE KEY")
                "login.salesforce.com") as [Hs2s _].
    - vm_compute. reflexivity.
    - vm_compute. reflexivity.
    - vm_compute. reflexivity.
    - left. reflexivity.
    - rewrite Hs2s; [vm_compute; reflexivity | vm_compute; discriminate
                    | vm_compute; discriminate]. }
  eexists. split.
  { apply Hclose. }
  vm_compute. reflexivity.
Defined.
